(** * DocSage: a shallow embedding of the question-answering pipeline

    The Python sources embedded here are
    - [src/database/models.py]          (tables and CRUD helpers),
    - [src/services/document_service.py] (ingestion, chat bookkeeping,
      the tiered [ask_question]),
    - [src/services/vector_store.py]    (the flat L2 index wrapper),
    - [src/services/pdf_processor.py]   (chunking),
    - [src/services/qa_service.py]      (direct and agentic answers),
    - [src/services/web_search.py]      (the Serper tool).

    Conventions.  A Python [str] is a [string] of its code points, which
    the model takes below U+0100: an [ascii] is the code point of that
    number.  Case and whitespace follow the Unicode tables that Python 3
    uses, on that range.  A Python [int] is a [Z].  Code that can raise
    returns a [result];
    code that talks to the database, the embedding model, the language
    model or the network runs in the monad [M], which threads the
    database and a log of the external calls made so far. *)

From Stdlib Require Import String Ascii List ZArith Lia Bool Arith.
From Stdlib Require Import DecimalString Decimal Sorted.
Import ListNotations.

Local Open Scope string_scope.
Local Open Scope list_scope.

(* ================================================================= *)
(** ** Python built-ins used by the sources *)

Module Py.

(** [len(s)] *)
Definition len (s : string) : nat := String.length s.

(** [str(n)] for a non-negative [int]. *)
Definition str_of_nat (n : nat) : string :=
  NilEmpty.string_of_uint (Nat.to_uint n).

(** [sub in s]: substring containment. *)
Fixpoint contains (sub s : string) : bool :=
  String.prefix sub s ||
  match s with
  | EmptyString => false
  | String _ s' => contains sub s'
  end.

(** The code point of a character. *)
Definition code (c : ascii) : nat := nat_of_ascii c.

Definition between (lo n hi : nat) : bool := ((lo <=? n) && (n <=? hi))%nat.

(** The cased characters below U+0100: the letters A-Z and a-z, the
    capitals U+00C0-U+00DE without the multiplication sign U+00D7, the
    small letters U+00DF-U+00FF without the division sign U+00F7, and
    the ordinal indicators U+00AA, U+00BA and the micro sign U+00B5. *)
Definition is_upper (c : ascii) : bool :=
  let n := code c in
  between 65 n 90 || (between 192 n 222 && negb (n =? 215)%nat).

Definition is_lower (c : ascii) : bool :=
  let n := code c in
  between 97 n 122
  || (between 223 n 255 && negb (n =? 247)%nat)
  || (n =? 170)%nat || (n =? 181)%nat || (n =? 186)%nat.

Definition is_cased (c : ascii) : bool := is_upper c || is_lower c.

(** The lower case of a character: a capital moves up by 32. *)
Definition to_lower (c : ascii) : ascii :=
  if is_upper c then ascii_of_nat (code c + 32) else c.

(** The capital of a small letter that has one below U+0100: it lies 32
    below.  The sharp s U+00DF has none, and the capitals of the micro
    sign U+00B5 and of U+00FF lie above U+00FF. *)
Definition has_capital (c : ascii) : bool :=
  let n := code c in
  between 97 n 122 || (between 224 n 254 && negb (n =? 247)%nat).

Definition to_upper (c : ascii) : ascii :=
  if has_capital c then ascii_of_nat (code c - 32) else c.

(** The sharp s, U+00DF. *)
Definition sharp_s : ascii := ascii_of_nat 223.

(** The title case of a character, which for the sharp s is the two
    characters "Ss".  The title case of the micro sign and of U+00FF is
    a character above U+00FF; the model leaves these two as they are,
    and [in_range] holds of the strings without them. *)
Definition to_title (c : ascii) : string :=
  if Ascii.eqb c sharp_s then "Ss" else String (to_upper c) EmptyString.

(** [all(p(c) for c in s)] *)
Fixpoint every (p : ascii -> bool) (s : string) : bool :=
  match s with
  | EmptyString => true
  | String c s' => p c && every p s'
  end.

(** The title case of [c] is a character below U+0100: [c] is neither
    the micro sign U+00B5 nor U+00FF. *)
Definition title_in_range (c : ascii) : bool :=
  negb (code c =? 181)%nat && negb (code c =? 255)%nat.

Definition in_range (s : string) : bool := every title_in_range s.

(** The title case of [c] is one character below U+0100: [c] is not the
    sharp s either. *)
Definition title_is_one (c : ascii) : bool :=
  title_in_range c && negb (Ascii.eqb c sharp_s).

Definition plain (s : string) : bool := every title_is_one s.

(** [s.lower()] *)
Fixpoint lower (s : string) : string :=
  match s with
  | EmptyString => EmptyString
  | String c s' => String (to_lower c) (lower s')
  end.

(** [s.title()]: a character is put in title case when the previous
    character is not cased, and in lower case otherwise. *)
Fixpoint title_from (previous_is_cased : bool) (s : string) : string :=
  match s with
  | EmptyString => EmptyString
  | String c s' =>
      ((if previous_is_cased
        then String (to_lower c) EmptyString
        else to_title c)
       ++ title_from (is_cased c) s')%string
  end.

Definition title (s : string) : string := title_from false s.

(** [s.replace(a, b)] for one-character [a] and [b]. *)
Fixpoint replace_char (a b : ascii) (s : string) : string :=
  match s with
  | EmptyString => EmptyString
  | String c s' =>
      String (if Ascii.eqb c a then b else c) (replace_char a b s')
  end.

(** [str.isspace] on one character: TAB, LF, VT, FF, CR, FS, GS, RS, US,
    the space, NEL (U+0085) and the no-break space (U+00A0). *)
Definition is_space (c : ascii) : bool :=
  let n := code c in
  between 9 n 13 || between 28 n 32 || (n =? 133)%nat || (n =? 160)%nat.

(** [s.split()]: the maximal runs of non-space characters.  [cur] is the
    run being read. *)
Fixpoint split_ws_from (cur : string) (s : string) : list string :=
  match s with
  | EmptyString =>
      match cur with EmptyString => [] | _ => [cur] end
  | String c s' =>
      if is_space c then
        match cur with
        | EmptyString => split_ws_from EmptyString s'
        | _ => cur :: split_ws_from EmptyString s'
        end
      else split_ws_from (cur ++ String c EmptyString) s'
  end.

Definition split_ws (s : string) : list string :=
  split_ws_from EmptyString s.

(** [sep.join(l)] *)
Definition join (sep : string) (l : list string) : string :=
  String.concat sep l.

(** [s[:n]] *)
Definition slice_to (n : nat) (s : string) : string :=
  String.substring 0 n s.

(** [s.rsplit(c, 1)[0]]: what precedes the last [c], or all of [s] when
    [c] does not occur.  [before_last c s] is [None] in the latter case. *)
Fixpoint before_last (c : ascii) (s : string) : option string :=
  match s with
  | EmptyString => None
  | String x s' =>
      match before_last c s' with
      | Some p => Some (String x p)
      | None => if Ascii.eqb x c then Some EmptyString else None
      end
  end.

Definition rsplit1_head (c : ascii) (s : string) : string :=
  match before_last c s with
  | Some p => p
  | None => s
  end.

(** [s.strip()] *)
Fixpoint lstrip (s : string) : string :=
  match s with
  | EmptyString => EmptyString
  | String c s' => if is_space c then lstrip s' else s
  end.

Fixpoint rstrip (s : string) : string :=
  match s with
  | EmptyString => EmptyString
  | String c s' =>
      match rstrip s' with
      | EmptyString => if is_space c then EmptyString else String c EmptyString
      | r => String c r
      end
  end.

Definition strip (s : string) : string := rstrip (lstrip s).

(** [l[i]] with Python's negative indices; out of range raises
    [IndexError], rendered as [None]. *)
Definition index {A : Type} (l : list A) (i : Z) : option A :=
  let n := Z.of_nat (List.length l) in
  if (0 <=? i)%Z then nth_error l (Z.to_nat i)
  else if (- n <=? i)%Z then nth_error l (Z.to_nat (n + i))
  else None.

(** [enumerate(l)] *)
Fixpoint enumerate_from {A : Type} (i : nat) (l : list A) : list (nat * A) :=
  match l with
  | [] => []
  | x :: l' => (i, x) :: enumerate_from (S i) l'
  end.

Definition enumerate {A : Type} (l : list A) : list (nat * A) :=
  enumerate_from 0 l.

(** [sum(l)] *)
Definition sum (l : list Z) : Z := fold_left Z.add l 0%Z.

(** [str(n)] for an [int]. *)
Definition str_of_Z (n : Z) : string :=
  NilEmpty.string_of_int (Z.to_int n).

(** [os.path.basename(p)]: what follows the last slash. *)
Fixpoint after_last (c : ascii) (s : string) : option string :=
  match s with
  | EmptyString => None
  | String x s' =>
      match after_last c s' with
      | Some t => Some t
      | None => if Ascii.eqb x c then Some s' else None
      end
  end.

Definition basename (p : string) : string :=
  match after_last "/" p with
  | Some t => t
  | None => p
  end.

End Py.

(* ================================================================= *)
(** ** Results of code that can raise *)

(** [Raise e] is a raised exception whose [str(e)] is [e]. *)
Inductive result (A : Type) : Type :=
| Ok (a : A)
| Raise (e : string).

Arguments Ok {A} a.
Arguments Raise {A} e.

(** [ORDER BY]: a stable insertion sort for a boolean order [le]. *)
Fixpoint insert_by {A : Type} (le : A -> A -> bool) (x : A) (l : list A)
  : list A :=
  match l with
  | [] => [x]
  | y :: l' => if le x y then x :: l else y :: insert_by le x l'
  end.

Fixpoint sort_by {A : Type} (le : A -> A -> bool) (l : list A) : list A :=
  match l with
  | [] => []
  | x :: l' => insert_by le x (sort_by le l')
  end.

(* ================================================================= *)
(** ** src/database/models.py: the tables *)

Module models.

(** Rows of the four tables and of the association table
    [chat_documents].  Identifiers are the uuid strings. *)
Record Document := mkDocument {
  doc_id : string;
  filename : string;
  originalName : string;
  fileSize : Z;
  uploadedAt : Z;
  processed : bool
}.

Record Chunk := mkChunk {
  chunk_id : string;
  documentId : string;
  content : string;
  chunkIndex : Z;
  embedding : list Z;
  chunk_createdAt : Z
}.

Record ChatSession := mkChatSession {
  chat_id : string;
  name : string;
  chat_createdAt : Z
}.

Record ChatMessage := mkChatMessage {
  msg_id : string;
  chatId : string;
  question : string;
  answer : string;
  timestamp : Z
}.

Record DB := mkDB {
  documents : list Document;
  chunks : list Chunk;
  chat_sessions : list ChatSession;
  chat_documents : list (string * string);   (* (chat_id, document_id) *)
  chat_messages : list ChatMessage
}.

Definition empty_db : DB := mkDB [] [] [] [] [].

(** [db.query(Document).filter(Document.id == document_id).first()] *)
Definition get_document (db : DB) (document_id : string) : option Document :=
  find (fun d => String.eqb (doc_id d) document_id) (documents db).

Definition list_documents (db : DB) : list Document := documents db.

(** [db.query(ChatSession).filter(ChatSession.id == chat_id).first()] *)
Definition get_chat_session (db : DB) (cid : string) : option ChatSession :=
  find (fun c => String.eqb (chat_id c) cid) (chat_sessions db).

(** The documents joined to a chat through [chat_documents], row by
    row. *)
Definition joined_documents (db : DB) (cid : string) : list Document :=
  flat_map
    (fun row =>
       if String.eqb (fst row) cid then
         match get_document db (snd row) with
         | Some d => [d]
         | None => []
         end
       else [])
    (chat_documents db).

Definition id_le (a b : Document) : bool :=
  String.leb (doc_id a) (doc_id b).

(** The relationship [ChatSession.documents].  It declares no
    [order_by]: SQLite reads the association rows of the chat through
    the primary-key index [(chat_id, document_id)] of [chat_documents],
    so the documents come in the order of their ids, whatever the order
    in which they were added. *)
Definition chat_documents_of (db : DB) (cid : string) : list Document :=
  sort_by id_le (joined_documents db cid).

Definition get_chat_document_count (db : DB) (cid : string) : nat :=
  match get_chat_session db cid with
  | Some _ => List.length (chat_documents_of db cid)
  | None => 0
  end.

(** [document in chat.documents] *)
Definition document_in_chat (db : DB) (cid did : string) : bool :=
  existsb (fun d => String.eqb (doc_id d) did) (chat_documents_of db cid).

Definition create_document (db : DB) (fresh_id : string) (now : Z)
    (file_name original_name : string) (file_size : Z) : Document * DB :=
  let doc := mkDocument fresh_id file_name original_name file_size now false in
  (doc, mkDB (documents db ++ [doc]) (chunks db) (chat_sessions db)
             (chat_documents db) (chat_messages db)).

(** [db.delete(doc)]: the relationship [chunks] cascades
    ([cascade="all, delete-orphan"]) and the rows of the [secondary]
    table that mention the document go with it. *)
Definition delete_document (db : DB) (document_id : string) : DB :=
  match get_document db document_id with
  | Some _ =>
      mkDB
        (filter (fun d => negb (String.eqb (doc_id d) document_id))
                (documents db))
        (filter (fun c => negb (String.eqb (documentId c) document_id))
                (chunks db))
        (chat_sessions db)
        (filter (fun row => negb (String.eqb (snd row) document_id))
                (chat_documents db))
        (chat_messages db)
  | None => db
  end.

Definition create_chunk (db : DB) (fresh_id : string) (now : Z)
    (document_id text : string) (chunk_index : Z) (emb : list Z)
  : Chunk * DB :=
  let chunk := mkChunk fresh_id document_id text chunk_index emb now in
  (chunk, mkDB (documents db) (chunks db ++ [chunk]) (chat_sessions db)
               (chat_documents db) (chat_messages db)).

Definition chunk_le (a b : Chunk) : bool :=
  match String.compare (documentId a) (documentId b) with
  | Lt => true
  | Eq => (chunkIndex a <=? chunkIndex b)%Z
  | Gt => false
  end.

Definition get_chunks (db : DB) (document_id : string) : list Chunk :=
  sort_by (fun a b => (chunkIndex a <=? chunkIndex b)%Z)
    (filter (fun c => String.eqb (documentId c) document_id) (chunks db)).

(** [filter(Chunk.documentId.in_(document_ids))
     .order_by(Chunk.documentId, Chunk.chunkIndex.asc())] *)
Definition get_chunks_for_documents (db : DB) (document_ids : list string)
  : list Chunk :=
  sort_by chunk_le
    (filter (fun c => existsb (String.eqb (documentId c)) document_ids)
            (chunks db)).

Definition create_chat_session (db : DB) (fresh_id : string) (now : Z)
    (chat_name : string) : ChatSession * DB :=
  let chat := mkChatSession fresh_id chat_name now in
  (chat, mkDB (documents db) (chunks db) (chat_sessions db ++ [chat])
              (chat_documents db) (chat_messages db)).

(** [chat.name = new_name] on the first session with that id. *)
Fixpoint rename_first (cid new_name : string) (l : list ChatSession)
  : list ChatSession :=
  match l with
  | [] => []
  | c :: l' =>
      if String.eqb (chat_id c) cid
      then mkChatSession (chat_id c) new_name (chat_createdAt c) :: l'
      else c :: rename_first cid new_name l'
  end.

Definition rename_chat_session (db : DB) (cid new_name : string) : DB :=
  mkDB (documents db) (chunks db)
       (rename_first cid new_name (chat_sessions db))
       (chat_documents db) (chat_messages db).

Definition add_document_to_chat (db : DB) (cid document_id : string) : DB :=
  match get_chat_session db cid, get_document db document_id with
  | Some _, Some _ =>
      if document_in_chat db cid document_id then db
      else mkDB (documents db) (chunks db) (chat_sessions db)
                (chat_documents db ++ [(cid, document_id)])
                (chat_messages db)
  | _, _ => db
  end.

Definition remove_document_from_chat (db : DB) (cid document_id : string)
  : DB :=
  match get_chat_session db cid, get_document db document_id with
  | Some _, Some _ =>
      if document_in_chat db cid document_id then
        mkDB (documents db) (chunks db) (chat_sessions db)
             (filter (fun row => negb (String.eqb (fst row) cid
                                       && String.eqb (snd row) document_id))
                     (chat_documents db))
             (chat_messages db)
      else db
  | _, _ => db
  end.

(** Deleting a chat cascades to its messages and its association rows. *)
Definition delete_chat_session (db : DB) (cid : string) : DB :=
  match get_chat_session db cid with
  | Some _ =>
      mkDB (documents db) (chunks db)
           (filter (fun c => negb (String.eqb (chat_id c) cid))
                   (chat_sessions db))
           (filter (fun row => negb (String.eqb (fst row) cid))
                   (chat_documents db))
           (filter (fun m => negb (String.eqb (chatId m) cid))
                   (chat_messages db))
  | None => db
  end.

Definition create_chat_message (db : DB) (fresh_id : string) (now : Z)
    (cid q a : string) : ChatMessage * DB :=
  let message := mkChatMessage fresh_id cid q a now in
  (message, mkDB (documents db) (chunks db) (chat_sessions db)
                 (chat_documents db) (chat_messages db ++ [message])).

Definition get_chat_messages (db : DB) (cid : string) : list ChatMessage :=
  sort_by (fun a b => (timestamp a <=? timestamp b)%Z)
    (filter (fun m => String.eqb (chatId m) cid) (chat_messages db)).

(** [db.query(ChatMessage).filter(ChatMessage.chatId == chat_id).delete()] *)
Definition clear_chat_messages (db : DB) (cid : string) : DB :=
  mkDB (documents db) (chunks db) (chat_sessions db) (chat_documents db)
       (filter (fun m => negb (String.eqb (chatId m) cid)) (chat_messages db)).

(** [db.query(ChatSession).order_by(ChatSession.createdAt.desc()).all()] *)
Definition list_chat_sessions (db : DB) : list ChatSession :=
  sort_by (fun a b => (chat_createdAt b <=? chat_createdAt a)%Z)
          (chat_sessions db).

End models.

(* ================================================================= *)
(** ** The flat L2 index *)

(** Embedding vectors.  The components are the numbers the embedding
    model returns, taken to be integers. *)
Definition vector := list Z.

(** [x.astype('float32')] on one component: the nearest number with a
    significand of 24 bits, ties to the even significand (below the
    overflow threshold of the format). *)
Definition float32 (z : Z) : Z :=
  let a := Z.abs z in
  let e := Z.log2 a in
  if (e <? 24)%Z then z
  else
    let shift := (e - 23)%Z in
    let m := Z.shiftr a shift in
    let rest := (a - Z.shiftl m shift)%Z in
    let half := Z.shiftl 1 (shift - 1) in
    let m' :=
      if (half <? rest)%Z || ((rest =? half)%Z && Z.odd m)
      then (m + 1)%Z else m in
    (Z.sgn z * Z.shiftl m' shift)%Z.

Definition astype_float32 (v : vector) : vector := map float32 v.

Module faiss.

(** Modelled from the spec: [faiss.IndexFlatL2] is the third-party index
    that src/services/vector_store.py creates and queries; it is not
    under src/.  Section 4.2 fixes its behaviour: exact brute-force
    search, squared Euclidean distance, nearest first, ties in original
    order.  As in the library, [search] answers with exactly [k] labels
    and fills the slots for which no vector is stored with [-1].  The
    index holds float32 vectors and computes their distances in float32
    arithmetic; [distance] stands for that computation, whose rounding
    the sources do not fix. *)
Record IndexFlatL2 := mkIndex {
  d : nat;
  xb : list vector
}.

Definition ntotal (index : IndexFlatL2) : nat := List.length (xb index).

(** The squared Euclidean distance in exact arithmetic. *)
Fixpoint l2sqr (x y : vector) : Z :=
  match x, y with
  | a :: x', b :: y' => ((a - b) * (a - b) + l2sqr x' y')%Z
  | _, _ => 0%Z
  end.

Section Search.

Variable distance : vector -> vector -> Z.

(** The stored vectors as (label, distance to [q]), nearest first. *)
Definition ranked (index : IndexFlatL2) (q : vector) : list (nat * Z) :=
  sort_by (fun a b => (snd a <=? snd b)%Z)
    (map (fun p => (fst p, distance q (snd p))) (Py.enumerate (xb index))).

(** The order of the answer: nearer first, and of two stored vectors at
    the same distance the one stored first. *)
Definition nearer (a b : nat * Z) : Prop :=
  (snd a < snd b)%Z \/ (snd a = snd b /\ fst a < fst b).

(** [D, I = index.search(q, k)]: the labels [I[0]]. *)
Definition search (index : IndexFlatL2) (q : vector) (k : nat)
  : result (list Z) :=
  if Nat.eqb (List.length q) (d index) then
    let found := map (fun p => Z.of_nat (fst p)) (firstn k (ranked index q)) in
    Ok (found ++ repeat (-1)%Z (k - List.length found))
  else Raise "AssertionError".

End Search.

End faiss.

(** [np.array(vectors).astype('float32')]: the rows must have one
    length, and every component is converted. *)
Definition np_array (vectors : list vector) : result (list vector) :=
  match vectors with
  | [] => Ok []
  | v :: rest =>
      if forallb (fun u => Nat.eqb (List.length u) (List.length v)) rest
      then Ok (map astype_float32 vectors)
      else Raise "setting an array element with a sequence."
  end.

Arguments np_array : simpl never.

(** [array.shape[1]]: an array built from the empty list has one axis
    only. *)
Definition shape1 (array : list vector) : result nat :=
  match array with
  | [] => Raise "tuple index out of range"
  | v :: _ => Ok (List.length v)
  end.

(* ================================================================= *)
(** ** The outside world *)

(** Decoded JSON, as [response.json()] returns it. *)
#[local] Unset Elimination Schemes.
Inductive json : Type :=
| JNull
| JBool (b : bool)
| JNumber (n : Z)
| JString (s : string)
| JArray (l : list json)
| JObject (fields : list (string * json)).
#[local] Set Elimination Schemes.

(** A [requests] response: the status line, the message of the
    [HTTPError] that [raise_for_status] raises for a 4xx or 5xx status,
    and the decoded body (or the decoding error). *)
Record Response := mkResponse {
  status_code : Z;
  http_error : string;
  json_body : result json
}.

(** One step of the tool-using agent. *)
Inductive AgentAction : Type :=
| AgentFinish (output : string)
| AgentCall (tool tool_input : string).

(** What has been asked of the outside so far. *)
Inductive Event : Type :=
| EvDb (op : string)
| EvExtractText (path : string)
| EvEmbedDocuments (texts : list string)
| EvEmbedQuery (text : string)
| EvLLM (prompt : string)
| EvAgentStep (question : string)
| EvHttpPost (query : string).

(** How a helper of models.py can fail: the statement or the commit
    raises and the [except] clause rolls back, so nothing is stored; or,
    in a helper that refreshes its row after the commit, the refresh
    raises, and the row is stored although the helper raises. *)
Inductive DbFault : Type :=
| RolledBack (e : string)
| AfterCommit (e : string).

Definition fault_message (fault : DbFault) : string :=
  match fault with
  | RolledBack e => e
  | AfterCommit e => e
  end.

(** The collaborators of the pipeline.  Every answer may depend on the
    calls made before it. *)
Record World := mkWorld {
  uuid4 : list Event -> string;
  now : list Event -> Z;
  db_fault : list Event -> option DbFault;
  pdf_text : list Event -> string -> result string;
  embed_model : string -> vector;
  embed_fault : list Event -> option string;
  fvec_L2sqr : vector -> vector -> Z;
  llm : list Event -> string -> result string;
  agent_policy :
    list Event -> string -> list (AgentAction * string) -> result AgentAction;
  SERPER_API_KEY : option string;
  http_post : list Event -> string -> string -> result Response;
  py_repr : json -> string
}.

(* ================================================================= *)
(** ** The monad of the services *)

(** A retriever over a langchain FAISS store: the texts, their vectors
    in a flat L2 index, and the top-k setting. *)
Record Retriever := mkRetriever {
  r_texts : list string;
  r_index : faiss.IndexFlatL2;
  r_k : nat
}.

(** The fields of [VectorStore]. *)
Record VectorStore := mkVectorStore {
  vs_index : option faiss.IndexFlatL2;
  vs_texts : list string;
  vs_embedded_vectors : option (list vector)
}.

(** The mutable state: the database, the fields of the service objects,
    and the log of external calls. *)
Record State := mkState {
  st_db : models.DB;
  st_vector_store : VectorStore;
  st_qa_chain : option Retriever;
  st_log : list Event
}.

Definition M (A : Type) : Type := State -> result A * State.

Definition ret {A : Type} (a : A) : M A := fun st => (Ok a, st).

Definition raise {A : Type} (e : string) : M A := fun st => (Raise e, st).

Definition bind {A B : Type} (m : M A) (f : A -> M B) : M B :=
  fun st =>
    match m st with
    | (Ok a, st') => f a st'
    | (Raise e, st') => (Raise e, st')
    end.

(** [try: m  except Exception as e: h e] *)
Definition try_except {A : Type} (m : M A) (h : string -> M A) : M A :=
  fun st =>
    match m st with
    | (Ok a, st') => (Ok a, st')
    | (Raise e, st') => h e st'
    end.

Declare Scope monad_scope.
Delimit Scope monad_scope with monad.
Notation "x <- m ;; k" := (bind m (fun x => k))
  (at level 61, m at next level, right associativity) : monad_scope.
Notation "m ;;; k" := (bind m (fun _ => k))
  (at level 61, right associativity) : monad_scope.
Local Open Scope monad_scope.

Definition log_event (ev : Event) : M unit :=
  fun st =>
    (Ok tt, mkState (st_db st) (st_vector_store st) (st_qa_chain st)
                    (st_log st ++ [ev])).

Definition lift_result {A : Type} (r : result A) : M A :=
  match r with
  | Ok a => ret a
  | Raise e => raise e
  end.

Section Services.

Variable w : World.

(** A helper of models.py whose last statement in the [try] is the
    commit (or that only reads): it either commits [f] or fails and
    rolls back, leaving the tables as they were. *)
Definition db_call {A : Type} (op : string)
    (f : list Event -> models.DB -> A * models.DB) : M A :=
  fun st =>
    let st' := mkState (st_db st) (st_vector_store st) (st_qa_chain st)
                       (st_log st ++ [EvDb op]) in
    match db_fault w (st_log st) with
    | Some fault => (Raise (fault_message fault), st')
    | None =>
        let (a, db') := f (st_log st) (st_db st) in
        (Ok a, mkState db' (st_vector_store st) (st_qa_chain st) (st_log st'))
    end.

(** A helper of models.py that adds a row:
    [db.add(row); db.commit(); db.refresh(row); return row] inside one
    [try].  When the refresh raises the commit has been made, and the
    [db.rollback()] of the [except] clause has nothing to undo. *)
Definition db_insert {A : Type} (op : string)
    (f : list Event -> models.DB -> A * models.DB) : M A :=
  fun st =>
    let st' := mkState (st_db st) (st_vector_store st) (st_qa_chain st)
                       (st_log st ++ [EvDb op]) in
    let (a, db') := f (st_log st) (st_db st) in
    let stored := mkState db' (st_vector_store st) (st_qa_chain st)
                          (st_log st') in
    match db_fault w (st_log st) with
    | Some (RolledBack e) => (Raise e, st')
    | Some (AfterCommit e) => (Raise e, stored)
    | None => (Ok a, stored)
    end.

Definition db_read {A : Type} (op : string) (f : models.DB -> A) : M A :=
  db_call op (fun _ db => (f db, db)).

Definition db_write (op : string) (f : models.DB -> models.DB) : M unit :=
  db_call op (fun _ db => (tt, f db)).

(** [self.embeddings.embed_documents(texts)] *)
Definition embed_documents (texts : list string) : M (list vector) :=
  fun st =>
    let st' := mkState (st_db st) (st_vector_store st) (st_qa_chain st)
                       (st_log st ++ [EvEmbedDocuments texts]) in
    match embed_fault w (st_log st) with
    | Some e => (Raise e, st')
    | None => (Ok (map (embed_model w) texts), st')
    end.

(** [self.embeddings.embed_query(text)] *)
Definition embed_query (text : string) : M vector :=
  fun st =>
    let st' := mkState (st_db st) (st_vector_store st) (st_qa_chain st)
                       (st_log st ++ [EvEmbedQuery text]) in
    match embed_fault w (st_log st) with
    | Some e => (Raise e, st')
    | None => (Ok (embed_model w text), st')
    end.

End Services.

(* ================================================================= *)
(** ** src/utils/config.py *)

Module Config.
Definition MAX_FILE_SIZE : Z := 10 * 1024 * 1024.
Definition CHUNK_SIZE : nat := 1000.
Definition CHUNK_OVERLAP : nat := 200.
Definition SIMILARITY_TOP_K : nat := 5.
End Config.

(* ================================================================= *)
(** ** The recursive text splitter *)

Module text_splitter.

(** Modelled from the spec: [RecursiveCharacterTextSplitter] is the
    third-party splitter that src/services/pdf_processor.py configures
    with [chunk_size=1000], [chunk_overlap=200] and [length_function=len];
    it is not under src/.  Section 4.1 describes it: split on the largest
    available boundary (paragraph, line, word, character), merge the
    pieces into chunks of at most the maximum size that overlap by at
    most the configured overlap, and hard-split by character where no
    boundary is left.  The definitions follow the library's algorithm:
    separators stay attached to the piece that follows them, pieces are
    merged left to right, and every chunk is stripped of surrounding
    whitespace and dropped when empty. *)
Definition separators : list string :=
  [String "010" (String "010" EmptyString);
   String "010" EmptyString;
   " ";
   EmptyString].

(** [list(text)] *)
Fixpoint chars (text : string) : list string :=
  match text with
  | EmptyString => []
  | String c s' => String c EmptyString :: chars s'
  end.

(** [re.split("(sep)", text)] with each separator glued to the piece
    that follows it.  [skip] counts the characters of a matched
    separator still to be passed over; [cur] is the piece being read. *)
Fixpoint split_keep (sep : string) (skip : nat) (cur : string) (s : string)
  : list string :=
  match s with
  | EmptyString => [cur]
  | String c s' =>
      match skip with
      | S n => split_keep sep n cur s'
      | O =>
          if String.prefix sep s
          then cur :: split_keep sep (String.length sep - 1) sep s'
          else split_keep sep 0 (cur ++ String c EmptyString) s'
      end
  end.

Definition nonempty (s : string) : bool :=
  negb (String.eqb s EmptyString).

(** [_split_text_with_regex(text, separator, keep_separator=True)] *)
Definition split_text_with_regex (text sep : string) : list string :=
  filter nonempty
    (match sep with
     | EmptyString => chars text
     | _ => split_keep sep 0 EmptyString text
     end).

(** The running [total] of [_merge_splits] is the summed length of
    [current_doc]; the separator between merged pieces is empty because
    the separators are kept in the pieces. *)
Definition total (current_doc : list string) : nat :=
  fold_right (fun s n => String.length s + n) 0 current_doc.

(** [_join_docs]: [None] when nothing but whitespace is left. *)
Definition join_docs (docs : list string) : option string :=
  let text := Py.strip (Py.join EmptyString docs) in
  if String.eqb text EmptyString then None else Some text.

Definition append_doc (docs : list string) (doc : option string)
  : list string :=
  match doc with
  | Some t => docs ++ [t]
  | None => docs
  end.

Section Merge.

Variables chunk_size chunk_overlap : nat.

(** The inner [while] of [_merge_splits]: drop pieces from the front
    while more than the overlap is kept, or while the next piece of
    length [len_d] still does not fit. *)
Fixpoint pop_front (len_d : nat) (current_doc : list string) : list string :=
  match current_doc with
  | [] => []
  | _ :: rest =>
      if (chunk_overlap <? total current_doc)%nat
         || ((chunk_size <? total current_doc + len_d)%nat
             && (0 <? total current_doc)%nat)
      then pop_front len_d rest
      else current_doc
  end.

(** The [for] loop of [_merge_splits] with its final flush. *)
Fixpoint merge_loop (splits : list string) (docs current_doc : list string)
  : list string :=
  match splits with
  | [] => append_doc docs (join_docs current_doc)
  | piece :: splits' =>
      let len_d := String.length piece in
      if (chunk_size <? total current_doc + len_d)%nat then
        match current_doc with
        | [] => merge_loop splits' docs [piece]
        | _ =>
            merge_loop splits'
              (append_doc docs (join_docs current_doc))
              (pop_front len_d current_doc ++ [piece])
        end
      else merge_loop splits' docs (current_doc ++ [piece])
  end.

Definition merge_splits (splits : list string) : list string :=
  merge_loop splits [] [].

(** The loop of [_split_text] over the pieces: short pieces are
    collected in [good] and merged; a piece that is too long is split
    again with the remaining separators, or kept whole when none is
    left. *)
Fixpoint split_loop (deeper : option (string -> list string))
    (splits good : list string) : list string :=
  match splits with
  | [] => match good with [] => [] | _ => merge_splits good end
  | s :: splits' =>
      if (String.length s <? chunk_size)%nat
      then split_loop deeper splits' (good ++ [s])
      else
        (match good with [] => [] | _ => merge_splits good end)
        ++ (match deeper with
            | None => [s]
            | Some again => again s
            end)
        ++ split_loop deeper splits' []
  end.

(** [_split_text(text, separators)]: the first separator that is empty
    or occurs in the text is used, the ones after it remain for the
    pieces that are too long; when none applies the last one is used. *)
Fixpoint _split_text (seps : list string) (text : string) : list string :=
  match seps with
  | [] => []
  | sep :: rest =>
      let deeper :=
        match rest with
        | [] => None
        | _ => Some (_split_text rest)
        end in
      if String.eqb sep EmptyString then
        split_loop None (split_text_with_regex text sep) []
      else if Py.contains sep text then
        split_loop deeper (split_text_with_regex text sep) []
      else
        match rest with
        | [] => split_loop None (split_text_with_regex text sep) []
        | _ => _split_text rest text
        end
  end.

End Merge.

(** A chunk fits when it has at most [chunk_size] characters. *)
Definition fits (chunk_size : nat) (s : string) : Prop :=
  String.length s <= chunk_size.

(** [self.text_splitter.create_documents([text])]: the page contents. *)
Definition create_documents (chunk_size chunk_overlap : nat) (text : string)
  : list string :=
  _split_text chunk_size chunk_overlap separators text.

End text_splitter.

(* ================================================================= *)
(** ** src/services/pdf_processor.py *)

Module PDFProcessor.

Record ChunkDict := mkChunkDict {
  content : string;
  chunk_index : nat
}.

(** [extract_text]: the text of the pages, as pdfplumber reads them. *)
Definition extract_text (w : World) (pdf_path : string) : M string :=
  fun st =>
    let st' := mkState (st_db st) (st_vector_store st) (st_qa_chain st)
                       (st_log st ++ [EvExtractText pdf_path]) in
    match pdf_text w (st_log st) pdf_path with
    | Ok t => (Ok t, st')
    | Raise e => (Raise e, st')
    end.

Definition chunk_text (text : string) : list ChunkDict :=
  let chunks := text_splitter.create_documents 1000 200 text in
  map (fun p => mkChunkDict (snd p) (fst p)) (Py.enumerate chunks).

End PDFProcessor.

(* ================================================================= *)
(** ** src/services/web_search.py *)

Module web_search.

(** [d.get(key, default)] on a decoded object; the last binding of a
    repeated key wins. *)
Fixpoint dict_get (fields : list (string * json)) (key : string)
    (default : json) : json :=
  match fields with
  | [] => default
  | (k, v) :: rest =>
      if String.eqb k key
      then dict_get rest key v
      else dict_get rest key default
  end.

Definition type_name (v : json) : string :=
  match v with
  | JNull => "NoneType"
  | JBool _ => "bool"
  | JNumber _ => "int"
  | JString _ => "str"
  | JArray _ => "list"
  | JObject _ => "dict"
  end.

(** [v.get(key, default)]: only a dict has [get]. *)
Definition get (v : json) (key : string) (default : json) : result json :=
  match v with
  | JObject fields => Ok (dict_get fields key default)
  | _ => Raise ("'" ++ type_name v ++ "' object has no attribute 'get'")
  end.

(** Truth value of a decoded value. *)
Definition truthy (v : json) : bool :=
  match v with
  | JNull => false
  | JBool b => b
  | JNumber n => negb (Z.eqb n 0)
  | JString s => negb (String.eqb s EmptyString)
  | JArray l => match l with [] => false | _ => true end
  | JObject f => match f with [] => false | _ => true end
  end.

(** [v[:3]] *)
Definition slice3 (v : json) : result (list json) :=
  match v with
  | JArray l => Ok (firstn 3 l)
  | JString s =>
      Ok (map JString (text_splitter.chars (Py.slice_to 3 s)))
  | JObject _ => Raise "unhashable type: 'slice'"
  | _ => Raise ("'" ++ type_name v ++ "' object is not subscriptable")
  end.

Section Format.

Variable w : World.

(** [str(v)] inside an f-string. *)
Definition str (v : json) : string :=
  match v with
  | JString s => s
  | JNull => "None"
  | JBool true => "True"
  | JBool false => "False"
  | JNumber n => Py.str_of_Z n
  | _ => py_repr w v
  end.

(** One organic result: title, link and snippet (or description). *)
Definition format_result (r : json) : result string :=
  match r with
  | JObject fields =>
      let title := dict_get fields "title" JNull in
      let link := dict_get fields "link" JNull in
      let snippet :=
        dict_get fields "snippet" (dict_get fields "description"
                                            (JString EmptyString)) in
      Ok (str title ++ ": " ++ str link ++ String "010" EmptyString
          ++ str snippet)%string
  | _ => Raise ("'" ++ type_name r ++ "' object has no attribute 'get'")
  end.

Fixpoint format_results (rs : list json) : result (list string) :=
  match rs with
  | [] => Ok []
  | r :: rest =>
      match format_result r with
      | Raise e => Raise e
      | Ok line =>
          match format_results rest with
          | Raise e => Raise e
          | Ok lines => Ok (line :: lines)
          end
      end
  end.

(** The body of the [try] once the response is there. *)
Definition summarize (response : Response) : result string :=
  if ((400 <=? status_code response) && (status_code response <? 600))%Z
  then Raise (http_error response)
  else
    match json_body response with
    | Raise e => Raise e
    | Ok results =>
        match get results "organic" (JArray []) with
        | Raise e => Raise e
        | Ok organic =>
            if truthy organic then
              match slice3 organic with
              | Raise e => Raise e
              | Ok top =>
                  match format_results top with
                  | Raise e => Raise e
                  | Ok lines => Ok (Py.join (String "010" EmptyString) lines)
                  end
              end
            else Ok "No results found."
        end
    end.

(** [requests.post(endpoint, headers=..., json={"q": query}, timeout=10)] *)
Definition post (api_key query : string) : M Response :=
  fun st =>
    let st' := mkState (st_db st) (st_vector_store st) (st_qa_chain st)
                       (st_log st ++ [EvHttpPost query]) in
    match http_post w (st_log st) api_key query with
    | Ok r => (Ok r, st')
    | Raise e => (Raise e, st')
    end.

Definition serper_search (api_key query : string) : M string :=
  try_except
    (response <- post api_key query ;;
     lift_result (summarize response))
    (fun e => ret ("Serper Search error: " ++ e)%string).

(** [get_web_search_tool()]: the tool's function, or [ValueError] when
    the key is not configured. *)
Definition get_web_search_tool : result (string -> M string) :=
  match SERPER_API_KEY w with
  | None => Raise "SERPER_API_KEY environment variable not set."
  | Some EmptyString => Raise "SERPER_API_KEY environment variable not set."
  | Some api_key => Ok (serper_search api_key)
  end.

End Format.

End web_search.

(* ================================================================= *)
(** ** src/services/vector_store.py *)

Module VectorStore.

Record SearchResult := mkSearchResult {
  content : string;
  index : Z
}.

Definition init : VectorStore := mkVectorStore None [] None.

Definition set_vector_store (f : VectorStore -> VectorStore) : M unit :=
  fun st =>
    (Ok tt, mkState (st_db st) (f (st_vector_store st)) (st_qa_chain st)
                    (st_log st)).

Definition get_vector_store : M VectorStore :=
  fun st => (Ok (st_vector_store st), st).

Section Methods.

Variable w : World.

Definition create_index (texts : list string) : M faiss.IndexFlatL2 :=
  set_vector_store
    (fun self => mkVectorStore (vs_index self) texts
                               (vs_embedded_vectors self)) ;;;
  vectors <- embed_documents w texts ;;
  array <- lift_result (np_array vectors) ;;
  set_vector_store
    (fun self => mkVectorStore (vs_index self) (vs_texts self) (Some array)) ;;;
  dim <- lift_result (shape1 array) ;;
  let index := faiss.mkIndex dim array in
  set_vector_store
    (fun self => mkVectorStore (Some index) (vs_texts self)
                               (vs_embedded_vectors self)) ;;;
  ret index.

(** The loop over the labels [I[0]]: a label below [len(self.texts)] is
    looked up in [self.texts]. *)
Fixpoint collect (texts : list string) (labels : list Z)
  : result (list SearchResult) :=
  match labels with
  | [] => Ok []
  | idx :: rest =>
      if (idx <? Z.of_nat (List.length texts))%Z then
        match Py.index texts idx with
        | None => Raise "list index out of range"
        | Some t =>
            match collect texts rest with
            | Raise e => Raise e
            | Ok results => Ok (mkSearchResult t idx :: results)
            end
        end
      else collect texts rest
  end.

Definition similarity_search (query : string) (k : nat)
  : M (list SearchResult) :=
  self <- get_vector_store ;;
  match vs_index self, vs_embedded_vectors self with
  | Some index, Some _ =>
      query_vec <- embed_query w query ;;
      labels <- lift_result (faiss.search (fvec_L2sqr w) index
                                          (astype_float32 query_vec) k) ;;
      lift_result (collect (vs_texts self) labels)
  | _, _ => raise "Index not created. Call create_index first."
  end.

(** [FAISS.from_documents(docs, self.embeddings)]: the texts are
    embedded and stored in a flat L2 index of the dimension of the first
    vector. *)
Definition build_langchain_faiss (texts : list string)
  : M (list string * faiss.IndexFlatL2) :=
  vectors <- embed_documents w texts ;;
  match vectors with
  | [] => raise "list index out of range"
  | v :: _ =>
      array <- lift_result (np_array vectors) ;;
      ret (texts, faiss.mkIndex (List.length v) array)
  end.

End Methods.

End VectorStore.

(** [retriever.get_relevant_documents(query)]: the query is embedded,
    the index searched, and the texts of the labels that are not [-1]
    returned. *)
Fixpoint docs_of_labels (texts : list string) (labels : list Z)
  : list string :=
  match labels with
  | [] => []
  | i :: rest =>
      if (i =? -1)%Z then docs_of_labels texts rest
      else
        match nth_error texts (Z.to_nat i) with
        | Some t => t :: docs_of_labels texts rest
        | None => docs_of_labels texts rest
        end
  end.

Definition get_relevant_documents (w : World) (retriever : Retriever)
    (query : string) : M (list string) :=
  query_vec <- embed_query w query ;;
  labels <- lift_result (faiss.search (fvec_L2sqr w) (r_index retriever)
                                      (astype_float32 query_vec)
                                      (r_k retriever)) ;;
  ret (docs_of_labels (r_texts retriever) labels).

(** The session metadata handed to the answer tiers. *)
Record DocumentsInfo := mkDocumentsInfo {
  names : list string;
  count : nat;
  total_size : Z
}.

(** An answer dictionary: the keys [result] and [web_result]. *)
Record Answer := mkAnswer {
  answer_result : string;
  web_result : option string
}.

(* ================================================================= *)
(** ** src/services/qa_service.py *)

Module QAService.

Definition newline : string := String "010" EmptyString.

(** The prompt of [setup_qa_chain], filled in. *)
Definition prompt (context question : string) : string :=
  (newline
   ++ "            You are an AI assistant helping users with PDF document analysis. " ++ newline
   ++ "            " ++ newline
   ++ "            Use the following pieces of context to answer the question at the end." ++ newline
   ++ "            " ++ newline
   ++ "            IMPORTANT: " ++ newline
   ++ "            - If the question is about the document itself (availability, existence, file info), answer based on the fact that you have access to the document content." ++ newline
   ++ "            - If the question is about the content within the document, use the provided context to answer." ++ newline
   ++ "            - If you don't know the answer based on the context, just say that you don't know, don't try to make up an answer." ++ newline
   ++ "            " ++ newline
   ++ "            Context: " ++ context ++ newline
   ++ "            " ++ newline
   ++ "            Question: " ++ question ++ newline
   ++ "            " ++ newline
   ++ "            Answer:")%string.

Definition set_qa_chain (chain : option Retriever) : M unit :=
  fun st =>
    (Ok tt, mkState (st_db st) (st_vector_store st) chain (st_log st)).

Definition get_qa_chain : M (option Retriever) :=
  fun st => (Ok (st_qa_chain st), st).

Section Methods.

Variable w : World.

Definition setup_qa_chain (retriever : Retriever) : M unit :=
  set_qa_chain (Some retriever).

(** [self.llm] asked once with a prompt. *)
Definition complete (text : string) : M string :=
  fun st =>
    let st' := mkState (st_db st) (st_vector_store st) (st_qa_chain st)
                       (st_log st ++ [EvLLM text]) in
    match llm w (st_log st) text with
    | Ok a => (Ok a, st')
    | Raise e => (Raise e, st')
    end.

(** [self.qa_chain({"query": question})]: the "stuff" chain retrieves,
    joins the passages with a blank line and asks the model once. *)
Definition run_qa_chain (retriever : Retriever) (question : string)
  : M string :=
  docs <- get_relevant_documents w retriever question ;;
  complete (prompt (Py.join (newline ++ newline)%string docs) question).

Definition not_confident (answer : string) : bool :=
  String.eqb answer EmptyString
  || Py.contains "I don't know" answer
  || Py.contains "not sure" answer.

Definition get_answer (question : string) (use_web_search : bool)
  : M Answer :=
  chain <- get_qa_chain ;;
  match chain with
  | None => raise "QA chain not set up. Call setup_qa_chain first."
  | Some retriever =>
      answer <- run_qa_chain retriever question ;;
      if use_web_search && not_confident answer then
        search_tool <- lift_result (web_search.get_web_search_tool w) ;;
        found <- search_tool question ;;
        if String.eqb found EmptyString
        then ret (mkAnswer answer (Some found))
        else ret (mkAnswer
                    (answer ++ newline ++ newline ++ "---" ++ newline
                     ++ "Web Search Result:" ++ newline ++ found)%string
                    (Some found))
      else ret (mkAnswer answer None)
  end.

Definition system_info_tail (documents_info : DocumentsInfo) : string :=
  ("Total file size: " ++ Py.str_of_Z (total_size documents_info)
   ++ " bytes" ++ newline
   ++ "Document type: PDF" ++ newline
   ++ "Status: Processed and indexed" ++ newline)%string.

Definition system_info_tool_func (documents_info : DocumentsInfo)
    (q : string) : result string :=
  if Nat.eqb (count documents_info) 1 then
    match names documents_info with
    | first :: _ =>
        Ok ("Currently loaded document: " ++ first ++ newline
            ++ system_info_tail documents_info)%string
    | [] => Raise "list index out of range"
    end
  else
    Ok ("Currently loaded documents (" ++ Py.str_of_nat (count documents_info)
        ++ "): " ++ Py.join ", " (names documents_info) ++ newline
        ++ system_info_tail documents_info)%string.

Definition pdf_search_tool_func (retriever : Retriever) (q : string)
  : M string :=
  docs <- get_relevant_documents w retriever q ;;
  match docs with
  | [] => ret "No relevant PDF content found."
  | _ => ret (Py.join newline docs)
  end.

(** Modelled from the spec: the agent executor is third-party code, not
    under src/.  Section 4.4 describes the loop: the model reasons,
    picks one of the three tools, observes its result, and repeats until
    it emits a final answer or the step cap is reached. *)
Definition max_iterations : nat := 15.

Definition run_tool (documents_info : DocumentsInfo) (retriever : Retriever)
    (web_tool : string -> M string) (tool tool_input : string) : M string :=
  if String.eqb tool "SystemInfo"
  then lift_result (system_info_tool_func documents_info tool_input)
  else if String.eqb tool "PDFSearch"
  then pdf_search_tool_func retriever tool_input
  else if String.eqb tool "WebSearch"
  then web_tool tool_input
  else ret (tool ++ " is not a valid tool, try one of [SystemInfo, PDFSearch, WebSearch].")%string.

Definition decide (question : string) (steps : list (AgentAction * string))
  : M AgentAction :=
  fun st =>
    let st' := mkState (st_db st) (st_vector_store st) (st_qa_chain st)
                       (st_log st ++ [EvAgentStep question]) in
    match agent_policy w (st_log st) question steps with
    | Ok a => (Ok a, st')
    | Raise e => (Raise e, st')
    end.

Fixpoint agent_run (fuel : nat) (documents_info : DocumentsInfo)
    (retriever : Retriever) (web_tool : string -> M string)
    (question : string) (steps : list (AgentAction * string)) : M string :=
  match fuel with
  | O => ret "Agent stopped due to iteration limit or time limit."
  | S fuel' =>
      action <- decide question steps ;;
      match action with
      | AgentFinish output => ret output
      | AgentCall tool tool_input =>
          observation <-
            run_tool documents_info retriever web_tool tool tool_input ;;
          agent_run fuel' documents_info retriever web_tool question
                    (steps ++ [(action, observation)])
      end
  end.

Definition get_agent_answer (question : string) (retriever : Retriever)
    (documents_info : DocumentsInfo) : M Answer :=
  web_tool <- lift_result (web_search.get_web_search_tool w) ;;
  answer <- agent_run max_iterations documents_info retriever web_tool
                      question [] ;;
  ret (mkAnswer answer None).

End Methods.

End QAService.

(* ================================================================= *)
(** ** src/services/document_service.py *)

Module DocumentService.

(** Which [return] of [ask_question] produced the answer. *)
Inductive Tier : Type :=
| NoDocuments
| NoContent
| SystemStatus
| Direct
| Agentic
| Apology.

Definition no_documents_message : string :=
  "No documents found in this chat. Please add some documents first.".

Definition no_content_message : string :=
  "No document content found. Please ensure documents are properly processed.".

Definition apology_message : string :=
  "Sorry, I encountered an error while processing your question. Please try again.".

Definition system_keywords : list string :=
  ["any pdf"; "pdf available"; "documents available"; "files available";
   "what pdf"; "which pdf"; "pdf loaded"; "document loaded";
   "file info"; "document info"; "system status"; "how many documents";
   "what documents"; "which documents"].

Definition _is_system_question (question : string) : bool :=
  let question_lower := Py.lower question in
  existsb (fun keyword => Py.contains keyword question_lower) system_keywords.

Definition _generate_smart_chat_name (file_name : string) : string :=
  let name := Py.rsplit1_head "." file_name in
  let name := Py.replace_char "-" " " (Py.replace_char "_" " " name) in
  let words := Py.split_ws name in
  let name :=
    if (3 <? List.length words)%nat
    then Py.join " " (firstn 3 words)
    else name in
  let name :=
    if (25 <? Py.len name)%nat
    then (Py.slice_to 22 name ++ "...")%string
    else name in
  Py.title name.

(** The deterministic answer of the system-status tier. *)
Definition system_answer (documents_info : DocumentsInfo) : result string :=
  if Nat.eqb (count documents_info) 1 then
    match names documents_info with
    | first :: _ =>
        Ok ("Yes, there is 1 PDF document in this chat: '" ++ first ++ "'.")%string
    | [] => Raise "list index out of range"
    end
  else
    Ok ("Yes, there are " ++ Py.str_of_nat (count documents_info)
        ++ " PDF documents in this chat: "
        ++ Py.join ", " (names documents_info) ++ ".")%string.

Definition documents_info_of (docs : list models.Document) : DocumentsInfo :=
  mkDocumentsInfo (map models.originalName docs)
                  (List.length docs)
                  (Py.sum (map models.fileSize docs)).

(** The dictionaries that the listing methods return. *)
Record ChatInfo := mkChatInfo {
  info_id : string;
  info_name : string;
  document_count : nat;
  created_at : Z;
  message_count : nat;
  preview : option string
}.

Record DocDict := mkDocDict {
  dict_id : string;
  dict_name : string;
  dict_size : Z
}.

Record HistoryEntry := mkHistoryEntry {
  entry_question : string;
  entry_answer : string;
  entry_timestamp : Z
}.

(** [q[:50] + "..." if len(q) > 50 else q] *)
Definition preview_of (q : string) : string :=
  if (50 <? Py.len q)%nat
  then (Py.slice_to 50 q ++ "...")%string
  else q.

(** One entry of [get_chat_sessions]; the preview is there when the
    chat has a first message. *)
Definition chat_info (session : models.ChatSession) (documents : nat)
    (messages : list models.ChatMessage) : ChatInfo :=
  mkChatInfo (models.chat_id session) (models.name session) documents
             (models.chat_createdAt session) (List.length messages)
             (match messages with
              | [] => None
              | first_message :: _ =>
                  Some (preview_of (models.question first_message))
              end).

Section Methods.

Variable w : World.

(** The helpers of models.py as calls against the database. *)
Definition create_document (file_name original_name : string)
    (file_size : Z) : M models.Document :=
  db_insert w "create_document"
    (fun log db =>
       models.create_document db (uuid4 w log) (now w log)
                              file_name original_name file_size).

Definition create_chunk (document_id text : string) (chunk_index : Z)
    (emb : vector) : M models.Chunk :=
  db_insert w "create_chunk"
    (fun log db =>
       models.create_chunk db (uuid4 w log) (now w log)
                           document_id text chunk_index emb).

Definition create_chat_message (chat_id q a : string) : M models.ChatMessage :=
  db_insert w "create_chat_message"
    (fun log db =>
       models.create_chat_message db (uuid4 w log) (now w log) chat_id q a).

(** The chat row together with its [documents] relationship. *)
Definition get_chat_session (chat_id : string)
  : M (option (models.ChatSession * list models.Document)) :=
  db_read w "get_chat_session"
    (fun db =>
       match models.get_chat_session db chat_id with
       | Some chat => Some (chat, models.chat_documents_of db chat_id)
       | None => None
       end).

(** The loop of [process_pdf] over [enumerate(zip(chunks, vectors))]. *)
Fixpoint store_chunks (document_id : string)
    (items : list (nat * (PDFProcessor.ChunkDict * vector))) : M unit :=
  match items with
  | [] => ret tt
  | (i, (chunk, vec)) :: rest =>
      create_chunk document_id (PDFProcessor.content chunk) (Z.of_nat i) vec ;;;
      store_chunks document_id rest
  end.

Definition process_pdf (file_path original_name : string) (file_size : Z)
  : M models.Document :=
  doc <- create_document (Py.basename file_path) original_name file_size ;;
  let document_id := models.doc_id doc in
  text <- PDFProcessor.extract_text w file_path ;;
  let chunks := PDFProcessor.chunk_text text in
  let texts := map PDFProcessor.content chunks in
  vectors <- embed_documents w texts ;;
  store_chunks document_id (Py.enumerate (combine chunks vectors)) ;;;
  ret doc.

Definition get_multi_document_retriever (document_ids : list string)
  : M (option Retriever) :=
  match document_ids with
  | [] => ret None
  | _ =>
      chunks <- db_read w "get_chunks_for_documents"
                  (fun db => models.get_chunks_for_documents db document_ids) ;;
      match chunks with
      | [] => ret None
      | _ =>
          let texts := map models.content chunks in
          store <- VectorStore.build_langchain_faiss w texts ;;
          ret (Some (mkRetriever (fst store) (snd store)
                                 Config.SIMILARITY_TOP_K))
      end
  end.

Definition add_document_to_chat (chat_id document_id : string) : M unit :=
  db_write w "add_document_to_chat"
    (fun db => models.add_document_to_chat db chat_id document_id) ;;;
  chat <- get_chat_session chat_id ;;
  match chat with
  | Some (session, docs) =>
      if Nat.eqb (List.length docs) 1
         && (Py.contains "New Chat" (models.name session)
             || Py.contains "Chat " (models.name session))
      then
        document <- db_read w "get_document"
                      (fun db => models.get_document db document_id) ;;
        match document with
        | Some doc =>
            let smart_name :=
              _generate_smart_chat_name (models.originalName doc) in
            db_write w "rename_chat_session"
              (fun db => models.rename_chat_session db chat_id smart_name)
        | None => ret tt
        end
      else ret tt
  | None => ret tt
  end.

Definition remove_document_from_chat (chat_id document_id : string) : M unit :=
  db_write w "remove_document_from_chat"
    (fun db => models.remove_document_from_chat db chat_id document_id).

Definition remove_document_from_system (document_id : string) : M unit :=
  db_write w "delete_document"
    (fun db => models.delete_document db document_id).

Definition clear_chat_history (chat_id : string) : M unit :=
  db_write w "clear_chat_history"
    (fun db => models.clear_chat_messages db chat_id).

(** The direct tier: the body of the inner [try].  [Some] is the
    answer it returns; [None] means control falls out of the [try]
    towards the agent. *)
Definition direct_tier (chat_id question : string) (retriever : Retriever)
  : M (option Answer) :=
  docs <- get_relevant_documents w retriever question ;;
  match docs with
  | [] => ret None
  | _ =>
      QAService.setup_qa_chain retriever ;;;
      direct_result <- QAService.get_answer w question false ;;
      if negb (String.eqb (answer_result direct_result) EmptyString)
         && negb (Py.contains "I don't know" (answer_result direct_result))
      then
        create_chat_message chat_id question (answer_result direct_result) ;;;
        ret (Some direct_result)
      else ret None
  end.

Definition agentic_tier (chat_id question : string) (retriever : Retriever)
    (documents_info : DocumentsInfo) : M (Tier * Answer) :=
  result <- QAService.get_agent_answer w question retriever documents_info ;;
  create_chat_message chat_id question (answer_result result) ;;;
  ret (Agentic, result).

Definition ask_question (chat_id question : string) : M (Tier * Answer) :=
  try_except
    (chat <- get_chat_session chat_id ;;
     match chat with
     | None => ret (NoDocuments, mkAnswer no_documents_message None)
     | Some (_, []) => ret (NoDocuments, mkAnswer no_documents_message None)
     | Some (_, docs) =>
         let document_ids := map models.doc_id docs in
         retriever <- get_multi_document_retriever document_ids ;;
         match retriever with
         | None => ret (NoContent, mkAnswer no_content_message None)
         | Some retriever =>
             let documents_info := documents_info_of docs in
             if _is_system_question question then
               answer <- lift_result (system_answer documents_info) ;;
               create_chat_message chat_id question answer ;;;
               ret (SystemStatus, mkAnswer answer None)
             else
               direct <-
                 try_except (direct_tier chat_id question retriever)
                            (fun _ => ret None) ;;
               match direct with
               | Some direct_result => ret (Direct, direct_result)
               | None =>
                   agentic_tier chat_id question retriever documents_info
               end
         end
     end)
    (fun _ => ret (Apology, mkAnswer apology_message None)).

(** [create_chat_session(name)]: the id and the name of the new chat. *)
Definition create_chat_session (chat_name : string) : M (string * string) :=
  chat <- db_insert w "create_chat_session"
            (fun log db =>
               models.create_chat_session db (uuid4 w log) (now w log)
                                          chat_name) ;;
  ret (models.chat_id chat, models.name chat).

(** The loop of [get_chat_sessions]: two queries for every session. *)
Fixpoint chat_infos (sessions : list models.ChatSession)
  : M (list ChatInfo) :=
  match sessions with
  | [] => ret []
  | session :: rest =>
      documents <- db_read w "get_chat_document_count"
                     (fun db => models.get_chat_document_count
                                  db (models.chat_id session)) ;;
      messages <- db_read w "get_chat_messages"
                    (fun db => models.get_chat_messages
                                 db (models.chat_id session)) ;;
      infos <- chat_infos rest ;;
      ret (chat_info session documents messages :: infos)
  end.

Definition get_chat_sessions : M (list ChatInfo) :=
  sessions <- db_read w "list_chat_sessions" models.list_chat_sessions ;;
  chat_infos sessions.

Definition get_chat_documents (chat_id : string) : M (list DocDict) :=
  chat <- get_chat_session chat_id ;;
  match chat with
  | None => ret []
  | Some (_, docs) =>
      ret (map (fun doc => mkDocDict (models.doc_id doc)
                                     (models.originalName doc)
                                     (models.fileSize doc)) docs)
  end.

Definition get_chat_history (chat_id : string) : M (list HistoryEntry) :=
  messages <- db_read w "get_chat_messages"
                (fun db => models.get_chat_messages db chat_id) ;;
  ret (map (fun msg => mkHistoryEntry (models.question msg)
                                      (models.answer msg)
                                      (models.timestamp msg)) messages).

Definition delete_chat_session (chat_id : string) : M unit :=
  db_write w "delete_chat_session"
    (fun db => models.delete_chat_session db chat_id).

Definition rename_chat_session (chat_id new_name : string) : M unit :=
  db_write w "rename_chat_session"
    (fun db => models.rename_chat_session db chat_id new_name).

Definition get_all_documents : M (list (DocDict * Z)) :=
  docs <- db_read w "list_documents" models.list_documents ;;
  ret (map (fun doc => (mkDocDict (models.doc_id doc)
                                  (models.originalName doc)
                                  (models.fileSize doc),
                        models.uploadedAt doc)) docs).

End Methods.

End DocumentService.

(* ================================================================= *)
(** ** app.py: the handlers that call the service *)

Module app.

(** The name the "New Chat" button gives: [f"Chat {timestamp}"], where
    [timestamp] is the clock formatted as month/day hour:minute. *)
Definition chat_name (timestamp : string) : string :=
  ("Chat " ++ timestamp)%string.

Section Handlers.

Variable w : World.

Definition new_chat (timestamp : string) : M (string * string) :=
  DocumentService.create_chat_session w (chat_name timestamp).

(** The body of the upload loop for one file: the file is processed and
    the new document added to the current chat. *)
Definition add_file (current_chat_id file_path file_name : string)
    (file_size : Z) : M unit :=
  doc <- DocumentService.process_pdf w file_path file_name file_size ;;
  DocumentService.add_document_to_chat w current_chat_id (models.doc_id doc).

(** The upload loop over the selected files. *)
Fixpoint add_files (current_chat_id : string)
    (files : list (string * string * Z)) : M unit :=
  match files with
  | [] => ret tt
  | (file_path, file_name, file_size) :: rest =>
      add_file current_chat_id file_path file_name file_size ;;;
      add_files current_chat_id rest
  end.

(** The question box is shown only when the chat has documents:
    [if not current_docs: st.stop()]. *)
Definition question_box_shown (current_chat_id : string) : M bool :=
  current_docs <- DocumentService.get_chat_documents w current_chat_id ;;
  ret (match current_docs with [] => false | _ => true end).

End Handlers.

End app.

(** The name from which [_generate_smart_chat_name] derives the chat
    name, before it is cut to length and title-cased: the file name
    without its extension, with underscores and dashes as spaces, and
    cut to its first three words when it has more. *)
Definition cleaned_name (file_name : string) : string :=
  let name := Py.rsplit1_head "." file_name in
  let name := Py.replace_char "-" " " (Py.replace_char "_" " " name) in
  let words := Py.split_ws name in
  if (3 <? List.length words)%nat
  then Py.join " " (firstn 3 words)
  else name.

(** The chunks from which [ask_question] answers in a chat: those that
    it loads for the documents of the session before it builds the
    retriever (none when the session does not exist). *)
Definition retrieval_pool (db : models.DB) (chat_id : string)
  : list models.Chunk :=
  match models.get_chat_session db chat_id with
  | Some _ =>
      models.get_chunks_for_documents db
        (map models.doc_id (models.chat_documents_of db chat_id))
  | None => []
  end.

(** A search result as the index ranks it: its label and the distance
    [dist] of its text. *)
Definition ranking (dist : string -> Z) (r : VectorStore.SearchResult)
  : nat * Z :=
  (Z.to_nat (VectorStore.index r), dist (VectorStore.content r)).

(* ================================================================= *)
(** ** What a computation does to the database *)

(** [quiet m]: [m] leaves the tables as they are, whether it returns or
    raises. *)
Definition quiet {A : Type} (m : M A) : Prop :=
  forall st, st_db (snd (m st)) = st_db st.

(** No helper of models.py raises after its commit. *)
Definition commits_cleanly (w : World) : Prop :=
  forall log e, db_fault w log <> Some (AfterCommit e).

(** [appended chat_id q db db' new]: the messages [new], all of that
    chat and with that question, have been added at the end of
    [chat_messages], and the other tables are unchanged. *)
Definition appended (chat_id q : string) (db db' : models.DB)
    (new : list models.ChatMessage) : Prop :=
  models.chat_messages db' = models.chat_messages db ++ new
  /\ Forall (fun m => models.chatId m = chat_id /\ models.question m = q) new
  /\ models.documents db' = models.documents db
  /\ models.chunks db' = models.chunks db
  /\ models.chat_sessions db' = models.chat_sessions db
  /\ models.chat_documents db' = models.chat_documents db.

(** [tracks chat_id q clean m Q]: [m] only adds messages of that chat
    with that question; when it returns [x], [Q x] holds of the added
    messages; when it raises, it has added none provided [clean]. *)
Definition tracks {A : Type} (chat_id q : string) (clean : Prop) (m : M A)
    (Q : A -> list models.ChatMessage -> Prop) : Prop :=
  forall st,
    exists new,
      appended chat_id q (st_db st) (st_db (snd (m st))) new
      /\ match fst (m st) with
         | Ok x => Q x new
         | Raise _ => clean -> new = []
         end.

(** What [ask_question] has stored when it returns [(tier, answer)]:
    an answer of a tier is the last message added, and the only one
    provided [clean]; the fixed messages come with nothing stored, and
    so does the apology provided [clean]. *)
Definition answer_stored (clean : Prop) (r : DocumentService.Tier * Answer)
    (new : list models.ChatMessage) : Prop :=
  match fst r with
  | DocumentService.SystemStatus
  | DocumentService.Direct
  | DocumentService.Agentic =>
      (exists before message,
          new = before ++ [message]
          /\ models.answer message = answer_result (snd r))
      /\ (clean -> List.length new = 1)
  | DocumentService.NoDocuments
  | DocumentService.NoContent => new = []
  | DocumentService.Apology =>
      snd r = mkAnswer DocumentService.apology_message None
      /\ (clean -> new = [])
  end.

(* ================================================================= *)
(** ** What a question depends on *)

(** The chunks of the documents [ids], in the order of the table: the
    rows that [get_chunks_for_documents] selects. *)
Definition chunks_of (ids : list string) (db : models.DB)
  : list models.Chunk :=
  filter (fun c => existsb (String.eqb (models.documentId c)) ids)
         (models.chunks db).

(** Two databases in which the chat [chat_id] has the same row and the
    same documents, and which hold the same messages. *)
Definition same_session (chat_id : string) (db1 db2 : models.DB) : Prop :=
  models.get_chat_session db1 chat_id = models.get_chat_session db2 chat_id
  /\ models.chat_documents_of db1 chat_id
     = models.chat_documents_of db2 chat_id
  /\ models.chat_messages db1 = models.chat_messages db2.


(** Two runs with the same result, the same calls to the outside (the
    database, the embedding model, the language model, the agent, the
    web search, each with the same arguments and in the same order) and
    the same messages in the table at the end. *)
Definition same_outcome {A : Type} (run1 run2 : result A * State) : Prop :=
  fst run1 = fst run2
  /\ st_log (snd run1) = st_log (snd run2)
  /\ models.chat_messages (st_db (snd run1))
     = models.chat_messages (st_db (snd run2)).

(** Two states that agree on the chat [chat_id], on the chunks of the
    documents [ids], on the fields of the services and on the log. *)
Definition agree (chat_id : string) (ids : list string) (st1 st2 : State)
  : Prop :=
  same_session chat_id (st_db st1) (st_db st2)
  /\ chunks_of ids (st_db st1) = chunks_of ids (st_db st2)
  /\ st_vector_store st1 = st_vector_store st2
  /\ st_qa_chain st1 = st_qa_chain st2
  /\ st_log st1 = st_log st2.

(** [respects chat_id ids m]: from two states that agree, [m] gives the
    same result and ends in two states that agree. *)
Definition respects (chat_id : string) (ids : list string) {A : Type}
    (m : M A) : Prop :=
  forall st1 st2,
    agree chat_id ids st1 st2 ->
    fst (m st1) = fst (m st2) /\ agree chat_id ids (snd (m st1)) (snd (m st2)).

(* ================================================================= *)
(** ** Sample data *)

Module Sample.

Definition doc_a : models.Document :=
  models.mkDocument "d1" "a.pdf" "A.pdf" 1200 10 false.

Definition doc_b : models.Document :=
  models.mkDocument "d2" "b.pdf" "B.pdf" 800 11 false.

Definition chunk_a0 : models.Chunk :=
  models.mkChunk "k1" "d1" "alpha" 0 [1; 0]%Z 12.

Definition chunk_a1 : models.Chunk :=
  models.mkChunk "k2" "d1" "beta" 1 [0; 1]%Z 13.

Definition chunk_b0 : models.Chunk :=
  models.mkChunk "k3" "d2" "gamma" 0 [1; 1]%Z 14.

Definition chat_1 : models.ChatSession :=
  models.mkChatSession "c1" "New Chat" 20.

Definition chat_2 : models.ChatSession :=
  models.mkChatSession "c2" "Reading list" 21.

Definition message_1 : models.ChatMessage :=
  models.mkChatMessage "m1" "c2" "what is gamma?" "a letter" 30.

(** Two documents; chat [c1] holds both, chat [c2] holds the second. *)
Definition db : models.DB :=
  models.mkDB [doc_a; doc_b] [chunk_a0; chunk_a1; chunk_b0]
              [chat_1; chat_2]
              [("c1", "d1"); ("c1", "d2"); ("c2", "d2")]
              [message_1].

(** One chat without documents, and one document not yet attached. *)
Definition db_fresh : models.DB :=
  models.mkDB [doc_a] [chunk_a0; chunk_a1] [chat_1] [] [].

(** A document whose file name starts with the sharp s, and a chat
    without documents. *)
Definition doc_sharp : models.Document :=
  models.mkDocument "d3" "c.pdf"
    (String Py.sharp_s "-Spektroskopie_Grundlagen.pdf") 500 12 false.

Definition db_sharp : models.DB :=
  models.mkDB [doc_sharp] [] [chat_1] [] [].

(** A document that produced no chunk, attached to chat [c1]. *)
Definition db_unprocessed : models.DB :=
  models.mkDB [doc_a] [] [chat_1] [("c1", "d1")] [].

(** A world in which nothing fails but the network: a text embeds to
    the one-dimensional vector of its length, distances are exact (as
    float32 arithmetic is on small integers), the model answers [Paris],
    and the agent finishes at once. *)
Definition world : World :=
  mkWorld (fun log => Py.str_of_nat (List.length log))
          (fun log => Z.of_nat (List.length log))
          (fun _ => None)
          (fun _ _ => Ok "some text")
          (fun text => [Z.of_nat (String.length text)])
          (fun _ => None)
          faiss.l2sqr
          (fun _ _ => Ok "Paris")
          (fun _ _ _ => Ok (AgentFinish "agent answer"))
          (Some "key")
          (fun _ _ _ => Raise "connection refused")
          (fun _ => "?").

(** The same world, except that the database fails at its seventh
    call from the outside: in [ask_question] on a content question this
    is the [create_chat_message] of the direct tier. *)
Definition world_locked : World :=
  mkWorld (uuid4 world) (now world)
          (fun log =>
             if Nat.eqb (List.length log) 6
             then Some (RolledBack "database is locked")
             else None)
          (pdf_text world) (embed_model world) (embed_fault world) (fvec_L2sqr world)
          (llm world) (agent_policy world) (SERPER_API_KEY world)
          (http_post world) (py_repr world).

Definition state (database : models.DB) : State :=
  mkState database VectorStore.init None [].

(** The sample world with the embedding service down. *)
Definition world_without_embeddings : World :=
  mkWorld (uuid4 world) (now world) (db_fault world) (pdf_text world)
          (embed_model world) (fun _ => Some "quota exceeded") (fvec_L2sqr world)
          (llm world) (agent_policy world) (SERPER_API_KEY world)
          (http_post world) (py_repr world).

(** The sample world with the language model down. *)
Definition world_without_model : World :=
  mkWorld (uuid4 world) (now world) (db_fault world) (pdf_text world)
          (embed_model world) (embed_fault world) (fvec_L2sqr world)
          (fun _ _ => Raise "model unavailable")
          (agent_policy world) (SERPER_API_KEY world)
          (http_post world) (py_repr world).

(** The sample world without a search key, and with a model that does
    not know. *)
Definition world_without_key : World :=
  mkWorld (uuid4 world) (now world) (db_fault world) (pdf_text world)
          (embed_model world) (embed_fault world) (fvec_L2sqr world)
          (fun _ _ => Ok "I don't know.")
          (agent_policy world) None
          (http_post world) (py_repr world).

(** A response with five organic results, and a world that serves it;
    its model does not know. *)
Definition organic_result (n : string) : json :=
  JObject [("title", JString ("Title " ++ n));
           ("link", JString ("https://example.org/" ++ n));
           ("snippet", JString ("Snippet " ++ n))].

Definition response_five : Response :=
  mkResponse 200 EmptyString
    (Ok (JObject [("organic",
                   JArray (map organic_result ["1"; "2"; "3"; "4"; "5"]))])).

Definition world_online : World :=
  mkWorld (uuid4 world) (now world) (db_fault world) (pdf_text world)
          (embed_model world) (embed_fault world) (fvec_L2sqr world)
          (fun _ _ => Ok "I am not sure.")
          (agent_policy world) (SERPER_API_KEY world)
          (fun _ _ _ => Ok response_five) (py_repr world).

(** The sample world with a PDF reader that finds no text, as for a
    scanned document. *)
Definition world_scanned : World :=
  mkWorld (uuid4 world) (now world) (db_fault world)
          (fun _ _ => Ok EmptyString)
          (embed_model world) (embed_fault world) (fvec_L2sqr world)
          (llm world) (agent_policy world) (SERPER_API_KEY world)
          (http_post world) (py_repr world).

(** The sample world, except that the seventh call against the
    database raises after its commit: in [ask_question] on a content
    question this is the [create_chat_message] of the direct tier. *)
Definition world_unconfirmed : World :=
  mkWorld (uuid4 world) (now world)
          (fun log =>
             if Nat.eqb (List.length log) 6
             then Some (AfterCommit "connection lost")
             else None)
          (pdf_text world) (embed_model world) (embed_fault world)
          (fvec_L2sqr world)
          (llm world) (agent_policy world) (SERPER_API_KEY world)
          (http_post world) (py_repr world).

(** A world whose model does not know, and in which the eighth call
    raises after its commit: in [ask_question] on a content question
    this is the [create_chat_message] of the agentic tier. *)
Definition world_unconfirmed_agent : World :=
  mkWorld (uuid4 world) (now world)
          (fun log =>
             if Nat.eqb (List.length log) 7
             then Some (AfterCommit "connection lost")
             else None)
          (pdf_text world) (embed_model world) (embed_fault world)
          (fvec_L2sqr world)
          (fun _ _ => Ok "I don't know.")
          (agent_policy world) (SERPER_API_KEY world)
          (http_post world) (py_repr world).

End Sample.

(* ================================================================= *)
(** * Properties *)

(** ** Lists and sorting *)

Lemma insert_by_In {A : Type} (le : A -> A -> bool) (x y : A) (l : list A) :
  In y (insert_by le x l) <-> y = x \/ In y l.
Proof.
  induction l as [|z l IH]; simpl.
  - intuition congruence.
  - destruct (le x z); simpl; rewrite ?IH; intuition congruence.
Qed.

Lemma sort_by_In {A : Type} (le : A -> A -> bool) (y : A) (l : list A) :
  In y (sort_by le l) <-> In y l.
Proof.
  induction l as [|x l IH]; simpl; [tauto|].
  rewrite insert_by_In, IH. intuition congruence.
Qed.

Lemma insert_by_length {A : Type} (le : A -> A -> bool) (x : A) (l : list A) :
  List.length (insert_by le x l) = S (List.length l).
Proof.
  induction l as [|z l IH]; simpl; [reflexivity|].
  destruct (le x z); simpl; congruence.
Qed.

Lemma sort_by_length {A : Type} (le : A -> A -> bool) (l : list A) :
  List.length (sort_by le l) = List.length l.
Proof.
  induction l as [|x l IH]; simpl; [reflexivity|].
  now rewrite insert_by_length, IH.
Qed.

Lemma sort_by_nil_inv {A : Type} (le : A -> A -> bool) (l : list A) :
  sort_by le l = [] -> l = [].
Proof.
  intros H. apply (f_equal (@List.length A)) in H.
  rewrite sort_by_length in H. now destruct l.
Qed.

Lemma filter_twice {A : Type} (f g : A -> bool) (l : list A) :
  (forall x, f x = true -> g x = true) ->
  filter f (filter g l) = filter f l.
Proof.
  intros Hfg. induction l as [|x l IH]; simpl; [reflexivity|].
  destruct (g x) eqn:Hg; simpl.
  - destruct (f x); now rewrite IH.
  - destruct (f x) eqn:Hf; [|exact IH].
    apply Hfg in Hf. congruence.
Qed.

Lemma find_filter_other {A : Type} (f g : A -> bool) (l : list A) :
  (forall x, f x = true -> g x = true) ->
  find f (filter g l) = find f l.
Proof.
  intros Hfg. induction l as [|x l IH]; simpl; [reflexivity|].
  destruct (g x) eqn:Hg; simpl.
  - destruct (f x); [reflexivity | exact IH].
  - destruct (f x) eqn:Hf; [|exact IH].
    apply Hfg in Hf. congruence.
Qed.

(** ** Sorted lists *)

Module SortFacts.

Section Sorted.

Variable A : Type.
Variable le : A -> A -> bool.
Hypothesis le_total : forall a b, le a b = false -> le b a = true.
Hypothesis le_trans :
  forall a b c, le a b = true -> le b c = true -> le a c = true.

Lemma insert_by_sorted (x : A) (s : list A) :
  StronglySorted (fun a b => le a b = true) s ->
  StronglySorted (fun a b => le a b = true) (insert_by le x s).
Proof.
  induction s as [|y s IH]; intros Hsorted; simpl.
  - constructor; constructor.
  - inversion Hsorted as [|? ? Htail Hy]; subst.
    destruct (le x y) eqn:Hxy.
    + constructor; [exact Hsorted|]. constructor; [exact Hxy|].
      apply Forall_forall. intros z Hz. rewrite Forall_forall in Hy.
      eapply le_trans; [exact Hxy | now apply Hy].
    + constructor; [now apply IH|].
      apply Forall_forall. intros z Hz. apply insert_by_In in Hz.
      destruct Hz as [->|Hz]; [now apply le_total|].
      rewrite Forall_forall in Hy. now apply Hy.
Qed.

Lemma sort_by_sorted (l : list A) :
  StronglySorted (fun a b => le a b = true) (sort_by le l).
Proof.
  induction l as [|x l IH]; simpl; [constructor|].
  now apply insert_by_sorted.
Qed.

End Sorted.

Lemma insert_by_before_last {A : Type} (le : A -> A -> bool) (y x : A)
    (s : list A) :
  le y x = true ->
  insert_by le y (s ++ [x]) = insert_by le y s ++ [x].
Proof.
  intros Hyx. induction s as [|z s IH]; simpl.
  - now rewrite Hyx.
  - destruct (le y z); [reflexivity | now rewrite IH].
Qed.

(** An element that is not below any other stays last. *)
Lemma sort_by_snoc {A : Type} (le : A -> A -> bool) (l : list A) (x : A) :
  (forall y, In y l -> le y x = true) ->
  sort_by le (l ++ [x]) = sort_by le l ++ [x].
Proof.
  induction l as [|y l IH]; intros Hlast; simpl; [reflexivity|].
  rewrite IH by (intros z Hz; apply Hlast; now right).
  apply insert_by_before_last. apply Hlast. now left.
Qed.

(** A list that is already in order is left as it is. *)
Lemma sort_by_id {A : Type} (le : A -> A -> bool) (l : list A) :
  StronglySorted (fun a b => le a b = true) l -> sort_by le l = l.
Proof.
  induction l as [|x l IH]; intros Hsorted; simpl; [reflexivity|].
  inversion Hsorted as [|? ? Htail Hx]; subst.
  rewrite (IH Htail). destruct l as [|y l]; [reflexivity|].
  simpl. inversion Hx as [|? ? Hxy _]; subst. now rewrite Hxy.
Qed.

Lemma sorted_weaken {A : Type} (R R' : A -> A -> Prop) (l : list A) :
  (forall a b, R a b -> R' a b) ->
  StronglySorted R l -> StronglySorted R' l.
Proof.
  intros Himpl Hsorted. induction Hsorted as [|x l Htail IH Hx];
    constructor; [exact IH|].
  rewrite Forall_forall in *. intros y Hy. apply Himpl. now apply Hx.
Qed.

End SortFacts.

Module OrderLemmas.

Lemma ascii_leb_trans (a b c : ascii) :
  Ascii.leb a b = true -> Ascii.leb b c = true -> Ascii.leb a c = true.
Proof.
  unfold Ascii.leb, Ascii.compare.
  destruct (N.compare_spec (N_of_ascii a) (N_of_ascii b));
    destruct (N.compare_spec (N_of_ascii b) (N_of_ascii c));
    destruct (N.compare_spec (N_of_ascii a) (N_of_ascii c));
    try discriminate; try reflexivity; lia.
Qed.

Lemma string_leb_trans (a b c : string) :
  String.leb a b = true -> String.leb b c = true -> String.leb a c = true.
Proof.
  unfold String.leb. revert b c.
  induction a as [|x a IH]; intros [|y b] [|z c]; simpl;
    try discriminate; try reflexivity.
  unfold Ascii.compare.
  destruct (N.compare_spec (N_of_ascii x) (N_of_ascii y)) as [Hxy|Hxy|Hxy];
    destruct (N.compare_spec (N_of_ascii y) (N_of_ascii z)) as [Hyz|Hyz|Hyz];
    destruct (N.compare_spec (N_of_ascii x) (N_of_ascii z)) as [Hxz|Hxz|Hxz];
    try discriminate; try reflexivity; try lia.
  apply IH.
Qed.

Lemma string_leb_total (a b : string) :
  String.leb a b = false -> String.leb b a = true.
Proof.
  intros H. destruct (String.leb_total a b) as [H'|H']; congruence.
Qed.

(** An element that is below all the others goes first. *)
Lemma insert_by_below {A : Type} (le : A -> A -> bool) (x : A) (l : list A) :
  (forall z, In z l -> le x z = true) -> insert_by le x l = x :: l.
Proof.
  destruct l as [|y l]; simpl; [reflexivity|].
  intros H. now rewrite (H y (or_introl eq_refl)).
Qed.

Section Filter.

Variable A : Type.
Variable le : A -> A -> bool.
Hypothesis le_total : forall a b, le a b = false -> le b a = true.
Hypothesis le_trans :
  forall a b c, le a b = true -> le b c = true -> le a c = true.
Variable p : A -> bool.

Lemma filter_insert_by (x : A) (l : list A) :
  StronglySorted (fun a b => le a b = true) l ->
  filter p (insert_by le x l)
  = if p x then insert_by le x (filter p l) else filter p l.
Proof.
  induction l as [|y l IH]; intros Hsorted; simpl.
  - now destruct (p x).
  - inversion Hsorted as [|? ? Htail Hy]; subst.
    destruct (le x y) eqn:Hxy; simpl.
    + destruct (p x); [|reflexivity].
      symmetry. apply insert_by_below. intros z Hz.
      assert (Hin : In z (y :: l)).
      { destruct (p y); [|now right; apply filter_In in Hz].
        destruct Hz as [<-|Hz]; [now left | right; now apply filter_In in Hz]. }
      destruct Hin as [<-|Hin]; [exact Hxy|].
      rewrite Forall_forall in Hy. eapply le_trans; [exact Hxy | now apply Hy].
    + rewrite (IH Htail).
      destruct (p y), (p x); simpl; try reflexivity. now rewrite Hxy.
Qed.

(** Selecting rows and ordering them commute. *)
Lemma filter_sort_by (l : list A) :
  filter p (sort_by le l) = sort_by le (filter p l).
Proof.
  induction l as [|x l IH]; simpl; [reflexivity|].
  rewrite filter_insert_by by (now apply SortFacts.sort_by_sorted).
  rewrite IH. now destruct (p x).
Qed.

End Filter.

Section Insert.

Variable A : Type.
Variable le : A -> A -> bool.
Hypothesis le_total : forall a b, le a b = false -> le b a = true.
Hypothesis le_trans :
  forall a b c, le a b = true -> le b c = true -> le a c = true.

(** Two elements that do not tie can be inserted in either order. *)
Lemma insert_by_swap (x y : A) (l : list A) :
  (le x y = true -> le y x = false) ->
  insert_by le y (insert_by le x l) = insert_by le x (insert_by le y l).
Proof.
  intros Htie. induction l as [|z l IH]; simpl.
  - destruct (le y x) eqn:Hyx, (le x y) eqn:Hxy; try reflexivity.
    + now specialize (Htie eq_refl).
    + apply le_total in Hyx. congruence.
  - destruct (le x z) eqn:Hxz, (le y z) eqn:Hyz; simpl.
    + destruct (le y x) eqn:Hyx, (le x y) eqn:Hxy; simpl;
        rewrite ?Hxz, ?Hyz; try reflexivity.
      * now specialize (Htie eq_refl).
      * apply le_total in Hyx. congruence.
    + destruct (le y x) eqn:Hyx.
      * rewrite (le_trans _ _ _ Hyx Hxz) in Hyz. discriminate.
      * simpl. now rewrite Hyz, Hxz.
    + rewrite Hyz. destruct (le x y) eqn:Hxy.
      * rewrite (le_trans _ _ _ Hxy Hyz) in Hxz. discriminate.
      * simpl. now rewrite Hxz.
    + rewrite Hxz, Hyz. now rewrite IH.
Qed.

(** A new last row that ties with no other row is put at its place in
    the order of the rows before it. *)
Lemma sort_by_added (l : list A) (x : A) :
  (forall y, In y l -> le x y = true -> le y x = false) ->
  sort_by le (l ++ [x]) = insert_by le x (sort_by le l).
Proof.
  induction l as [|y l IH]; intros Htie; simpl; [reflexivity|].
  rewrite IH by (intros z Hz; apply Htie; now right).
  apply insert_by_swap. apply Htie. now left.
Qed.

End Insert.

(** A list of one element is in order. *)
Lemma sort_by_one {A : Type} (le : A -> A -> bool) (l : list A) (x : A) :
  sort_by le l = [x] -> l = [x].
Proof.
  intros H. pose proof (sort_by_length le l) as Hlen.
  rewrite H in Hlen. destruct l as [|y [|z l]]; try discriminate.
  simpl in H. exact H.
Qed.

End OrderLemmas.

(** ** The tables *)

Module modelsFacts.
Import models.

Lemma get_document_id db x d :
  get_document db x = Some d -> doc_id d = x.
Proof.
  unfold get_document. intros H. apply find_some in H.
  now apply String.eqb_eq.
Qed.

Lemma get_document_In db x d :
  get_document db x = Some d -> In d (documents db).
Proof.
  unfold get_document. intros H. now apply find_some in H.
Qed.

Lemma chat_documents_of_In db cid doc :
  In doc (chat_documents_of db cid) <->
  In (cid, doc_id doc) (chat_documents db)
  /\ get_document db (doc_id doc) = Some doc.
Proof.
  unfold chat_documents_of. rewrite sort_by_In.
  unfold joined_documents. rewrite in_flat_map. split.
  - intros [[c x] [Hrow Hin]]. simpl in Hin.
    destruct (String.eqb_spec c cid) as [->|]; [|contradiction].
    destruct (get_document db x) eqn:Hget; [|contradiction].
    destruct Hin as [->|[]].
    pose proof (get_document_id _ _ _ Hget) as Hid. subst x. now split.
  - intros [Hrow Hget]. exists (cid, doc_id doc). split; [exact Hrow|].
    simpl. rewrite String.eqb_refl, Hget. now left.
Qed.

Lemma document_in_chat_true db cid did :
  document_in_chat db cid did = true <->
  exists doc, In doc (chat_documents_of db cid) /\ doc_id doc = did.
Proof.
  unfold document_in_chat. rewrite existsb_exists.
  split; intros [doc [Hin Heq]]; exists doc; split; trivial;
    now apply String.eqb_eq.
Qed.

Lemma get_document_after_delete db id x :
  x <> id ->
  get_document (delete_document db id) x = get_document db x.
Proof.
  intros Hx. unfold delete_document.
  destruct (get_document db id); [|reflexivity].
  unfold get_document. simpl. apply find_filter_other.
  intros d' Hd. apply String.eqb_eq in Hd.
  apply negb_true_iff, String.eqb_neq. congruence.
Qed.

Lemma get_document_deleted db id :
  get_document (delete_document db id) id = None.
Proof.
  unfold delete_document. destruct (get_document db id) eqn:Hget; [|exact Hget].
  unfold get_document. simpl.
  destruct (find _ (filter _ _)) eqn:Hfind; [|reflexivity].
  apply find_some in Hfind. destruct Hfind as [Hin Heq].
  apply filter_In in Hin. destruct Hin as [_ Hneq].
  rewrite Heq in Hneq. discriminate.
Qed.

Lemma id_le_total (a b : Document) : id_le a b = false -> id_le b a = true.
Proof. apply OrderLemmas.string_leb_total. Qed.

Lemma id_le_trans (a b c : Document) :
  id_le a b = true -> id_le b c = true -> id_le a c = true.
Proof. apply OrderLemmas.string_leb_trans. Qed.

(** The documents of a chat after a selection of the joined rows. *)
Lemma chat_documents_of_filter db db' cid (p : Document -> bool) :
  joined_documents db' cid = filter p (joined_documents db cid) ->
  chat_documents_of db' cid = filter p (chat_documents_of db cid).
Proof.
  intros H. unfold chat_documents_of. rewrite H. symmetry.
  apply OrderLemmas.filter_sort_by; [apply id_le_total | apply id_le_trans].
Qed.

Lemma chat_documents_of_after_delete db id cid :
  chat_documents_of (delete_document db id) cid =
  filter (fun d => negb (String.eqb (doc_id d) id)) (chat_documents_of db cid).
Proof.
  destruct (get_document db id) eqn:Hexists.
  2:{ assert (Hsame : delete_document db id = db)
        by (unfold delete_document; now rewrite Hexists).
      rewrite Hsame. symmetry. apply forallb_filter_id.
      apply forallb_forall. intros doc Hdoc.
      apply chat_documents_of_In in Hdoc. destruct Hdoc as [_ Hget].
      apply negb_true_iff, String.eqb_neq. intros Heq.
      rewrite Heq in Hget. congruence. }
  pose proof (get_document_after_delete db id) as Hother.
  pose proof (get_document_deleted db id) as Hgone.
  apply chat_documents_of_filter. unfold joined_documents.
  replace (chat_documents (delete_document db id))
    with (filter (fun row => negb (String.eqb (snd row) id)) (chat_documents db))
    by (unfold delete_document; now rewrite Hexists).
  induction (chat_documents db) as [|[c x] rows IH]; simpl; [reflexivity|].
  destruct (String.eqb_spec x id) as [->|Hx]; simpl.
  - rewrite IH. destruct (String.eqb c cid); simpl; [|reflexivity].
    rewrite Hexists. simpl.
    rewrite (get_document_id _ _ _ Hexists), String.eqb_refl. reflexivity.
  - rewrite IH. destruct (String.eqb c cid); simpl; [|reflexivity].
    rewrite (Hother x Hx).
    destruct (get_document db x) eqn:Hget; simpl; [|reflexivity].
    rewrite (get_document_id _ _ _ Hget).
    destruct (String.eqb_spec x id); [contradiction | reflexivity].
Qed.

Lemma get_chunks_after_delete db id x :
  x <> id -> get_chunks (delete_document db id) x = get_chunks db x.
Proof.
  intros Hx. unfold get_chunks, delete_document.
  destruct (get_document db id); [|reflexivity]. simpl.
  f_equal. apply filter_twice.
  intros c Hc. apply String.eqb_eq in Hc.
  apply negb_true_iff, String.eqb_neq. congruence.
Qed.

Lemma get_chunks_deleted db id doc :
  get_document db id = Some doc -> get_chunks (delete_document db id) id = [].
Proof.
  intros Hget. unfold get_chunks, delete_document. rewrite Hget. simpl.
  replace (filter _ (filter _ (chunks db))) with (@nil Chunk); [reflexivity|].
  symmetry. induction (chunks db) as [|c l IH]; simpl; [reflexivity|].
  destruct (String.eqb (documentId c) id) eqn:Heq; simpl; [exact IH|].
  now rewrite Heq.
Qed.

End modelsFacts.

(** C9.  Deleting an existing document removes the document, its
    chunks and its rows of the chat association, and nothing else: the
    other documents and their chunks are found as before, every chat
    keeps its other documents in their order, the association rows of
    other documents stay, and the chat sessions and all chat messages
    are untouched. *)
Theorem delete_document_cascade :
  forall (db : models.DB) (document_id : string) (doc : models.Document),
    models.get_document db document_id = Some doc ->
    let db' := models.delete_document db document_id in
    models.get_document db' document_id = None
    /\ models.get_chunks db' document_id = []
    /\ (forall c, In c (models.chunks db') ->
                  models.documentId c <> document_id)
    /\ (forall cid, ~ In (cid, document_id) (models.chat_documents db'))
    /\ (forall other, other <> document_id ->
          models.get_document db' other = models.get_document db other
          /\ models.get_chunks db' other = models.get_chunks db other)
    /\ (forall d, models.doc_id d <> document_id ->
          (In d (models.documents db') <-> In d (models.documents db)))
    /\ (forall c, models.documentId c <> document_id ->
          (In c (models.chunks db') <-> In c (models.chunks db)))
    /\ (forall row, snd row <> document_id ->
          (In row (models.chat_documents db')
           <-> In row (models.chat_documents db)))
    /\ (forall cid,
          models.chat_documents_of db' cid =
          filter (fun d => negb (String.eqb (models.doc_id d) document_id))
                 (models.chat_documents_of db cid))
    /\ models.chat_sessions db' = models.chat_sessions db
    /\ models.chat_messages db' = models.chat_messages db.
Proof.
  intros db id doc Hget db'.
  assert (Hdb' : db' = models.mkDB
            (filter (fun d => negb (String.eqb (models.doc_id d) id))
                    (models.documents db))
            (filter (fun c => negb (String.eqb (models.documentId c) id))
                    (models.chunks db))
            (models.chat_sessions db)
            (filter (fun row => negb (String.eqb (snd row) id))
                    (models.chat_documents db))
            (models.chat_messages db)).
  { subst db'. unfold models.delete_document. now rewrite Hget. }
  repeat split.
  - apply modelsFacts.get_document_deleted.
  - eapply modelsFacts.get_chunks_deleted; eassumption.
  - rewrite Hdb'. simpl. intros c Hc. apply filter_In in Hc.
    destruct Hc as [_ Hc]. now apply negb_true_iff, String.eqb_neq in Hc.
  - rewrite Hdb'. simpl. intros cid Hin. apply filter_In in Hin.
    destruct Hin as [_ Hin]. simpl in Hin.
    rewrite String.eqb_refl in Hin. discriminate.
  - now apply modelsFacts.get_document_after_delete.
  - now apply modelsFacts.get_chunks_after_delete.
  - rewrite Hdb'. simpl. intros Hin. now apply filter_In in Hin.
  - rewrite Hdb'. simpl. intros Hin. apply filter_In. split; [exact Hin|].
    now apply negb_true_iff, String.eqb_neq.
  - rewrite Hdb'. simpl. intros Hin. now apply filter_In in Hin.
  - rewrite Hdb'. simpl. intros Hin. apply filter_In. split; [exact Hin|].
    now apply negb_true_iff, String.eqb_neq.
  - rewrite Hdb'. simpl. intros Hin. now apply filter_In in Hin.
  - rewrite Hdb'. simpl. intros Hin. apply filter_In. split; [exact Hin|].
    now apply negb_true_iff, String.eqb_neq.
  - apply modelsFacts.chat_documents_of_after_delete.
  - rewrite Hdb'. reflexivity.
  - rewrite Hdb'. reflexivity.
Qed.

Lemma delete_document_cascade_witness :
  models.get_document Sample.db "d1" = Some Sample.doc_a
  /\ models.get_document (models.delete_document Sample.db "d1") "d1" = None.
Proof.
  split; [reflexivity|].
  exact (proj1 (delete_document_cascade Sample.db "d1" Sample.doc_a eq_refl)).
Defined.

(** ** Running the monad *)

Ltac run_monad :=
  unfold bind, ret, raise, try_except, lift_result, db_read, db_write,
    db_call, db_insert, embed_documents, embed_query, log_event in *;
  simpl in *.

Module RetrieverFacts.

Lemma docs_of_labels_incl texts labels :
  incl (docs_of_labels texts labels) texts.
Proof.
  induction labels as [|i rest IH]; simpl; [intros x []|].
  destruct (i =? -1)%Z; [exact IH|].
  destruct (nth_error texts (Z.to_nat i)) eqn:Hnth; [|exact IH].
  intros x [<-|Hx]; [eapply nth_error_In; eassumption | now apply IH].
Qed.

Lemma get_relevant_documents_incl w r q st docs st' :
  get_relevant_documents w r q st = (Ok docs, st') ->
  incl docs (r_texts r).
Proof.
  unfold get_relevant_documents. run_monad.
  destruct (embed_fault w (st_log st)); [discriminate|].
  destruct (faiss.search _ _ _); [|discriminate].
  intros H. injection H as <- _. apply docs_of_labels_incl.
Qed.

Lemma np_array_ok vectors array :
  np_array vectors = Ok array -> array = map astype_float32 vectors.
Proof.
  unfold np_array. destruct vectors as [|v rest]; [now intros [= <-]|].
  match goal with |- context [forallb ?f ?l] => destruct (forallb f l) end;
    congruence.
Qed.

Lemma retriever_texts w ids st r st' :
  DocumentService.get_multi_document_retriever w ids st = (Ok (Some r), st') ->
  r_texts r = map models.content
                  (models.get_chunks_for_documents (st_db st) ids)
  /\ models.get_chunks_for_documents (st_db st) ids <> [].
Proof.
  unfold DocumentService.get_multi_document_retriever.
  destruct ids as [|i ids]; [discriminate|].
  unfold VectorStore.build_langchain_faiss. run_monad.
  destruct (db_fault w (st_log st)); [discriminate|].
  destruct (models.get_chunks_for_documents (st_db st) (i :: ids))
    as [|c cs] eqn:Hchunks; [discriminate|].
  simpl. destruct (embed_fault w _); [discriminate|].
  simpl. destruct (np_array _); run_monad; [|discriminate].
  intros H. injection H as <- _. simpl. split; [reflexivity | discriminate].
Qed.

End RetrieverFacts.

Module PoolFacts.
Import models.

Lemma get_chunks_for_documents_In db ids c :
  In c (get_chunks_for_documents db ids) <->
  In c (chunks db) /\ In (documentId c) ids.
Proof.
  unfold get_chunks_for_documents. rewrite sort_by_In, filter_In.
  rewrite existsb_exists. split.
  - intros [Hc [x [Hx Heq]]]. apply String.eqb_eq in Heq. now subst x.
  - intros [Hc Hin]. split; [exact Hc|].
    exists (documentId c). split; [exact Hin | apply String.eqb_refl].
Qed.

Lemma retrieval_pool_In db cid c :
  In c (retrieval_pool db cid) ->
  In c (chunks db)
  /\ exists doc, In doc (chat_documents_of db cid)
                 /\ doc_id doc = documentId c.
Proof.
  unfold retrieval_pool.
  destruct (get_chat_session db cid); [|intros []].
  rewrite get_chunks_for_documents_In, in_map_iff.
  intros [Hc [doc [Hid Hdoc]]]. split; [exact Hc|]. now exists doc.
Qed.

Lemma removed_not_in_chat db cid did doc :
  In doc (chat_documents_of (remove_document_from_chat db cid did) cid) ->
  get_chat_session db cid <> None ->
  doc_id doc <> did.
Proof.
  unfold remove_document_from_chat. intros Hin Hchat.
  destruct (get_chat_session db cid); [|congruence].
  destruct (get_document db did) eqn:Hdoc.
  - destruct (document_in_chat db cid did) eqn:Hmember.
    + apply modelsFacts.chat_documents_of_In in Hin. simpl in Hin.
      destruct Hin as [Hrow _]. apply filter_In in Hrow.
      destruct Hrow as [_ Hrow]. simpl in Hrow.
      rewrite String.eqb_refl in Hrow. simpl in Hrow.
      now apply negb_true_iff, String.eqb_neq in Hrow.
    + intros Heq.
      assert (Hyes : document_in_chat db cid did = true)
        by (apply modelsFacts.document_in_chat_true; now exists doc).
      congruence.
  - intros Heq. apply modelsFacts.chat_documents_of_In in Hin.
    destruct Hin as [_ Hget]. rewrite Heq in Hget. congruence.
Qed.


End PoolFacts.

(** ** Strings *)

Module PyFacts.

Lemma length_app (a b : string) :
  String.length (a ++ b) = String.length a + String.length b.
Proof.
  induction a as [|c a IH]; simpl; [reflexivity | now rewrite IH].
Qed.

Lemma app_assoc (a b c : string) : ((a ++ b) ++ c = a ++ (b ++ c))%string.
Proof.
  induction a as [|x a IH]; simpl; [reflexivity | now rewrite IH].
Qed.

Lemma prefix_app (a b : string) : String.prefix a (a ++ b) = true.
Proof.
  induction a as [|c a IH]; simpl.
  - now destruct b.
  - destruct (ascii_dec c c); [exact IH | congruence].
Qed.

Lemma contains_prefix (sub s : string) :
  String.prefix sub s = true -> Py.contains sub s = true.
Proof.
  intros H. destruct s; simpl in *; now rewrite H.
Qed.

(** [sub in a + sub + b] *)
Lemma contains_middle (sub a b : string) :
  Py.contains sub (a ++ sub ++ b) = true.
Proof.
  induction a as [|c a IH]; simpl.
  - apply contains_prefix, prefix_app.
  - rewrite IH. apply orb_true_r.
Qed.

Lemma contains_right (sub a : string) : Py.contains sub (a ++ sub) = true.
Proof.
  replace (a ++ sub)%string with (a ++ sub ++ "")%string.
  - apply contains_middle.
  - f_equal. induction sub as [|c s IH]; simpl; [reflexivity|now rewrite IH].
Qed.

Lemma contains_app_r (sub a b : string) :
  Py.contains sub b = true -> Py.contains sub (a ++ b) = true.
Proof.
  intros H. induction a as [|c a IH]; simpl; [exact H|].
  rewrite IH. apply orb_true_r.
Qed.

Lemma prefix_app_l (sub a b : string) :
  String.prefix sub a = true -> String.prefix sub (a ++ b) = true.
Proof.
  revert a. induction sub as [|c sub IH]; intros a H.
  - now destruct (a ++ b)%string.
  - destruct a as [|x a]; simpl in *; [discriminate|].
    destruct (ascii_dec c x); [now apply IH | discriminate].
Qed.

Lemma contains_cons (sub : string) (c : ascii) (s : string) :
  Py.contains sub (String c s)
  = String.prefix sub (String c s) || Py.contains sub s.
Proof. reflexivity. Qed.

Lemma contains_app_l (sub a b : string) :
  Py.contains sub a = true -> Py.contains sub (a ++ b) = true.
Proof.
  induction a as [|c a IH]; intros H.
  - simpl in H. rewrite orb_false_r in H. destruct sub; [|discriminate].
    destruct b; reflexivity.
  - rewrite contains_cons in H.
    change (String c a ++ b)%string with (String c (a ++ b)).
    rewrite contains_cons.
    apply orb_true_iff in H. destruct H as [H|H].
    + change (String c (a ++ b)) with (String c a ++ b)%string.
      rewrite (prefix_app_l _ _ _ H). reflexivity.
    + rewrite (IH H). apply orb_true_r.
Qed.

(** Every member of a joined list occurs in the result. *)
Lemma contains_join (sep x : string) (l : list string) :
  In x l -> Py.contains x (Py.join sep l) = true.
Proof.
  unfold Py.join. induction l as [|y l IH]; [intros []|].
  intros Hin. simpl.
  destruct l as [|z l].
  - destruct Hin as [->|[]]. apply contains_prefix.
    replace x with (x ++ "")%string at 2; [apply prefix_app|].
    clear. induction x as [|c s IH]; simpl; [reflexivity|now rewrite IH].
  - destruct Hin as [->|Hin].
    + apply contains_prefix, prefix_app.
    + apply contains_app_r, contains_app_r. now apply IH.
Qed.

(** Strings all of whose characters satisfy a test. *)
Lemma every_app (p : ascii -> bool) (a b : string) :
  Py.every p (a ++ b) = Py.every p a && Py.every p b.
Proof.
  induction a as [|c a IH]; simpl; [reflexivity|].
  now rewrite IH, andb_assoc.
Qed.

Lemma every_substring (p : ascii -> bool) (n m : nat) (s : string) :
  Py.every p s = true -> Py.every p (String.substring n m s) = true.
Proof.
  revert n m. induction s as [|c s IH]; intros n m H.
  - now destruct n, m.
  - simpl in H. apply andb_true_iff in H. destruct H as [Hc Hs].
    destruct n as [|n]; simpl.
    + destruct m as [|m]; simpl; [reflexivity|].
      rewrite Hc. now apply IH.
    + now apply IH.
Qed.

Lemma every_replace_char (p : ascii -> bool) (a b : ascii) (s : string) :
  p b = true -> Py.every p s = true ->
  Py.every p (Py.replace_char a b s) = true.
Proof.
  intros Hb. induction s as [|c s IH]; simpl; [reflexivity|].
  intros H. apply andb_true_iff in H. destruct H as [Hc Hs].
  rewrite (IH Hs). now destruct (Ascii.eqb c a); rewrite ?Hb, ?Hc.
Qed.

Lemma every_rsplit1_head (p : ascii -> bool) (c : ascii) (s : string) :
  Py.every p s = true -> Py.every p (Py.rsplit1_head c s) = true.
Proof.
  intros H. unfold Py.rsplit1_head.
  destruct (Py.before_last c s) as [h|] eqn:Hh; [|exact H].
  revert h Hh H. induction s as [|x s IH]; intros h Hh H; [discriminate|].
  simpl in Hh, H. apply andb_true_iff in H. destruct H as [Hx Hs].
  destruct (Py.before_last c s) as [h'|] eqn:Hh'.
  - injection Hh as <-. simpl. rewrite Hx. now apply IH.
  - destruct (Ascii.eqb x c); [|discriminate]. now injection Hh as <-.
Qed.

Lemma every_split_ws_from (p : ascii -> bool) (cur s : string) :
  Py.every p cur = true -> Py.every p s = true ->
  Forall (fun word => Py.every p word = true) (Py.split_ws_from cur s).
Proof.
  revert cur. induction s as [|c s IH]; intros cur Hcur H; simpl.
  - destruct cur; constructor; [exact Hcur | constructor].
  - simpl in H. apply andb_true_iff in H. destruct H as [Hc Hs].
    destruct (Py.is_space c).
    + destruct cur; [now apply IH|].
      constructor; [exact Hcur | now apply IH].
    + apply IH; [|exact Hs]. rewrite every_app, Hcur. simpl. now rewrite Hc.
Qed.

Lemma every_join (p : ascii -> bool) (sep : string) (l : list string) :
  Py.every p sep = true ->
  Forall (fun word => Py.every p word = true) l ->
  Py.every p (Py.join sep l) = true.
Proof.
  intros Hsep Hall. unfold Py.join.
  induction Hall as [|x l Hx Hl IH]; simpl; [reflexivity|].
  destruct l as [|y l]; [exact Hx|].
  now rewrite !every_app, Hx, Hsep, IH.
Qed.

Lemma every_firstn (p : ascii -> bool) (n : nat) (l : list string) :
  Forall (fun word => Py.every p word = true) l ->
  Forall (fun word => Py.every p word = true) (firstn n l).
Proof.
  intros Hall. apply Forall_forall. intros x Hx.
  rewrite Forall_forall in Hall. apply Hall.
  rewrite <- (firstn_skipn n l). apply in_or_app. now left.
Qed.

(** On a character whose title case is one character, [title] upper-
    or lower-cases it. *)
Lemma to_title_one (c : ascii) :
  Py.title_is_one c = true ->
  Py.to_title c = String (Py.to_upper c) EmptyString.
Proof.
  unfold Py.title_is_one, Py.to_title. intros H.
  apply andb_true_iff in H. destruct H as [_ H].
  apply negb_true_iff in H. now rewrite H.
Qed.

Lemma title_from_length (b : bool) (s : string) :
  Py.plain s = true ->
  String.length (Py.title_from b s) = String.length s.
Proof.
  unfold Py.plain. revert b. induction s as [|c s IH]; intros b H; simpl;
    [reflexivity|].
  simpl in H. apply andb_true_iff in H. destruct H as [Hc Hs].
  rewrite (to_title_one c Hc). destruct b; simpl; now rewrite IH.
Qed.

Lemma title_from_app (b : bool) (s : string) :
  Py.title_from b (s ++ "...") = (Py.title_from b s ++ "...")%string.
Proof.
  revert b. induction s as [|c s IH]; intros b.
  - now destruct b.
  - change (String c s ++ "...")%string with (String c (s ++ "...")).
    cbn [Py.title_from]. now rewrite IH, app_assoc.
Qed.

Lemma case_stable (c : ascii) :
  Py.is_cased (Py.to_upper c) = Py.is_cased c
  /\ Py.is_cased (Py.to_lower c) = Py.is_cased c
  /\ Py.to_upper (Py.to_upper c) = Py.to_upper c
  /\ Py.to_lower (Py.to_lower c) = Py.to_lower c.
Proof.
  destruct c as [[] [] [] [] [] [] [] []]; vm_compute; repeat split.
Qed.

Lemma case_keeps_one (c : ascii) :
  Py.title_is_one c = true ->
  Py.title_is_one (Py.to_upper c) = true
  /\ Py.title_is_one (Py.to_lower c) = true.
Proof.
  destruct c as [[] [] [] [] [] [] [] []]; vm_compute; intros H;
    repeat split; discriminate.
Qed.

(** A title-cased string is a fixed point of [title]. *)
Lemma title_from_idempotent (b : bool) (s : string) :
  Py.plain s = true ->
  Py.title_from b (Py.title_from b s) = Py.title_from b s.
Proof.
  unfold Py.plain. revert b. induction s as [|c s IH]; intros b H; simpl;
    [reflexivity|].
  simpl in H. apply andb_true_iff in H. destruct H as [Hc Hs].
  destruct (case_stable c) as [Hu [Hl [Huu Hll]]].
  destruct (case_keeps_one c Hc) as [Hone_u Hone_l].
  rewrite (to_title_one c Hc).
  destruct b; simpl.
  - now rewrite Hll, Hl, IH.
  - now rewrite (to_title_one _ Hone_u), Huu, Hu, IH.
Qed.

Lemma substring_length (n : nat) (s : string) :
  n <= String.length s -> String.length (String.substring 0 n s) = n.
Proof.
  revert s. induction n as [|n IH]; intros s H.
  - now destruct s.
  - destruct s as [|c s]; simpl in *; [lia|]. rewrite IH; lia.
Qed.

End PyFacts.

Module NameFacts.
Import DocumentService.

Lemma smart_name_unfold (file_name : string) :
  _generate_smart_chat_name file_name =
  Py.title (if (25 <? Py.len (cleaned_name file_name))%nat
            then (Py.slice_to 22 (cleaned_name file_name) ++ "...")%string
            else cleaned_name file_name).
Proof. reflexivity. Qed.

(** The cleaned name, and the name cut to length, are made of
    characters of the file name, spaces and dots. *)
Lemma cleaned_name_every (p : ascii -> bool) (file_name : string) :
  p " "%char = true ->
  Py.every p file_name = true ->
  Py.every p (cleaned_name file_name) = true.
Proof.
  intros Hspace H. unfold cleaned_name.
  assert (Hname : Py.every p
            (Py.replace_char "-" " "
               (Py.replace_char "_" " " (Py.rsplit1_head "." file_name)))
            = true).
  { repeat apply PyFacts.every_replace_char; trivial.
    now apply PyFacts.every_rsplit1_head. }
  destruct (3 <? _)%nat; [|exact Hname].
  apply PyFacts.every_join; [simpl; now rewrite Hspace|].
  apply PyFacts.every_firstn.
  now apply PyFacts.every_split_ws_from.
Qed.

Lemma cut_name_plain (file_name : string) :
  Py.plain file_name = true ->
  Py.plain (if (25 <? Py.len (cleaned_name file_name))%nat
            then (Py.slice_to 22 (cleaned_name file_name) ++ "...")%string
            else cleaned_name file_name) = true.
Proof.
  intros H. unfold Py.plain in *.
  pose proof (cleaned_name_every _ file_name eq_refl H) as Hclean.
  destruct (25 <? _)%nat; [|exact Hclean].
  rewrite PyFacts.every_app. unfold Py.slice_to.
  now rewrite PyFacts.every_substring.
Qed.

Lemma smart_name_length (file_name : string) :
  Py.plain file_name = true ->
  Py.len (_generate_smart_chat_name file_name) <= 25.
Proof.
  intros Hplain. rewrite smart_name_unfold. unfold Py.title, Py.len.
  rewrite PyFacts.title_from_length by now apply cut_name_plain.
  destruct (25 <? _)%nat eqn:Hlong.
  - apply Nat.ltb_lt in Hlong. unfold Py.len in Hlong.
    rewrite PyFacts.length_app. unfold Py.slice_to.
    rewrite PyFacts.substring_length by lia. simpl. lia.
  - apply Nat.ltb_ge in Hlong. exact Hlong.
Qed.

Lemma smart_name_titled (file_name : string) :
  Py.plain file_name = true ->
  Py.title (_generate_smart_chat_name file_name)
  = _generate_smart_chat_name file_name.
Proof.
  intros Hplain. rewrite smart_name_unfold.
  apply PyFacts.title_from_idempotent. now apply cut_name_plain.
Qed.

Lemma smart_name_truncated (file_name : string) :
  Py.plain file_name = true ->
  25 < Py.len (cleaned_name file_name) ->
  _generate_smart_chat_name file_name
  = (Py.title (Py.slice_to 22 (cleaned_name file_name)) ++ "...")%string
  /\ Py.len (Py.title (Py.slice_to 22 (cleaned_name file_name))) = 22.
Proof.
  intros Hplain Hlong. rewrite smart_name_unfold.
  assert (Hb : (25 <? Py.len (cleaned_name file_name))%nat = true)
    by now apply Nat.ltb_lt.
  rewrite Hb. unfold Py.title, Py.len. split.
  - apply PyFacts.title_from_app.
  - rewrite PyFacts.title_from_length.
    + unfold Py.slice_to.
      apply PyFacts.substring_length. unfold Py.len in Hlong. lia.
    + unfold Py.plain, Py.slice_to. apply PyFacts.every_substring.
      now apply (cleaned_name_every _ file_name eq_refl).
Qed.

End NameFacts.

Module RenameFacts.
Import models.

Lemma add_keeps_tables db cid did :
  documents (add_document_to_chat db cid did) = documents db
  /\ chat_sessions (add_document_to_chat db cid did) = chat_sessions db.
Proof.
  unfold add_document_to_chat.
  destruct (get_chat_session db cid); [|now split].
  destruct (get_document db did); [|now split].
  destruct (document_in_chat db cid did); now split.
Qed.

(** Once added, the document is among the documents of the chat. *)
Lemma added_in_chat db cid did session doc :
  get_chat_session db cid = Some session ->
  get_document db did = Some doc ->
  In doc (chat_documents_of (add_document_to_chat db cid did) cid).
Proof.
  intros Hchat Hdoc. unfold add_document_to_chat. rewrite Hchat, Hdoc.
  pose proof (modelsFacts.get_document_id _ _ _ Hdoc) as Hid.
  destruct (document_in_chat db cid did) eqn:Hmember.
  - apply modelsFacts.document_in_chat_true in Hmember.
    destruct Hmember as [doc' [Hin Hid']].
    pose proof Hin as Hin'.
    apply modelsFacts.chat_documents_of_In in Hin'.
    destruct Hin' as [_ Hget]. rewrite Hid', Hdoc in Hget.
    injection Hget as <-. exact Hin.
  - apply modelsFacts.chat_documents_of_In. simpl. split.
    + apply in_or_app. right. left. now rewrite Hid.
    + unfold get_document in *. simpl. now rewrite Hid.
Qed.

Lemma rename_first_found cid new_name l session :
  find (fun c => String.eqb (chat_id c) cid) l = Some session ->
  find (fun c => String.eqb (chat_id c) cid) (rename_first cid new_name l)
  = Some (mkChatSession (chat_id session) new_name (chat_createdAt session)).
Proof.
  induction l as [|c l IH]; simpl; [discriminate|].
  destruct (String.eqb (chat_id c) cid) eqn:Heq; simpl.
  - intros H. injection H as <-. now rewrite Heq.
  - rewrite Heq. exact IH.
Qed.

End RenameFacts.

Module AddFacts.
Import DocumentService.

(** The database after a call of [add_document_to_chat] that returns. *)
Lemma add_document_to_chat_db w cid did st st' :
  add_document_to_chat w cid did st = (Ok tt, st') ->
  let db1 := models.add_document_to_chat (st_db st) cid did in
  st_db st' =
    match models.get_chat_session db1 cid with
    | Some session =>
        if Nat.eqb (List.length (models.chat_documents_of db1 cid)) 1
           && (Py.contains "New Chat" (models.name session)
               || Py.contains "Chat " (models.name session))
        then
          match models.get_document db1 did with
          | Some doc =>
              models.rename_chat_session db1 cid
                (_generate_smart_chat_name (models.originalName doc))
          | None => db1
          end
        else db1
    | None => db1
    end.
Proof.
  unfold add_document_to_chat, get_chat_session. run_monad.
  destruct (db_fault w (st_log st)); [discriminate|]. simpl.
  destruct (db_fault w (st_log st ++ _)); [discriminate|]. simpl.
  destruct (models.get_chat_session _ cid) as [session|];
    [|intros H; now injection H as <-].
  destruct (_ && _); [|intros H; now injection H as <-]. simpl.
  destruct (db_fault w _); [discriminate|]. simpl.
  destruct (models.get_document _ did) as [doc|];
    [|intros H; now injection H as <-]. simpl.
  destruct (db_fault w _); [discriminate|].
  intros H. now injection H as <-.
Qed.

End AddFacts.

(** C10 at a document whose file name starts with the sharp s.  The
    name is cut to 25 characters before it is put in title case, and the
    title case of the sharp s is the two characters "Ss": the chat is
    renamed to a name of 26 characters. *)
Theorem smart_name_exceeds_cap :
  let st' := snd (DocumentService.add_document_to_chat Sample.world "c1" "d3"
                    (Sample.state Sample.db_sharp)) in
  models.originalName Sample.doc_sharp
  = String Py.sharp_s "-Spektroskopie_Grundlagen.pdf"
  /\ models.get_chat_session (st_db st') "c1"
     = Some (models.mkChatSession "c1" "Ss Spektroskopie Grundl..." 20)
  /\ Py.len "Ss Spektroskopie Grundl..." = 26.
Proof. vm_compute. repeat split. Qed.

(** X26.  When a call of [add_document_to_chat] returns, the chat is
    renamed exactly when the added document is then the only document
    of the chat and the chat's name contains "New Chat" or "Chat ".  The
    new name is the one [_generate_smart_chat_name] derives from the
    document's original name (taken without the micro sign and U+00FF,
    whose title case the model does not have).  When that name has no
    sharp s either, the new name is title-cased, has at most 25
    characters, and ends in "..." after 22 characters when the cleaned
    file name is longer than 25.  In every other case the table of chat
    sessions, and so every session name, is as before. *)
Theorem add_document_to_chat_renames :
  forall (w : World) (chat_id document_id : string) (st st' : State),
    DocumentService.add_document_to_chat w chat_id document_id st
    = (Ok tt, st') ->
    let db1 := models.add_document_to_chat (st_db st) chat_id document_id in
    (forall session doc,
        models.get_chat_session db1 chat_id = Some session ->
        models.chat_documents_of db1 chat_id = [doc] ->
        models.doc_id doc = document_id ->
        Py.contains "New Chat" (models.name session)
        || Py.contains "Chat " (models.name session) = true ->
        Py.in_range (models.originalName doc) = true ->
        let new_name :=
          DocumentService._generate_smart_chat_name (models.originalName doc) in
        models.get_chat_session (st_db st') chat_id
        = Some (models.mkChatSession (models.chat_id session) new_name
                                     (models.chat_createdAt session))
        /\ (Py.len (cleaned_name (models.originalName doc)) <= 25 ->
            new_name = Py.title (cleaned_name (models.originalName doc)))
        /\ (Py.plain (models.originalName doc) = true ->
            Py.len new_name <= 25
            /\ Py.title new_name = new_name
            /\ (25 < Py.len (cleaned_name (models.originalName doc)) ->
                exists stem,
                  new_name = (stem ++ "...")%string /\ Py.len stem = 22)))
    /\ (models.chat_sessions (st_db st') = models.chat_sessions (st_db st)
        \/ exists session doc,
             models.get_chat_session db1 chat_id = Some session
             /\ models.chat_documents_of db1 chat_id = [doc]
             /\ models.doc_id doc = document_id
             /\ Py.contains "New Chat" (models.name session)
                || Py.contains "Chat " (models.name session) = true).
Proof.
  intros w cid did st st' Hrun db1.
  pose proof (AddFacts.add_document_to_chat_db _ _ _ _ _ Hrun) as Hdb.
  fold db1 in Hdb. cbv zeta in Hdb.
  destruct (RenameFacts.add_keeps_tables (st_db st) cid did)
    as [Hdocs Hsessions]. fold db1 in Hdocs, Hsessions.
  split.
  - intros session doc Hchat Honly Hid Hname _ new_name.
    rewrite Hchat, Honly, Hname in Hdb. simpl in Hdb.
    assert (Hget : models.get_document db1 did = Some doc).
    { assert (Hin : In doc (models.chat_documents_of db1 cid))
        by (rewrite Honly; now left).
      apply modelsFacts.chat_documents_of_In in Hin.
      destruct Hin as [_ Hget]. now rewrite Hid in Hget. }
    rewrite Hget in Hdb. fold new_name in Hdb.
    split; [|split].
    + rewrite Hdb. unfold models.get_chat_session in *. simpl.
      now apply RenameFacts.rename_first_found.
    + intros Hshort. unfold new_name. rewrite NameFacts.smart_name_unfold.
      apply Nat.ltb_ge in Hshort. now rewrite Hshort.
    + intros Hplain. split; [|split].
      * now apply NameFacts.smart_name_length.
      * now apply NameFacts.smart_name_titled.
      * intros Hlong.
        destruct (NameFacts.smart_name_truncated _ Hplain Hlong)
          as [Heq Hlen].
        eexists. split; [exact Heq | exact Hlen].
  - destruct (models.get_chat_session db1 cid) as [session|] eqn:Hchat;
      [|left; now rewrite Hdb].
    destruct (Nat.eqb _ 1) eqn:Hone; simpl in Hdb; [|left; now rewrite Hdb].
    destruct (Py.contains "New Chat" _ || Py.contains "Chat " _) eqn:Hname;
      [|left; now rewrite Hdb].
    destruct (models.get_document db1 did) as [doc|] eqn:Hget;
      [|left; now rewrite Hdb].
    right. exists session, doc.
    assert (Hchat0 : models.get_chat_session (st_db st) cid = Some session).
    { unfold models.get_chat_session in *. now rewrite <- Hsessions. }
    assert (Hget0 : models.get_document (st_db st) did = Some doc).
    { unfold models.get_document in *. now rewrite <- Hdocs. }
    pose proof (RenameFacts.added_in_chat _ _ _ _ _ Hchat0 Hget0) as Hin.
    fold db1 in Hin. apply Nat.eqb_eq in Hone.
    destruct (models.chat_documents_of db1 cid) as [|doc' [|]] eqn:Hdocsof;
      try discriminate.
    destruct Hin as [->|[]].
    repeat split; [|exact Hname].
    eapply modelsFacts.get_document_id; eassumption.
Qed.

Lemma add_document_to_chat_renames_witness :
  let st' := snd (DocumentService.add_document_to_chat Sample.world "c1" "d1"
                    (Sample.state Sample.db_fresh)) in
  models.get_chat_session (st_db st') "c1"
  = Some (models.mkChatSession "c1" "A" 20).
Proof.
  intros st'.
  assert (Hrun : DocumentService.add_document_to_chat Sample.world "c1" "d1"
                   (Sample.state Sample.db_fresh) = (Ok tt, st'))
    by reflexivity.
  exact (proj1 (proj1 (add_document_to_chat_renames _ _ _ _ _ Hrun)
                  Sample.chat_1 Sample.doc_a
                  eq_refl eq_refl eq_refl eq_refl eq_refl)).
Defined.

(** ** The index over an empty corpus *)

Module IndexFacts.

Lemma create_index_empty_raises w st :
  exists st',
    VectorStore.create_index w [] st = (Raise "tuple index out of range", st')
    \/ exists e, embed_fault w (st_log st) = Some e
                 /\ VectorStore.create_index w [] st = (Raise e, st').
Proof.
  unfold VectorStore.create_index, VectorStore.set_vector_store. run_monad.
  destruct (embed_fault w (st_log st)) as [e|]; eexists.
  - right. exists e. split; reflexivity.
  - left. reflexivity.
Qed.

End IndexFacts.

(** C5, as the code has it.  The retriever treats a zero-chunk corpus as
    no content: [get_multi_document_retriever] returns [None], without
    raising and without any embedding call, both for an empty list of
    document ids and when the documents have no chunk, and a retriever
    it does return is never over zero texts.  [create_index] has no case
    for the empty corpus: called on zero texts it raises. *)
Theorem zero_chunk_corpus :
  forall (w : World) (st : State),
    DocumentService.get_multi_document_retriever w [] st = (Ok None, st)
    /\ (forall ids,
          ids <> [] ->
          db_fault w (st_log st) = None ->
          models.get_chunks_for_documents (st_db st) ids = [] ->
          DocumentService.get_multi_document_retriever w ids st
          = (Ok None,
             mkState (st_db st) (st_vector_store st) (st_qa_chain st)
                     (st_log st ++ [EvDb "get_chunks_for_documents"])))
    /\ (forall ids retriever st',
          DocumentService.get_multi_document_retriever w ids st
          = (Ok (Some retriever), st') ->
          r_texts retriever <> [])
    /\ (exists e st', VectorStore.create_index w [] st = (Raise e, st')).
Proof.
  intros w st. split; [reflexivity|]. split; [|split].
  - intros ids Hids Hdb Hchunks.
    unfold DocumentService.get_multi_document_retriever.
    destruct ids as [|i ids]; [congruence|].
    run_monad. rewrite Hdb. simpl. rewrite Hchunks. reflexivity.
  - intros ids r st' Hbuild.
    apply RetrieverFacts.retriever_texts in Hbuild.
    destruct Hbuild as [-> Hne].
    destruct (models.get_chunks_for_documents (st_db st) ids);
      [congruence | discriminate].
  - destruct (IndexFacts.create_index_empty_raises w st)
      as [st' [H|[e [_ H]]]]; eauto.
Qed.

Lemma zero_chunk_corpus_witness :
  DocumentService.get_multi_document_retriever Sample.world ["d1"]
    (Sample.state Sample.db_unprocessed)
  = (Ok None,
     mkState Sample.db_unprocessed VectorStore.init None
             [EvDb "get_chunks_for_documents"]).
Proof.
  apply (proj1 (proj2 (zero_chunk_corpus Sample.world
                         (Sample.state Sample.db_unprocessed)))).
  - discriminate.
  - reflexivity.
  - reflexivity.
Defined.

(** On zero texts [create_index] raises instead of returning an empty
    index. *)
Lemma create_index_empty_counterexample :
  fst (VectorStore.create_index Sample.world []
         (Sample.state models.empty_db))
  = Raise "tuple index out of range".
Proof. reflexivity. Qed.

(** ** Similarity search *)

Module SearchFacts.

Lemma enumerate_from_labels {A : Type} (i : nat) (l : list A) (p : nat * A) :
  In p (Py.enumerate_from i l) -> i <= fst p < i + List.length l.
Proof.
  revert i. induction l as [|x l IH]; intros i; simpl; [intros []|].
  intros [<-|Hin]; simpl; [lia|]. apply IH in Hin. lia.
Qed.

Lemma enumerate_from_length {A : Type} (i : nat) (l : list A) :
  List.length (Py.enumerate_from i l) = List.length l.
Proof.
  revert i. induction l as [|x l IH]; intros i; simpl;
    [reflexivity | now rewrite IH].
Qed.

Lemma ranked_length dist index q :
  List.length (faiss.ranked dist index q) = faiss.ntotal index.
Proof.
  unfold faiss.ranked, faiss.ntotal, Py.enumerate.
  now rewrite sort_by_length, length_map, enumerate_from_length.
Qed.

Lemma ranked_labels dist index q p :
  In p (faiss.ranked dist index q) -> fst p < faiss.ntotal index.
Proof.
  unfold faiss.ranked, faiss.ntotal, Py.enumerate.
  rewrite sort_by_In, in_map_iff. intros [[i v] [<- Hin]].
  apply enumerate_from_labels in Hin. simpl in *. lia.
Qed.

Lemma firstn_subset {A : Type} (n : nat) (l : list A) (x : A) :
  In x (firstn n l) -> In x l.
Proof.
  intros Hin. rewrite <- (firstn_skipn n l). apply in_or_app. now left.
Qed.

(** [search] answers with exactly [k] labels, each a stored position or
    [-1]. *)
Lemma search_labels dist index q k labels :
  faiss.search dist index q k = Ok labels ->
  List.length labels = k
  /\ Forall (fun i => (-1 <= i < Z.of_nat (faiss.ntotal index))%Z) labels.
Proof.
  unfold faiss.search. destruct (Nat.eqb _ _); [|discriminate].
  intros H. injection H as <-. split.
  - rewrite length_app, repeat_length, length_map.
    pose proof (firstn_le_length k (faiss.ranked dist index q)). lia.
  - apply Forall_app. split.
    + apply Forall_forall. intros i Hi. apply in_map_iff in Hi.
      destruct Hi as [p [<- Hp]].
      apply firstn_subset, ranked_labels in Hp. lia.
    + apply Forall_forall. intros i Hi. apply repeat_spec in Hi. lia.
Qed.

(** With at least one text, every label is looked up: a stored position
    in the text it names, and [-1] in the last text. *)
Lemma collect_length texts labels :
  texts <> [] ->
  Forall (fun i => (-1 <= i < Z.of_nat (List.length texts))%Z) labels ->
  exists results,
    VectorStore.collect texts labels = Ok results
    /\ List.length results = List.length labels.
Proof.
  intros Hne. induction labels as [|i rest IH]; intros Hall.
  - now exists [].
  - inversion Hall as [|? ? Hi Hrest]; subst.
    destruct (IH Hrest) as [results [Hcollect Hlen]].
    simpl. destruct (Z.ltb_spec i (Z.of_nat (List.length texts))); [|lia].
    assert (Hpos : 0 < List.length texts)
      by (destruct texts; simpl; [congruence | lia]).
    assert (Hlookup : exists t, Py.index texts i = Some t).
    { unfold Py.index. destruct (Z.leb_spec 0 i).
      - destruct (nth_error texts (Z.to_nat i)) eqn:Hnth; [eauto|].
        apply nth_error_None in Hnth. lia.
      - destruct (Z.leb_spec (- Z.of_nat (List.length texts)) i); [|lia].
        destruct (nth_error texts _) eqn:Hnth; [eauto|].
        apply nth_error_None in Hnth. lia. }
    destruct Hlookup as [t ->]. rewrite Hcollect.
    eexists. split; [reflexivity|]. simpl. now rewrite Hlen.
Qed.

Lemma create_index_ok w texts st index st' :
  VectorStore.create_index w texts st = (Ok index, st') ->
  st_vector_store st'
  = mkVectorStore (Some index) texts
                  (Some (map astype_float32 (map (embed_model w) texts)))
  /\ faiss.xb index = map astype_float32 (map (embed_model w) texts)
  /\ texts <> [].
Proof.
  unfold VectorStore.create_index, VectorStore.set_vector_store. run_monad.
  destruct (embed_fault w (st_log st)); [discriminate|]. simpl.
  destruct (np_array _) as [array|] eqn:Harray; run_monad; [|discriminate].
  apply RetrieverFacts.np_array_ok in Harray. subst array.
  destruct texts as [|t texts]; simpl; [discriminate|].
  intros H. injection H as <- <-. simpl. repeat split. discriminate.
Qed.

(** Over a non-empty corpus [similarity_search] returns as many results
    as it is asked for, whatever the size of the corpus. *)
Lemma similarity_search_count w texts st index st1 q k results st2 :
  VectorStore.create_index w texts st = (Ok index, st1) ->
  VectorStore.similarity_search w q k st1 = (Ok results, st2) ->
  List.length results = k.
Proof.
  intros Hcreate Hsearch. apply create_index_ok in Hcreate.
  destruct Hcreate as [Hstore [Hxb Hne]].
  unfold VectorStore.similarity_search, VectorStore.get_vector_store in Hsearch.
  run_monad. rewrite Hstore in Hsearch. simpl in Hsearch.
  destruct (embed_fault w (st_log st1)); [discriminate|].
  destruct (faiss.search (fvec_L2sqr w) index
              (astype_float32 (embed_model w q)) k) as [labels|] eqn:Hlabels;
    run_monad; [|discriminate].
  apply search_labels in Hlabels. destruct Hlabels as [Hk Hall].
  unfold faiss.ntotal in Hall. rewrite Hxb, !length_map in Hall.
  destruct (collect_length texts labels Hne Hall) as [rs [Hcollect Hlen]].
  rewrite Hcollect in Hsearch. injection Hsearch as <- _. congruence.
Qed.

End SearchFacts.

(** C2 at a corpus of two texts and [k = 5]: [similarity_search] returns
    five results, not two.  The two stored texts come first, nearest
    first; the three labels [-1] that pad the answer of the index pass
    the test [idx < len(self.texts)] and are looked up as [texts[-1]],
    the last text. *)
Theorem similarity_search_padding :
  let st1 := snd (VectorStore.create_index Sample.world ["alpha"; "beta"]
                    (Sample.state models.empty_db)) in
  fst (VectorStore.similarity_search Sample.world "gamma" 5 st1)
  = Ok [VectorStore.mkSearchResult "alpha" 0;
        VectorStore.mkSearchResult "beta" 1;
        VectorStore.mkSearchResult "beta" (-1);
        VectorStore.mkSearchResult "beta" (-1);
        VectorStore.mkSearchResult "beta" (-1)].
Proof. reflexivity. Qed.

(** ** Order of the search results *)

Module OrderFacts.

Lemma insert_nearer (x : nat * Z) (l : list (nat * Z)) :
  Forall (fun y => fst x < fst y) l ->
  StronglySorted faiss.nearer l ->
  StronglySorted faiss.nearer
    (insert_by (fun a b => (snd a <=? snd b)%Z) x l).
Proof.
  induction l as [|y l IH]; intros Hfirst Hsorted; simpl.
  - constructor; constructor.
  - inversion Hfirst as [|? ? Hxy Hrest]; subst.
    inversion Hsorted as [|? ? Htail Hy]; subst.
    destruct (Z.leb_spec (snd x) (snd y)) as [Hle|Hgt].
    + constructor; [exact Hsorted|].
      assert (Hdist : Forall (fun z => (snd x <= snd z)%Z) (y :: l)).
      { constructor; [exact Hle|].
        apply Forall_forall. intros z Hz.
        rewrite Forall_forall in Hy. specialize (Hy z Hz).
        unfold faiss.nearer in Hy. lia. }
      apply Forall_forall. intros z Hz.
      rewrite Forall_forall in Hdist, Hfirst.
      specialize (Hdist z Hz). specialize (Hfirst z Hz).
      unfold faiss.nearer. lia.
    + constructor; [now apply IH|].
      apply Forall_forall. intros z Hz. apply insert_by_In in Hz.
      destruct Hz as [->|Hz].
      * left. exact Hgt.
      * rewrite Forall_forall in Hy. now apply Hy.
Qed.

Lemma sort_nearer (l : list (nat * Z)) :
  StronglySorted (fun a b => fst a < fst b) l ->
  StronglySorted faiss.nearer (sort_by (fun a b => (snd a <=? snd b)%Z) l).
Proof.
  induction l as [|x l IH]; intros Hsorted; simpl; [constructor|].
  inversion Hsorted as [|? ? Htail Hx]; subst.
  apply insert_nearer; [|now apply IH].
  apply Forall_forall. intros y Hy. apply sort_by_In in Hy.
  rewrite Forall_forall in Hx. now apply Hx.
Qed.

Lemma enumerate_from_sorted {A : Type} (f : A -> Z) (i : nat) (l : list A) :
  StronglySorted (fun a b : nat * Z => fst a < fst b)
    (map (fun p => (fst p, f (snd p))) (Py.enumerate_from i l)).
Proof.
  revert i. induction l as [|x l IH]; intros i; simpl; constructor.
  - apply IH.
  - apply Forall_forall. intros p Hp. apply in_map_iff in Hp.
    destruct Hp as [[j y] [<- Hin]].
    apply SearchFacts.enumerate_from_labels in Hin. simpl in *. lia.
Qed.

(** The index ranks by non-decreasing distance, ties in stored order. *)
Lemma ranked_sorted dist index q :
  StronglySorted faiss.nearer (faiss.ranked dist index q).
Proof.
  unfold faiss.ranked. apply sort_nearer.
  apply (enumerate_from_sorted (dist q)).
Qed.

Lemma collect_in_range texts labels :
  Forall (fun i => (0 <= i < Z.of_nat (List.length texts))%Z) labels ->
  exists results,
    VectorStore.collect texts labels = Ok results
    /\ map VectorStore.index results = labels
    /\ Forall (fun r => nth_error texts (Z.to_nat (VectorStore.index r))
                        = Some (VectorStore.content r)) results.
Proof.
  induction labels as [|i rest IH]; intros Hall.
  - exists []. repeat split. constructor.
  - inversion Hall as [|? ? Hi Hrest]; subst.
    destruct (IH Hrest) as [results [Hcollect [Hlabels Hfound]]].
    simpl. destruct (Z.ltb_spec i (Z.of_nat (List.length texts))); [|lia].
    unfold Py.index. destruct (Z.leb_spec 0 i); [|lia].
    destruct (nth_error texts (Z.to_nat i)) as [t|] eqn:Hnth.
    + rewrite Hcollect. eexists. split; [reflexivity|]. simpl.
      split; [now rewrite Hlabels|]. constructor; assumption.
    + apply nth_error_None in Hnth. lia.
Qed.

(** When no more results are asked for than texts are stored, the
    results are the [k] nearest texts in the order of the index. *)
Lemma similarity_search_within_corpus w texts st index st1 q k results st2 :
  VectorStore.create_index w texts st = (Ok index, st1) ->
  VectorStore.similarity_search w q k st1 = (Ok results, st2) ->
  k <= List.length texts ->
  map VectorStore.index results
  = map (fun p => Z.of_nat (fst p))
        (firstn k (faiss.ranked (fvec_L2sqr w) index
                                (astype_float32 (embed_model w q))))
  /\ List.length results = k
  /\ Forall (fun r => nth_error texts (Z.to_nat (VectorStore.index r))
                      = Some (VectorStore.content r)) results.
Proof.
  intros Hcreate Hsearch Hk.
  pose proof (SearchFacts.similarity_search_count _ _ _ _ _ _ _ _ _
                Hcreate Hsearch) as Hcount.
  apply SearchFacts.create_index_ok in Hcreate.
  destruct Hcreate as [Hstore [Hxb Hne]].
  unfold VectorStore.similarity_search, VectorStore.get_vector_store in Hsearch.
  run_monad. rewrite Hstore in Hsearch. simpl in Hsearch.
  destruct (embed_fault w (st_log st1)); [discriminate|].
  unfold faiss.search in Hsearch.
  destruct (Nat.eqb _ _); run_monad; [|discriminate].
  set (found := firstn k (faiss.ranked (fvec_L2sqr w) index
                                       (astype_float32 (embed_model w q))))
    in *.
  assert (Hn : faiss.ntotal index = List.length texts)
    by (unfold faiss.ntotal; now rewrite Hxb, !length_map).
  assert (Hfound : List.length found = k).
  { subst found. rewrite length_firstn, SearchFacts.ranked_length. lia. }
  rewrite length_map, Hfound, Nat.sub_diag in Hsearch. simpl in Hsearch.
  rewrite app_nil_r in Hsearch.
  assert (Hall : Forall (fun i => (0 <= i < Z.of_nat (List.length texts))%Z)
                        (map (fun p => Z.of_nat (fst p)) found)).
  { apply Forall_forall. intros i Hi. apply in_map_iff in Hi.
    destruct Hi as [p [<- Hp]]. subst found.
    apply SearchFacts.firstn_subset, SearchFacts.ranked_labels in Hp. lia. }
  destruct (collect_in_range texts _ Hall) as [rs [Hcollect [Hlabels Hnth]]].
  rewrite Hcollect in Hsearch. injection Hsearch as <- _.
  repeat split; assumption.
Qed.

End OrderFacts.

(** ** Chunking *)

Module SplitterFacts.
Import text_splitter.

Lemma total_app (l : list string) (s : string) :
  total (l ++ [s]) = total l + String.length s.
Proof.
  induction l as [|x l IH]; simpl; [lia | rewrite IH; lia].
Qed.

Lemma join_length (l : list string) :
  String.length (Py.join EmptyString l) = total l.
Proof.
  unfold Py.join. induction l as [|x l IH]; [reflexivity|].
  simpl. destruct l as [|y l].
  - simpl. lia.
  - rewrite PyFacts.length_app. simpl String.append.
    rewrite IH. reflexivity.
Qed.

Lemma lstrip_length (s : string) :
  String.length (Py.lstrip s) <= String.length s.
Proof.
  induction s as [|c s IH]; simpl; [lia|].
  destruct (Py.is_space c); simpl; lia.
Qed.

Lemma rstrip_length (s : string) :
  String.length (Py.rstrip s) <= String.length s.
Proof.
  induction s as [|c s IH]; simpl; [lia|].
  destruct (Py.rstrip s); [destruct (Py.is_space c)|]; simpl in *; lia.
Qed.

Lemma strip_length (s : string) :
  String.length (Py.strip s) <= String.length s.
Proof.
  unfold Py.strip. pose proof (rstrip_length (Py.lstrip s)).
  pose proof (lstrip_length s). lia.
Qed.

Section Bound.

Variables chunk_size chunk_overlap : nat.

Local Abbreviation fits := (text_splitter.fits chunk_size).

Lemma append_doc_fits docs current_doc :
  Forall fits docs ->
  total current_doc <= chunk_size ->
  Forall fits (append_doc docs (join_docs current_doc)).
Proof.
  intros Hdocs Hcur. unfold join_docs.
  destruct (String.eqb _ _); simpl; [exact Hdocs|].
  apply Forall_app. split; [exact Hdocs|]. constructor; [|constructor].
  unfold text_splitter.fits. pose proof (strip_length (Py.join EmptyString current_doc)).
  rewrite join_length in *. lia.
Qed.

(** After the front has been dropped, the next piece fits or nothing is
    kept. *)
Lemma pop_front_room len_d current_doc :
  let kept := pop_front chunk_size chunk_overlap len_d current_doc in
  total kept + len_d <= chunk_size \/ total kept = 0.
Proof.
  induction current_doc as [|x rest IH]; [now right|].
  cbv zeta. cbn [pop_front].
  destruct (_ || _) eqn:Hcond; [exact IH|].
  apply orb_false_iff in Hcond. destruct Hcond as [_ Hfit].
  apply andb_false_iff in Hfit.
  destruct Hfit as [Hfit|Hzero].
  - left. apply Nat.ltb_ge in Hfit. exact Hfit.
  - right. apply Nat.ltb_ge in Hzero. lia.
Qed.

Lemma merge_loop_fits splits :
  forall docs current_doc,
    Forall fits splits ->
    Forall fits docs ->
    total current_doc <= chunk_size ->
    Forall fits (merge_loop chunk_size chunk_overlap splits docs current_doc).
Proof.
  induction splits as [|piece splits IH]; intros docs cur Hsplits Hdocs Hcur.
  - simpl. now apply append_doc_fits.
  - inversion Hsplits as [|? ? Hpiece Hrest]; subst.
    unfold text_splitter.fits in Hpiece.
    cbn [merge_loop].
    destruct (chunk_size <? total cur + String.length piece)%nat eqn:Hfull.
    + destruct cur as [|x cur'].
      * apply IH; trivial. simpl. lia.
      * apply IH; trivial; [now apply append_doc_fits|].
        rewrite total_app.
        pose proof (pop_front_room (String.length piece) (x :: cur')) as Hroom.
        cbv zeta in Hroom. lia.
    + apply Nat.ltb_ge in Hfull. apply IH; trivial.
      rewrite total_app. lia.
Qed.

Lemma merge_splits_fits splits :
  Forall fits splits ->
  Forall fits (merge_splits chunk_size chunk_overlap splits).
Proof.
  intros H. unfold merge_splits. apply merge_loop_fits; trivial.
  simpl. lia.
Qed.

Lemma merged_good_fits good :
  Forall fits good ->
  Forall fits
    (match good with
     | [] => []
     | _ => merge_splits chunk_size chunk_overlap good
     end).
Proof.
  intros H. destruct good; [constructor | now apply merge_splits_fits].
Qed.

Lemma split_loop_fits deeper splits :
  forall good,
    (forall again s, deeper = Some again -> Forall fits (again s)) ->
    (deeper = None -> Forall fits splits) ->
    Forall fits good ->
    Forall fits (split_loop chunk_size chunk_overlap deeper splits good).
Proof.
  induction splits as [|s splits IH]; intros good Hdeep Hflat Hgood.
  - simpl. now apply merged_good_fits.
  - cbn [split_loop].
    assert (Hflat' : deeper = None -> Forall fits splits).
    { intros Hnone. specialize (Hflat Hnone). now inversion Hflat. }
    destruct (String.length s <? chunk_size)%nat eqn:Hshort.
    + apply IH; trivial. apply Forall_app. split; [exact Hgood|].
      constructor; [|constructor]. apply Nat.ltb_lt in Hshort.
      unfold text_splitter.fits. lia.
    + apply Forall_app. split; [now apply merged_good_fits|].
      apply Forall_app. split.
      * destruct deeper as [again|]; [now apply (Hdeep again)|].
        specialize (Hflat eq_refl). inversion Hflat; subst.
        constructor; [assumption | constructor].
      * apply IH; trivial.
Qed.

Lemma chars_fit text :
  1 <= chunk_size -> Forall fits (filter nonempty (chars text)).
Proof.
  intros Hsize. apply Forall_forall. intros s Hs.
  apply filter_In in Hs. destruct Hs as [Hs _].
  induction text as [|c text IH]; simpl in Hs; [destruct Hs|].
  destruct Hs as [<-|Hs]; [exact Hsize | now apply IH].
Qed.

(** With a list of separators that ends in the empty separator, every
    chunk fits. *)
Lemma split_text_fits seps :
  forall text,
    1 <= chunk_size ->
    last seps " " = EmptyString ->
    Forall fits (_split_text chunk_size chunk_overlap seps text).
Proof.
  induction seps as [|sep rest IH]; intros text Hsize Hlast; [constructor|].
  cbn [_split_text].
  destruct (String.eqb_spec sep EmptyString) as [->|Hsep].
  - apply split_loop_fits; [discriminate | | constructor].
    intros _. unfold split_text_with_regex. now apply chars_fit.
  - destruct rest as [|sep' rest'].
    + simpl in Hlast. congruence.
    + assert (Hlast' : last (sep' :: rest') " " = EmptyString) by exact Hlast.
      destruct (Py.contains sep text).
      * apply split_loop_fits; [| discriminate | constructor].
        intros again s Heq. injection Heq as <-. now apply IH.
      * now apply IH.
Qed.

End Bound.

Lemma enumerate_from_fst {A : Type} (i : nat) (l : list A) :
  map fst (Py.enumerate_from i l) = seq i (List.length l).
Proof.
  revert i. induction l as [|x l IH]; intros i; simpl;
    [reflexivity | now rewrite IH].
Qed.

Lemma enumerate_from_snd {A : Type} (i : nat) (l : list A) :
  map snd (Py.enumerate_from i l) = l.
Proof.
  revert i. induction l as [|x l IH]; intros i; simpl;
    [reflexivity | now rewrite IH].
Qed.

(** No chunk of [chunk_text] has more than 1000 characters. *)
Lemma chunk_text_fits (text : string) :
  Forall (fun c => Py.len (PDFProcessor.content c) <= 1000)
         (PDFProcessor.chunk_text text).
Proof.
  unfold PDFProcessor.chunk_text.
  set (pieces := text_splitter.create_documents 1000 200 text).
  apply Forall_map. simpl.
  assert (Hfit : Forall (text_splitter.fits 1000) pieces).
  { apply split_text_fits; [lia | reflexivity]. }
  apply Forall_forall. intros p Hp.
  assert (Hin : In (snd p) pieces).
  { rewrite <- (enumerate_from_snd 0 pieces). now apply in_map. }
  rewrite Forall_forall in Hfit. exact (Hfit _ Hin).
Qed.

End SplitterFacts.

(** C7.  [chunk_text] numbers its chunks 0, 1, 2, ... in order, no
    chunk has more than 1000 characters, and the empty text has no
    chunk. *)
Theorem chunk_text_contract :
  forall text : string,
    let chunks := PDFProcessor.chunk_text text in
    map PDFProcessor.chunk_index chunks = seq 0 (List.length chunks)
    /\ Forall (fun c => Py.len (PDFProcessor.content c) <= 1000) chunks
    /\ PDFProcessor.chunk_text EmptyString = [].
Proof.
  intros text chunks. subst chunks.
  split; [|split].
  - unfold PDFProcessor.chunk_text.
    rewrite length_map, map_map. simpl. unfold Py.enumerate.
    rewrite SearchFacts.enumerate_from_length.
    apply SplitterFacts.enumerate_from_fst.
  - apply SplitterFacts.chunk_text_fits.
  - reflexivity.
Qed.

(** ** The web search tool *)

Module WebFacts.
Import web_search.

Lemma summarize_http_error w response :
  (400 <= status_code response < 600)%Z ->
  summarize w response = Raise (http_error response).
Proof.
  intros [Hlo Hhi]. unfold summarize.
  apply Z.leb_le in Hlo. apply Z.ltb_lt in Hhi. now rewrite Hlo, Hhi.
Qed.

Lemma summarize_decode_error w response e :
  ~ (400 <= status_code response < 600)%Z ->
  json_body response = Raise e ->
  summarize w response = Raise e.
Proof.
  intros Hstatus Hbody. unfold summarize.
  destruct ((400 <=? status_code response)
            && (status_code response <? 600))%Z eqn:Hcheck.
  - apply andb_true_iff in Hcheck. destruct Hcheck as [Hlo Hhi].
    apply Z.leb_le in Hlo. apply Z.ltb_lt in Hhi. lia.
  - now rewrite Hbody.
Qed.

(** What [serper_search] returns, by the outcome of the request. *)
Lemma serper_search_result w api_key query st :
  serper_search w api_key query st =
  (Ok (match http_post w (st_log st) api_key query with
       | Raise e => "Serper Search error: " ++ e
       | Ok response =>
           match summarize w response with
           | Ok text => text
           | Raise e => "Serper Search error: " ++ e
           end
       end)%string,
   mkState (st_db st) (st_vector_store st) (st_qa_chain st)
           (st_log st ++ [EvHttpPost query])).
Proof.
  unfold serper_search, post. run_monad.
  destruct (http_post w (st_log st) api_key query) as [response|e];
    [|reflexivity].
  simpl. destruct (summarize w response); reflexivity.
Qed.

End WebFacts.

(** C8.  [serper_search] never raises: it returns a string for every
    query, whatever the request does.  When the request itself fails
    (transport), when the status is an error status, when the body does
    not decode, or when anything else goes wrong while the response is
    read, the string is "Serper Search error: " followed by the message
    of the exception.  Called as the agent's WebSearch tool it therefore
    always yields an observation, and the database is untouched. *)
Theorem serper_search_never_raises :
  forall (w : World) (api_key query : string) (st : State),
    exists out st',
      web_search.serper_search w api_key query st = (Ok out, st')
      /\ st_db st' = st_db st
      /\ (forall e,
            http_post w (st_log st) api_key query = Raise e ->
            out = ("Serper Search error: " ++ e)%string)
      /\ (forall response,
            http_post w (st_log st) api_key query = Ok response ->
            (400 <= status_code response < 600)%Z ->
            out = ("Serper Search error: " ++ http_error response)%string)
      /\ (forall response e,
            http_post w (st_log st) api_key query = Ok response ->
            ~ (400 <= status_code response < 600)%Z ->
            json_body response = Raise e ->
            out = ("Serper Search error: " ++ e)%string)
      /\ (forall response e,
            http_post w (st_log st) api_key query = Ok response ->
            web_search.summarize w response = Raise e ->
            out = ("Serper Search error: " ++ e)%string)
      /\ (forall documents_info retriever,
            QAService.run_tool w documents_info retriever
              (web_search.serper_search w api_key) "WebSearch" query st
            = (Ok out, st')).
Proof.
  intros w api_key query st.
  rewrite WebFacts.serper_search_result. eexists. eexists.
  split; [reflexivity|]. split; [reflexivity|].
  split; [|split; [|split; [|split]]].
  - intros e H. now rewrite H.
  - intros response H Hstatus.
    now rewrite H, (WebFacts.summarize_http_error w response Hstatus).
  - intros response e H Hstatus Hbody.
    now rewrite H, (WebFacts.summarize_decode_error w response e Hstatus Hbody).
  - intros response e H Hsum. now rewrite H, Hsum.
  - intros info retriever. unfold QAService.run_tool. simpl.
    apply WebFacts.serper_search_result.
Qed.

Lemma serper_search_never_raises_witness :
  fst (web_search.serper_search Sample.world "key" "rocq"
         (Sample.state models.empty_db))
  = Ok "Serper Search error: connection refused".
Proof.
  destruct (serper_search_never_raises Sample.world "key" "rocq"
              (Sample.state models.empty_db))
    as [out [st' [Hrun [_ [Htransport _]]]]].
  rewrite Hrun. simpl. f_equal. now apply Htransport.
Defined.

(** ** The system-status tier *)

Module SystemFacts.
Import DocumentService.

Lemma np_array_uniform (w : World) (texts : list string) :
  (forall s t, List.length (embed_model w s) = List.length (embed_model w t)) ->
  np_array (map (embed_model w) texts)
  = Ok (map astype_float32 (map (embed_model w) texts)).
Proof.
  intros Hdim. unfold np_array.
  destruct texts as [|t texts]; [reflexivity|]. simpl.
  replace (forallb _ _) with true; [reflexivity|].
  symmetry. apply forallb_forall. intros v Hv.
  apply in_map_iff in Hv. destruct Hv as [s [<- _]].
  apply Nat.eqb_eq, Hdim.
Qed.

Lemma system_answer_contents (docs : list models.Document) :
  docs <> [] ->
  exists answer,
    system_answer (documents_info_of docs) = Ok answer
    /\ Py.contains (Py.str_of_nat (List.length docs)) answer = true
    /\ forall doc, In doc docs ->
                   Py.contains (models.originalName doc) answer = true.
Proof.
  intros Hne. unfold system_answer, documents_info_of.
  cbn [count names].
  destruct docs as [|d [|d' rest]]; [congruence| |].
  - exists ("Yes, there is 1 PDF document in this chat: '"
            ++ models.originalName d ++ "'.")%string.
    split; [reflexivity|]. split.
    + apply PyFacts.contains_app_l. reflexivity.
    + intros doc [<-|[]]. apply PyFacts.contains_middle.
  - set (docs := d :: d' :: rest).
    exists ("Yes, there are " ++ Py.str_of_nat (List.length docs)
            ++ " PDF documents in this chat: "
            ++ Py.join ", " (map models.originalName docs) ++ ".")%string.
    split; [reflexivity|]. split.
    + apply PyFacts.contains_middle.
    + intros doc Hdoc.
      do 3 apply PyFacts.contains_app_r. apply PyFacts.contains_app_l.
      apply PyFacts.contains_join. now apply in_map.
Qed.

(** The steps of [ask_question] when the collaborator does not fail. *)
Lemma get_chat_session_run w cid st :
  db_fault w (st_log st) = None ->
  get_chat_session w cid st =
  (Ok (match models.get_chat_session (st_db st) cid with
       | Some chat => Some (chat, models.chat_documents_of (st_db st) cid)
       | None => None
       end),
   mkState (st_db st) (st_vector_store st) (st_qa_chain st)
           (st_log st ++ [EvDb "get_chat_session"])).
Proof.
  intros Hdb. unfold get_chat_session. run_monad. now rewrite Hdb.
Qed.

Lemma retriever_run w ids st :
  db_fault w (st_log st) = None ->
  embed_fault w (st_log st ++ [EvDb "get_chunks_for_documents"]) = None ->
  (forall s t,
      List.length (embed_model w s) = List.length (embed_model w t)) ->
  ids <> [] ->
  models.get_chunks_for_documents (st_db st) ids <> [] ->
  let texts :=
    map models.content (models.get_chunks_for_documents (st_db st) ids) in
  exists index,
    get_multi_document_retriever w ids st =
    (Ok (Some (mkRetriever texts index Config.SIMILARITY_TOP_K)),
     mkState (st_db st) (st_vector_store st) (st_qa_chain st)
             ((st_log st ++ [EvDb "get_chunks_for_documents"])
              ++ [EvEmbedDocuments texts])).
Proof.
  intros Hdb Hembed Hdim Hids Hchunks texts. subst texts.
  unfold get_multi_document_retriever, VectorStore.build_langchain_faiss.
  destruct ids as [|i ids]; [congruence|].
  run_monad. rewrite Hdb. simpl.
  destruct (models.get_chunks_for_documents (st_db st) (i :: ids))
    as [|c cs]; [congruence|].
  simpl. rewrite Hembed. simpl.
  change (embed_model w (models.content c)
          :: map (embed_model w) (map models.content cs))
    with (map (embed_model w) (map models.content (c :: cs))).
  rewrite (np_array_uniform w _ Hdim). run_monad.
  eexists. reflexivity.
Qed.

Lemma create_chat_message_run w cid q a st :
  db_fault w (st_log st) = None ->
  let message :=
    models.mkChatMessage (uuid4 w (st_log st)) cid q a (now w (st_log st)) in
  create_chat_message w cid q a st =
  (Ok message,
   mkState (models.mkDB (models.documents (st_db st))
                        (models.chunks (st_db st))
                        (models.chat_sessions (st_db st))
                        (models.chat_documents (st_db st))
                        (models.chat_messages (st_db st) ++ [message]))
           (st_vector_store st) (st_qa_chain st)
           (st_log st ++ [EvDb "create_chat_message"])).
Proof.
  intros Hdb message. unfold create_chat_message. run_monad.
  now rewrite Hdb.
Qed.

End SystemFacts.

(** C1, as the code has it.  In a chat with at least one document whose
    documents have at least one chunk, when the database and the
    embedding model do not fail and the embedding has one dimension, a
    question that the keyword list classifies as a system-status
    question is answered from the session metadata alone: the answer is
    [system_answer] of the documents' names and number, it contains the
    decimal count and every original name, and it is stored as one chat
    message.  Before that the code has loaded the chunks and embedded
    their texts to build the retriever; it asks neither the language
    model nor the agent and embeds no query. *)
Theorem system_status_answer :
  forall (w : World) (chat_id question : string) (st : State)
         (session : models.ChatSession) (docs : list models.Document),
    (forall log, db_fault w log = None) ->
    (forall log, embed_fault w log = None) ->
    (forall s t,
        List.length (embed_model w s) = List.length (embed_model w t)) ->
    models.get_chat_session (st_db st) chat_id = Some session ->
    models.chat_documents_of (st_db st) chat_id = docs ->
    docs <> [] ->
    retrieval_pool (st_db st) chat_id <> [] ->
    DocumentService._is_system_question question = true ->
    exists answer message st',
      DocumentService.ask_question w chat_id question st
      = (Ok (DocumentService.SystemStatus, mkAnswer answer None), st')
      /\ DocumentService.system_answer (DocumentService.documents_info_of docs)
         = Ok answer
      /\ Py.contains (Py.str_of_nat (List.length docs)) answer = true
      /\ (forall doc, In doc docs ->
            Py.contains (models.originalName doc) answer = true)
      /\ st_log st' =
           st_log st
           ++ [EvDb "get_chat_session";
               EvDb "get_chunks_for_documents";
               EvEmbedDocuments
                 (map models.content (retrieval_pool (st_db st) chat_id));
               EvDb "create_chat_message"]
      /\ models.chat_messages (st_db st')
         = models.chat_messages (st_db st) ++ [message]
      /\ models.chatId message = chat_id
      /\ models.question message = question
      /\ models.answer message = answer.
Proof.
  intros w cid q st session docs Hdb Hembed Hdim Hchat Hdocs Hne Hpool Hsys.
  destruct (SystemFacts.system_answer_contents docs Hne)
    as [answer [Hanswer [Hcount Hnames]]].
  unfold retrieval_pool in *. rewrite Hchat, Hdocs in *.
  assert (Hids : map models.doc_id docs <> []) by (now destruct docs).
  destruct (SystemFacts.retriever_run w (map models.doc_id docs)
              (mkState (st_db st) (st_vector_store st) (st_qa_chain st)
                       (st_log st ++ [EvDb "get_chat_session"]))
              (Hdb _) (Hembed _) Hdim Hids Hpool) as [index Hbuild].
  unfold DocumentService.ask_question, try_except, bind.
  rewrite (SystemFacts.get_chat_session_run w cid st (Hdb _)).
  rewrite Hchat, Hdocs.
  destruct docs as [|d ds]; [congruence|].
  rewrite Hbuild, Hsys, Hanswer. simpl lift_result. unfold ret at 1.
  rewrite (SystemFacts.create_chat_message_run w cid q answer _ (Hdb _)).
  unfold ret. do 3 eexists.
  split; [reflexivity|]. split; [reflexivity|].
  split; [exact Hcount|]. split; [exact Hnames|].
  simpl. split; [now rewrite <- !app_assoc|].
  repeat split.
Qed.

Lemma system_status_answer_witness :
  exists st',
    DocumentService.ask_question Sample.world "c1"
      "How many documents are loaded?" (Sample.state Sample.db)
    = (Ok (DocumentService.SystemStatus,
           mkAnswer "Yes, there are 2 PDF documents in this chat: A.pdf, B.pdf."
                    None),
       st').
Proof.
  destruct (system_status_answer Sample.world "c1"
              "How many documents are loaded?" (Sample.state Sample.db)
              Sample.chat_1 [Sample.doc_a; Sample.doc_b])
    as [answer [message [st' [Hrun [Hanswer _]]]]];
    try reflexivity; try discriminate.
  exists st'. rewrite Hrun.
  vm_compute in Hanswer. injection Hanswer as <-. reflexivity.
Defined.

(** A system-status question in a chat whose only document produced no
    chunk is answered with the fixed "no content" message, which names
    neither the document nor the count; and where there are chunks, the
    answer is computed only after the chunk texts have been embedded. *)
Lemma system_question_counterexample :
  DocumentService._is_system_question "How many documents are loaded?" = true
  /\ models.chat_documents_of Sample.db_unprocessed "c1" = [Sample.doc_a]
  /\ fst (DocumentService.ask_question Sample.world "c1"
            "How many documents are loaded?"
            (Sample.state Sample.db_unprocessed))
     = Ok (DocumentService.NoContent,
           mkAnswer DocumentService.no_content_message None)
  /\ Py.contains "A.pdf" DocumentService.no_content_message = false
  /\ Py.contains "1" DocumentService.no_content_message = false
  /\ In (EvEmbedDocuments ["alpha"; "beta"; "gamma"])
        (st_log (snd (DocumentService.ask_question Sample.world "c1"
                        "How many documents are loaded?"
                        (Sample.state Sample.db)))).
Proof.
  repeat split; vm_compute; auto.
Qed.

(** ** Persistence of answers *)

Module QuietFacts.

Lemma quiet_ret {A : Type} (a : A) : quiet (ret a).
Proof. intros st. reflexivity. Qed.

Lemma quiet_raise {A : Type} (e : string) : quiet (@raise A e).
Proof. intros st. reflexivity. Qed.

Lemma quiet_bind {A B : Type} (m : M A) (f : A -> M B) :
  quiet m -> (forall a, quiet (f a)) -> quiet (bind m f).
Proof.
  intros Hm Hf st. unfold bind. specialize (Hm st).
  destruct (m st) as [[a|e] st1]; simpl in *; [|exact Hm].
  rewrite <- Hm. apply Hf.
Qed.

Lemma quiet_try {A : Type} (m : M A) (h : string -> M A) :
  quiet m -> (forall e, quiet (h e)) -> quiet (try_except m h).
Proof.
  intros Hm Hh st. unfold try_except. specialize (Hm st).
  destruct (m st) as [[a|e] st1]; simpl in *; [exact Hm|].
  rewrite <- Hm. apply Hh.
Qed.

Lemma quiet_lift_result {A : Type} (r : result A) : quiet (lift_result r).
Proof. destruct r; intros st; reflexivity. Qed.

Lemma quiet_db_read {A : Type} w op (f : models.DB -> A) :
  quiet (db_read w op f).
Proof.
  intros st. unfold db_read, db_call.
  destruct (db_fault w (st_log st)); reflexivity.
Qed.

Lemma quiet_embed_documents w texts : quiet (embed_documents w texts).
Proof.
  intros st. unfold embed_documents.
  destruct (embed_fault w (st_log st)); reflexivity.
Qed.

Lemma quiet_embed_query w text : quiet (embed_query w text).
Proof.
  intros st. unfold embed_query.
  destruct (embed_fault w (st_log st)); reflexivity.
Qed.

Lemma quiet_complete w text : quiet (QAService.complete w text).
Proof.
  intros st. unfold QAService.complete.
  destruct (llm w (st_log st) text); reflexivity.
Qed.

Lemma quiet_decide w question steps : quiet (QAService.decide w question steps).
Proof.
  intros st. unfold QAService.decide.
  destruct (agent_policy w (st_log st) question steps); reflexivity.
Qed.

Lemma quiet_set_qa_chain chain : quiet (QAService.set_qa_chain chain).
Proof. intros st. reflexivity. Qed.

Lemma quiet_get_qa_chain : quiet QAService.get_qa_chain.
Proof. intros st. reflexivity. Qed.

Lemma quiet_serper_search w api_key query :
  quiet (web_search.serper_search w api_key query).
Proof.
  intros st. now rewrite WebFacts.serper_search_result.
Qed.

Create HintDb quiet.
#[export] Hint Resolve quiet_ret quiet_raise quiet_lift_result quiet_db_read
  quiet_embed_documents quiet_embed_query quiet_complete quiet_decide
  quiet_set_qa_chain quiet_get_qa_chain quiet_serper_search : quiet.

(** Splits a computation along its binds and case distinctions. *)
Ltac quiet_steps :=
  repeat first
    [ progress auto with quiet
    | apply quiet_bind; [|intros]
    | apply quiet_try; [|intros]
    | match goal with
      | |- quiet (match ?x with _ => _ end) => destruct x
      end ].

Lemma quiet_get_relevant_documents w retriever query :
  quiet (get_relevant_documents w retriever query).
Proof. unfold get_relevant_documents. quiet_steps. Qed.

#[export] Hint Resolve quiet_get_relevant_documents : quiet.

Lemma quiet_web_tool w tool :
  web_search.get_web_search_tool w = Ok tool -> forall query, quiet (tool query).
Proof.
  unfold web_search.get_web_search_tool.
  destruct (SERPER_API_KEY w) as [[|c key]|]; try discriminate.
  intros H query. injection H as <-. auto with quiet.
Qed.

Lemma quiet_bind_lift {A B : Type} (r : result A) (f : A -> M B) :
  (forall a, r = Ok a -> quiet (f a)) -> quiet (bind (lift_result r) f).
Proof.
  intros Hf. destruct r as [a|e]; intros st; simpl.
  - now apply Hf.
  - reflexivity.
Qed.

Lemma quiet_get_answer w question use_web_search :
  quiet (QAService.get_answer w question use_web_search).
Proof.
  unfold QAService.get_answer, QAService.run_qa_chain.
  apply quiet_bind; [auto with quiet|]. intros [retriever|];
    [|auto with quiet].
  apply quiet_bind; [quiet_steps|]. intros answer.
  destruct (use_web_search && QAService.not_confident answer);
    [|auto with quiet].
  apply quiet_bind_lift. intros tool Htool.
  apply quiet_bind; [now apply (quiet_web_tool w)|].
  intros found. destruct (String.eqb found EmptyString); auto with quiet.
Qed.

Lemma quiet_run_tool w info retriever tool name input :
  (forall query, quiet (tool query)) ->
  quiet (QAService.run_tool w info retriever tool name input).
Proof.
  intros Htool. unfold QAService.run_tool, QAService.pdf_search_tool_func.
  destruct (String.eqb name "SystemInfo"); [auto with quiet|].
  destruct (String.eqb name "PDFSearch"); [quiet_steps|].
  destruct (String.eqb name "WebSearch"); [apply Htool | auto with quiet].
Qed.

Lemma quiet_agent_run w fuel info retriever tool question :
  (forall query, quiet (tool query)) ->
  forall steps,
    quiet (QAService.agent_run w fuel info retriever tool question steps).
Proof.
  intros Htool. induction fuel as [|fuel IH]; intros steps; simpl;
    [auto with quiet|].
  apply quiet_bind; [auto with quiet|]. intros [output|name input];
    [auto with quiet|].
  apply quiet_bind; [now apply quiet_run_tool | intros; apply IH].
Qed.

Lemma quiet_get_agent_answer w question retriever info :
  quiet (QAService.get_agent_answer w question retriever info).
Proof.
  unfold QAService.get_agent_answer.
  apply quiet_bind_lift. intros tool Htool.
  apply quiet_bind; [|auto with quiet].
  apply quiet_agent_run. now apply (quiet_web_tool w).
Qed.

Lemma quiet_get_multi_document_retriever w ids :
  quiet (DocumentService.get_multi_document_retriever w ids).
Proof.
  unfold DocumentService.get_multi_document_retriever,
    VectorStore.build_langchain_faiss.
  quiet_steps.
Qed.

Lemma quiet_get_chat_session w cid :
  quiet (DocumentService.get_chat_session w cid).
Proof. unfold DocumentService.get_chat_session. auto with quiet. Qed.

#[export] Hint Resolve quiet_get_answer quiet_get_agent_answer
  quiet_get_multi_document_retriever quiet_get_chat_session : quiet.

End QuietFacts.

Module PostFacts.
Import QuietFacts.

Lemma appended_none cid q db : appended cid q db db [].
Proof. unfold appended. rewrite app_nil_r. repeat split. constructor. Qed.

Lemma appended_trans cid q db db1 db2 new1 new2 :
  appended cid q db db1 new1 -> appended cid q db1 db2 new2 ->
  appended cid q db db2 (new1 ++ new2).
Proof.
  intros [Hm1 [Hall1 [Hd1 [Hc1 [Hs1 Hr1]]]]] [Hm2 [Hall2 [Hd2 [Hc2 [Hs2 Hr2]]]]].
  unfold appended. rewrite Hm2, Hm1, app_assoc.
  repeat split; try congruence. now apply Forall_app.
Qed.

Section Tracks.

Variables chat_id q : string.
Variable clean : Prop.

Lemma tracks_ret {A : Type} (x : A)
    (Q : A -> list models.ChatMessage -> Prop) :
  Q x [] -> tracks chat_id q clean (ret x) Q.
Proof.
  intros HQ st. exists []. split; [apply appended_none | exact HQ].
Qed.

Lemma tracks_raise {A : Type} (e : string)
    (Q : A -> list models.ChatMessage -> Prop) :
  tracks chat_id q clean (raise e) Q.
Proof.
  intros st. exists []. split; [apply appended_none | simpl; auto].
Qed.

Lemma tracks_bind_quiet {A B : Type} (m : M A) (f : A -> M B)
    (Q : B -> list models.ChatMessage -> Prop) :
  quiet m -> (forall a, tracks chat_id q clean (f a) Q) ->
  tracks chat_id q clean (bind m f) Q.
Proof.
  intros Hm Hf st. unfold bind. specialize (Hm st).
  destruct (m st) as [[a|e] st1]; simpl in *.
  - specialize (Hf a st1). rewrite Hm in Hf. exact Hf.
  - exists []. rewrite Hm. split; [apply appended_none | auto].
Qed.

Lemma tracks_bind_lift {A B : Type} (r : result A) (f : A -> M B)
    (Q : B -> list models.ChatMessage -> Prop) :
  (forall a, tracks chat_id q clean (f a) Q) ->
  tracks chat_id q clean (bind (lift_result r) f) Q.
Proof.
  intros Hf. apply tracks_bind_quiet; [apply quiet_lift_result | exact Hf].
Qed.

(** A handler that returns [x] whatever was raised. *)
Lemma tracks_try_ret {A : Type} (m : M A) (x : A)
    (Q : A -> list models.ChatMessage -> Prop) :
  tracks chat_id q clean m Q ->
  (forall new, (clean -> new = []) -> Q x new) ->
  tracks chat_id q clean (try_except m (fun _ => ret x)) Q.
Proof.
  intros Hm Hx st. unfold try_except. destruct (Hm st) as [new [Hnew HQ]].
  destruct (m st) as [[a|e] st1]; simpl in *; exists new;
    (split; [exact Hnew|]); [exact HQ | now apply Hx].
Qed.

End Tracks.

(** Storing the message and returning: the write of [ask_question].
    When the refresh raises after the commit, the message is stored
    although the call raises. *)
Lemma tracks_store {A : Type} w cid q a (x : A)
    (Q : A -> list models.ChatMessage -> Prop) :
  (forall message, models.answer message = a -> Q x [message]) ->
  tracks cid q (commits_cleanly w)
    (bind (DocumentService.create_chat_message w cid q a) (fun _ => ret x)) Q.
Proof.
  intros HQ st.
  unfold bind, DocumentService.create_chat_message, db_insert. simpl.
  destruct (db_fault w (st_log st)) as [[e|e]|] eqn:Hfault; simpl.
  - exists []. split; [apply appended_none | auto].
  - eexists. split.
    + unfold appended. simpl. repeat split. repeat constructor.
    + intros Hclean. now destruct (Hclean (st_log st) e).
  - eexists. split.
    + unfold appended. simpl. repeat split. repeat constructor.
    + now apply HQ.
Qed.

(** The direct tier stores its answer when it returns one, and nothing
    when it falls through. *)
Lemma direct_tier_tracks w cid q retriever :
  tracks cid q (commits_cleanly w)
    (DocumentService.direct_tier w cid q retriever)
    (fun r new =>
       match r with
       | Some direct_result =>
           exists message,
             new = [message]
             /\ models.answer message = answer_result direct_result
       | None => new = []
       end).
Proof.
  unfold DocumentService.direct_tier, QAService.setup_qa_chain.
  apply tracks_bind_quiet; [auto with quiet|]. intros docs.
  destruct docs as [|doc docs]; [now apply tracks_ret|].
  apply tracks_bind_quiet; [auto with quiet|]. intros _.
  apply tracks_bind_quiet; [auto with quiet|]. intros direct_result.
  destruct (_ && _).
  - apply tracks_store. intros message Hanswer. now exists message.
  - now apply tracks_ret.
Qed.

Lemma agentic_tier_tracks w cid q retriever info :
  tracks cid q (commits_cleanly w)
    (DocumentService.agentic_tier w cid q retriever info)
    (fun r new =>
       fst r = DocumentService.Agentic
       /\ exists message,
            new = [message]
            /\ models.answer message = answer_result (snd r)).
Proof.
  unfold DocumentService.agentic_tier.
  apply tracks_bind_quiet; [auto with quiet|]. intros result.
  apply tracks_store. intros message Hanswer.
  split; [reflexivity|]. now exists message.
Qed.

(** The two tiers in sequence: what the direct tier has stored before
    it raised stays when the agentic tier runs. *)
Lemma tiers_track w cid q retriever info :
  tracks cid q (commits_cleanly w)
    (bind (try_except (DocumentService.direct_tier w cid q retriever)
                      (fun _ => ret None))
          (fun direct =>
             match direct with
             | Some direct_result => ret (DocumentService.Direct, direct_result)
             | None => DocumentService.agentic_tier w cid q retriever info
             end))
    (answer_stored (commits_cleanly w)).
Proof.
  intros st. unfold bind, try_except.
  destruct (direct_tier_tracks w cid q retriever st) as [new1 [Hnew1 Hdirect]].
  destruct (DocumentService.direct_tier w cid q retriever st)
    as [[[direct_result|]|e] st1]; simpl in *.
  - destruct Hdirect as [message [-> Hanswer]].
    exists [message]. split; [exact Hnew1|].
    unfold answer_stored. simpl. split; [|reflexivity].
    now exists [], message.
  - subst new1.
    destruct (agentic_tier_tracks w cid q retriever info st1)
      as [new2 [Hnew2 Hagent]].
    exists ([] ++ new2). split; [eapply appended_trans; eassumption|].
    destruct (DocumentService.agentic_tier w cid q retriever info st1)
      as [[[tier answer]|e] st2]; simpl in *; [|exact Hagent].
    destruct Hagent as [-> [message [-> Hanswer]]].
    unfold answer_stored. simpl. split; [|reflexivity].
    now exists [], message.
  - destruct (agentic_tier_tracks w cid q retriever info st1)
      as [new2 [Hnew2 Hagent]].
    exists (new1 ++ new2). split; [eapply appended_trans; eassumption|].
    destruct (DocumentService.agentic_tier w cid q retriever info st1)
      as [[[tier answer]|e'] st2]; simpl in *.
    + destruct Hagent as [-> [message [-> Hanswer]]].
      unfold answer_stored. simpl. split.
      * now exists new1, message.
      * intros Hclean. now rewrite (Hdirect Hclean).
    + intros Hclean. now rewrite (Hdirect Hclean), (Hagent Hclean).
Qed.

Lemma ask_question_tracks w cid q :
  tracks cid q (commits_cleanly w) (DocumentService.ask_question w cid q)
    (answer_stored (commits_cleanly w)).
Proof.
  unfold DocumentService.ask_question.
  apply tracks_try_ret; [|intros new Hnew; now split].
  apply tracks_bind_quiet; [auto with quiet|]. intros chat.
  destruct chat as [[session docs]|]; [|now apply tracks_ret].
  destruct docs as [|doc docs]; [now apply tracks_ret|].
  apply tracks_bind_quiet; [auto with quiet|]. intros [retriever|];
    [|now apply tracks_ret].
  destruct (DocumentService._is_system_question q).
  - apply tracks_bind_lift. intros answer. apply tracks_store.
    intros message Hanswer. unfold answer_stored. simpl.
    split; [|reflexivity]. now exists [], message.
  - apply tiers_track.
Qed.

Lemma ask_question_returns w cid q st :
  exists r st', DocumentService.ask_question w cid q st = (Ok r, st').
Proof.
  unfold DocumentService.ask_question, try_except.
  match goal with |- context [match ?body st with _ => _ end] =>
    destruct (body st) as [[r|e] st1] end;
    do 2 eexists; reflexivity.
Qed.

End PostFacts.

(** C3, as the code has it.  [ask_question] always returns, and all it
    ever changes in the database is to add chat messages of that chat
    with that question at the end of the table.  When the answer comes
    from the system-status, the direct or the agentic tier, the last
    message added carries the returned answer; and provided no helper
    of models.py raises after its commit, it is the only message added.
    With one of the two fixed messages for a chat without documents or
    without content nothing is added.  When the flow ends in the
    apology, nothing is added provided no helper raises after its
    commit. *)
Theorem ask_question_persists_answers :
  forall (w : World) (chat_id question : string) (st : State),
    exists tier answer st' new,
      DocumentService.ask_question w chat_id question st
      = (Ok (tier, answer), st')
      /\ models.chat_messages (st_db st')
         = models.chat_messages (st_db st) ++ new
      /\ Forall (fun m => models.chatId m = chat_id
                          /\ models.question m = question) new
      /\ models.documents (st_db st') = models.documents (st_db st)
      /\ models.chunks (st_db st') = models.chunks (st_db st)
      /\ models.chat_sessions (st_db st') = models.chat_sessions (st_db st)
      /\ models.chat_documents (st_db st') = models.chat_documents (st_db st)
      /\ match tier with
         | DocumentService.SystemStatus
         | DocumentService.Direct
         | DocumentService.Agentic =>
             (exists before message,
                 new = before ++ [message]
                 /\ models.answer message = answer_result answer)
             /\ (commits_cleanly w -> List.length new = 1)
         | DocumentService.NoDocuments
         | DocumentService.NoContent => new = []
         | DocumentService.Apology =>
             answer = mkAnswer DocumentService.apology_message None
             /\ (commits_cleanly w -> new = [])
         end.
Proof.
  intros w cid q st.
  destruct (PostFacts.ask_question_returns w cid q st)
    as [[tier answer] [st' Hrun]].
  destruct (PostFacts.ask_question_tracks w cid q st) as [new [Hnew Hpost]].
  rewrite Hrun in Hnew, Hpost. simpl in Hnew, Hpost.
  destruct Hnew as [Hm [Hall [Hd [Hc [Hs Hr]]]]].
  exists tier, answer, st', new.
  repeat (split; [assumption|]).
  unfold answer_stored in Hpost. simpl in Hpost.
  destruct tier; exact Hpost.
Qed.

(** In the sample world without faults the one message added is the
    direct answer. *)
Lemma ask_question_persists_answers_witness :
  models.chat_messages
    (st_db (snd (DocumentService.ask_question Sample.world "c1"
                   "What is alpha?" (Sample.state Sample.db))))
  = [Sample.message_1;
     models.mkChatMessage "6" "c1" "What is alpha?" "Paris" 6].
Proof.
  destruct (ask_question_persists_answers Sample.world "c1" "What is alpha?"
              (Sample.state Sample.db))
    as [tier [answer [st' [new [Hrun [Hm _]]]]]].
  rewrite Hrun. simpl. rewrite Hm.
  vm_compute in Hrun. injection Hrun as _ _ <-. vm_compute in Hm.
  injection Hm as <-. reflexivity.
Defined.

(** When the refresh that follows the commit of [create_chat_message]
    raises, the message is stored although the call raises.  In the
    direct tier the exception is swallowed and the agent answers: two
    messages are added for one question.  In the agentic tier the
    apology is returned with the agent's answer stored. *)
Lemma stored_message_counterexample :
  let direct := DocumentService.ask_question Sample.world_unconfirmed "c1"
                  "What is alpha?" (Sample.state Sample.db) in
  let agent := DocumentService.ask_question Sample.world_unconfirmed_agent
                 "c1" "What is alpha?" (Sample.state Sample.db) in
  fst direct = Ok (DocumentService.Agentic, mkAnswer "agent answer" None)
  /\ models.chat_messages (st_db (snd direct))
     = [Sample.message_1;
        models.mkChatMessage "6" "c1" "What is alpha?" "Paris" 6;
        models.mkChatMessage "8" "c1" "What is alpha?" "agent answer" 8]
  /\ fst agent
     = Ok (DocumentService.Apology,
           mkAnswer DocumentService.apology_message None)
  /\ models.chat_messages (st_db (snd agent))
     = [Sample.message_1;
        models.mkChatMessage "7" "c1" "What is alpha?" "agent answer" 7].
Proof. vm_compute. repeat split. Qed.

(** ** The direct tier and its fallback *)

(** With a good answer from the language model, the agentic tier is
    still invoked when the chat message of the direct tier cannot be
    stored: the exception is caught by the inner [try]. *)
Lemma direct_answer_counterexample :
  let run := DocumentService.ask_question Sample.world_locked "c1"
               "What is alpha?" (Sample.state Sample.db) in
  (forall log text, llm Sample.world_locked log text = Ok "Paris")
  /\ Py.contains "I don't know" "Paris" = false
  /\ (exists text, In (EvLLM text) (st_log (snd run)))
  /\ fst run = Ok (DocumentService.Agentic, mkAnswer "agent answer" None)
  /\ In (EvAgentStep "What is alpha?") (st_log (snd run)).
Proof.
  intros run. split; [reflexivity|]. split; [reflexivity|].
  split; [|split].
  - vm_compute. eexists. do 5 right. left. reflexivity.
  - vm_compute. reflexivity.
  - vm_compute. auto 10.
Qed.

Module TierFacts.
Import DocumentService.

Lemma agentic_tier_tag w cid q retriever info st tier answer st' :
  agentic_tier w cid q retriever info st = (Ok (tier, answer), st') ->
  tier = Agentic.
Proof.
  unfold agentic_tier, bind.
  destruct (QAService.get_agent_answer w q retriever info st) as [[r|e] st1];
    [|discriminate].
  destruct (create_chat_message w cid q (answer_result r) st1) as [[m|e] st2];
    [|discriminate].
  unfold ret. congruence.
Qed.

(** The direct tier once the passages are retrieved and the language
    model has answered [a]. *)
Lemma direct_tier_run w cid q retriever st2 passages st3 a st4 :
  get_relevant_documents w retriever q st2 = (Ok passages, st3) ->
  passages <> [] ->
  QAService.run_qa_chain w retriever q
    (mkState (st_db st3) (st_vector_store st3) (Some retriever) (st_log st3))
  = (Ok a, st4) ->
  direct_tier w cid q retriever st2 =
  (if negb (String.eqb a EmptyString) && negb (Py.contains "I don't know" a)
   then create_chat_message w cid q a ;;; ret (Some (mkAnswer a None))
   else ret None) st4.
Proof.
  intros Hdocs Hne Hllm. unfold direct_tier, bind at 1. rewrite Hdocs.
  destruct passages as [|p ps]; [congruence|].
  unfold QAService.setup_qa_chain, QAService.set_qa_chain, bind at 1.
  unfold QAService.get_answer, QAService.get_qa_chain, bind at 1.
  unfold bind at 1. cbn [st_qa_chain]. cbv beta. unfold bind at 1. rewrite Hllm.
  cbn [andb]. unfold ret at 1. cbn [answer_result]. reflexivity.
Qed.

End TierFacts.

(** C4, as the code has it.  Take a question that reaches the direct
    tier (the chat has documents, the retriever is built, the question
    is not a system-status question, retrieval returns passages) and let
    the language model answer [a].  If [a] is empty or contains "I don't
    know", [ask_question] does not return [a]: it continues as the
    agentic tier run from the state the model left, and its answer comes
    from that tier or is the apology.  Otherwise, if the chat message
    can be stored, [ask_question] returns [a] from the direct tier, and
    the only call it makes after the model's answer is the one that
    stores the message: the agent is not invoked. *)
Theorem direct_tier_fallback :
  forall (w : World) (chat_id question : string) (st : State)
         (session : models.ChatSession) (docs : list models.Document)
         (st1 : State) (retriever : Retriever) (st2 : State)
         (passages : list string) (st3 : State) (a : string) (st4 : State),
    DocumentService.get_chat_session w chat_id st
    = (Ok (Some (session, docs)), st1) ->
    docs <> [] ->
    DocumentService.get_multi_document_retriever w
      (map models.doc_id docs) st1
    = (Ok (Some retriever), st2) ->
    DocumentService._is_system_question question = false ->
    get_relevant_documents w retriever question st2 = (Ok passages, st3) ->
    passages <> [] ->
    QAService.run_qa_chain w retriever question
      (mkState (st_db st3) (st_vector_store st3) (Some retriever) (st_log st3))
    = (Ok a, st4) ->
    let info := DocumentService.documents_info_of docs in
    let apologise :=
      fun _ : string =>
        ret (DocumentService.Apology,
             mkAnswer DocumentService.apology_message None) in
    (a = EmptyString \/ Py.contains "I don't know" a = true ->
       DocumentService.ask_question w chat_id question st
       = try_except
           (DocumentService.agentic_tier w chat_id question retriever info)
           apologise st4
       /\ exists tier answer st',
            DocumentService.ask_question w chat_id question st
            = (Ok (tier, answer), st')
            /\ (tier = DocumentService.Agentic
                \/ tier = DocumentService.Apology))
    /\ (a <> EmptyString ->
        Py.contains "I don't know" a = false ->
        db_fault w (st_log st4) = None ->
        exists message,
          DocumentService.ask_question w chat_id question st
          = (Ok (DocumentService.Direct, mkAnswer a None),
             mkState
               (models.mkDB (models.documents (st_db st4))
                            (models.chunks (st_db st4))
                            (models.chat_sessions (st_db st4))
                            (models.chat_documents (st_db st4))
                            (models.chat_messages (st_db st4) ++ [message]))
               (st_vector_store st4) (st_qa_chain st4)
               (st_log st4 ++ [EvDb "create_chat_message"]))
          /\ models.chatId message = chat_id
          /\ models.question message = question
          /\ models.answer message = a).
Proof.
  intros w cid q st session docs st1 retriever st2 passages st3 a st4
         Hchat Hdocs Hbuild Hsys Hdocs' Hpass Hllm info apologise.
  assert (Hstart :
    DocumentService.ask_question w cid q st =
    try_except
      (direct <- try_except
                   (if negb (String.eqb a EmptyString)
                       && negb (Py.contains "I don't know" a)
                    then
                      DocumentService.create_chat_message w cid q a ;;;
                      ret (Some (mkAnswer a None))
                    else ret None)
                   (fun _ => ret None) ;;
       match direct with
       | Some direct_result => ret (DocumentService.Direct, direct_result)
       | None => DocumentService.agentic_tier w cid q retriever info
       end)
      apologise st4).
  { unfold DocumentService.ask_question, try_except at 1, bind at 1.
    rewrite Hchat. destruct docs as [|d ds]; [congruence|].
    unfold bind at 1. rewrite Hbuild, Hsys.
    unfold try_except, bind.
    rewrite (TierFacts.direct_tier_run _ _ _ _ _ _ _ _ _ Hdocs' Hpass Hllm).
    reflexivity. }
  split.
  - intros Hunsure.
    assert (Hcond : negb (String.eqb a EmptyString)
                    && negb (Py.contains "I don't know" a) = false).
    { destruct Hunsure as [-> | ->]; [reflexivity|].
      now rewrite andb_false_r. }
    rewrite Hcond in Hstart.
    assert (Hagent :
      DocumentService.ask_question w cid q st
      = try_except (DocumentService.agentic_tier w cid q retriever info)
                   apologise st4) by exact Hstart.
    split; [exact Hagent|]. rewrite Hagent. unfold try_except.
    destruct (DocumentService.agentic_tier w cid q retriever info st4)
      as [[[tier answer]|e] st5] eqn:Hrun.
    + exists tier, answer, st5. split; [reflexivity|]. left.
      eapply TierFacts.agentic_tier_tag; eassumption.
    + exists DocumentService.Apology. do 2 eexists.
      split; [reflexivity | now right].
  - intros Hnonempty Hsure Hdb.
    assert (Hcond : negb (String.eqb a EmptyString)
                    && negb (Py.contains "I don't know" a) = true).
    { rewrite Hsure. apply String.eqb_neq in Hnonempty.
      now rewrite Hnonempty. }
    rewrite Hcond in Hstart. rewrite Hstart.
    unfold try_except, bind.
    rewrite (SystemFacts.create_chat_message_run w cid q a st4 Hdb).
    eexists. split; [reflexivity|]. repeat split.
Qed.

Lemma direct_tier_fallback_witness :
  fst (DocumentService.ask_question Sample.world "c1" "What is alpha?"
         (Sample.state Sample.db))
  = Ok (DocumentService.Direct, mkAnswer "Paris" None).
Proof.
  edestruct (direct_tier_fallback Sample.world "c1" "What is alpha?"
               (Sample.state Sample.db)) as [_ Hsure].
  - vm_compute. reflexivity.
  - discriminate.
  - vm_compute. reflexivity.
  - reflexivity.
  - vm_compute. reflexivity.
  - discriminate.
  - vm_compute. reflexivity.
  - destruct Hsure as [message [Hrun _]];
      [discriminate | reflexivity | reflexivity |].
    rewrite Hrun. reflexivity.
Defined.

(** ** The scope of a question *)

Module ScopeFacts.

Lemma respects_ret cid ids {A : Type} (a : A) : respects cid ids (ret a).
Proof. intros st1 st2 Hagree. now split. Qed.

Lemma respects_raise cid ids {A : Type} (e : string) :
  respects cid ids (@raise A e).
Proof. intros st1 st2 Hagree. now split. Qed.

Lemma respects_lift_result cid ids {A : Type} (r : result A) :
  respects cid ids (lift_result r).
Proof. destruct r; [apply respects_ret | apply respects_raise]. Qed.

Lemma respects_bind cid ids {A B : Type} (m : M A) (f : A -> M B) :
  respects cid ids m -> (forall a, respects cid ids (f a)) ->
  respects cid ids (bind m f).
Proof.
  intros Hm Hf st1 st2 Hagree. unfold bind.
  destruct (Hm st1 st2 Hagree) as [Hres Hnext].
  destruct (m st1) as [[a1|e1] st1'], (m st2) as [[a2|e2] st2'];
    simpl in *; try discriminate.
  - injection Hres as <-. now apply Hf.
  - injection Hres as <-. now split.
Qed.

Lemma respects_try cid ids {A : Type} (m : M A) (h : string -> M A) :
  respects cid ids m -> (forall e, respects cid ids (h e)) ->
  respects cid ids (try_except m h).
Proof.
  intros Hm Hh st1 st2 Hagree. unfold try_except.
  destruct (Hm st1 st2 Hagree) as [Hres Hnext].
  destruct (m st1) as [[a1|e1] st1'], (m st2) as [[a2|e2] st2'];
    simpl in *; try discriminate.
  - now split.
  - injection Hres as <-. now apply Hh.
Qed.

(** A step that does not look at the database. *)
Ltac respects_step :=
  let st1 := fresh "st1" in
  let st2 := fresh "st2" in
  let Hs := fresh "Hs" in
  let Hc := fresh "Hc" in
  let Hvs := fresh "Hvs" in
  let Hqa := fresh "Hqa" in
  let Hlog := fresh "Hlog" in
  intros st1 st2 [Hs [Hc [Hvs [Hqa Hlog]]]];
  unfold agree; simpl; rewrite ?Hlog, ?Hvs, ?Hqa.

Lemma respects_db_read cid ids {A : Type} w op (f : models.DB -> A) :
  (forall st1 st2, agree cid ids st1 st2 -> f (st_db st1) = f (st_db st2)) ->
  respects cid ids (db_read w op f).
Proof.
  intros Hf st1 st2 Hagree. pose proof (Hf _ _ Hagree) as Hsame.
  revert st1 st2 Hagree Hsame. unfold db_read, db_call. respects_step.
  intros Hsame. destruct (db_fault w (st_log st2)); simpl; rewrite ?Hsame;
    auto 10.
Qed.

Lemma respects_create_chat_message cid ids w chat_id q a :
  respects cid ids (DocumentService.create_chat_message w chat_id q a).
Proof.
  unfold DocumentService.create_chat_message, db_insert. respects_step.
  destruct Hs as [Hchat [Hdocs Hmessages]].
  destruct (db_fault w (st_log st2)) as [[e|e]|]; simpl;
    unfold same_session; simpl; rewrite ?Hmessages; auto 10.
Qed.

Lemma respects_embed_documents cid ids w texts :
  respects cid ids (embed_documents w texts).
Proof.
  unfold embed_documents. respects_step.
  destruct (embed_fault w (st_log st2)); auto 10.
Qed.

Lemma respects_embed_query cid ids w text :
  respects cid ids (embed_query w text).
Proof.
  unfold embed_query. respects_step.
  destruct (embed_fault w (st_log st2)); auto 10.
Qed.

Lemma respects_complete cid ids w text :
  respects cid ids (QAService.complete w text).
Proof.
  unfold QAService.complete. respects_step.
  destruct (llm w (st_log st2) text); auto 10.
Qed.

Lemma respects_decide cid ids w question steps :
  respects cid ids (QAService.decide w question steps).
Proof.
  unfold QAService.decide. respects_step.
  destruct (agent_policy w (st_log st2) question steps); auto 10.
Qed.

Lemma respects_set_qa_chain cid ids chain :
  respects cid ids (QAService.set_qa_chain chain).
Proof. unfold QAService.set_qa_chain. respects_step. auto 10. Qed.

Lemma respects_get_qa_chain cid ids : respects cid ids QAService.get_qa_chain.
Proof. unfold QAService.get_qa_chain. respects_step. auto 10. Qed.

Lemma respects_serper_search cid ids w api_key query :
  respects cid ids (web_search.serper_search w api_key query).
Proof.
  intros st1 st2 Hagree. rewrite !WebFacts.serper_search_result.
  revert st1 st2 Hagree. respects_step. auto 10.
Qed.

Create HintDb respects.
#[export] Hint Resolve respects_ret respects_raise respects_lift_result
  respects_create_chat_message respects_embed_documents respects_embed_query
  respects_complete respects_decide respects_set_qa_chain
  respects_get_qa_chain respects_serper_search : respects.

(** Splits a computation along its binds and case distinctions. *)
Ltac respects_steps :=
  repeat first
    [ progress auto with respects
    | apply respects_bind; [|intros]
    | apply respects_try; [|intros]
    | match goal with
      | |- respects _ _ (match ?x with _ => _ end) => destruct x
      end ].

Lemma respects_get_relevant_documents cid ids w retriever query :
  respects cid ids (get_relevant_documents w retriever query).
Proof. unfold get_relevant_documents. respects_steps. Qed.

#[export] Hint Resolve respects_get_relevant_documents : respects.

Lemma respects_web_tool cid ids w tool :
  web_search.get_web_search_tool w = Ok tool ->
  forall query, respects cid ids (tool query).
Proof.
  unfold web_search.get_web_search_tool.
  destruct (SERPER_API_KEY w) as [[|c key]|]; try discriminate.
  intros H query. injection H as <-. auto with respects.
Qed.

Lemma respects_bind_lift cid ids {A B : Type} (r : result A) (f : A -> M B) :
  (forall a, r = Ok a -> respects cid ids (f a)) ->
  respects cid ids (bind (lift_result r) f).
Proof.
  intros Hf. destruct r as [a|e].
  - intros st1 st2 Hagree. unfold bind, lift_result, ret.
    now apply Hf.
  - intros st1 st2 Hagree. now split.
Qed.

Lemma respects_get_answer cid ids w question use_web_search :
  respects cid ids (QAService.get_answer w question use_web_search).
Proof.
  unfold QAService.get_answer, QAService.run_qa_chain.
  apply respects_bind; [auto with respects|]. intros [retriever|];
    [|auto with respects].
  apply respects_bind; [respects_steps|]. intros answer.
  destruct (use_web_search && QAService.not_confident answer);
    [|auto with respects].
  apply respects_bind_lift. intros tool Htool.
  apply respects_bind; [now apply (respects_web_tool cid ids w)|].
  intros found. destruct (String.eqb found EmptyString); auto with respects.
Qed.

Lemma respects_run_tool cid ids w info retriever tool name input :
  (forall query, respects cid ids (tool query)) ->
  respects cid ids (QAService.run_tool w info retriever tool name input).
Proof.
  intros Htool. unfold QAService.run_tool, QAService.pdf_search_tool_func.
  destruct (String.eqb name "SystemInfo"); [auto with respects|].
  destruct (String.eqb name "PDFSearch"); [respects_steps|].
  destruct (String.eqb name "WebSearch"); [apply Htool | auto with respects].
Qed.

Lemma respects_agent_run cid ids w fuel info retriever tool question :
  (forall query, respects cid ids (tool query)) ->
  forall steps,
    respects cid ids
      (QAService.agent_run w fuel info retriever tool question steps).
Proof.
  intros Htool. induction fuel as [|fuel IH]; intros steps; simpl;
    [auto with respects|].
  apply respects_bind; [auto with respects|]. intros [output|name input];
    [auto with respects|].
  apply respects_bind; [now apply respects_run_tool | intros; apply IH].
Qed.

Lemma respects_get_agent_answer cid ids w question retriever info :
  respects cid ids (QAService.get_agent_answer w question retriever info).
Proof.
  unfold QAService.get_agent_answer.
  apply respects_bind_lift. intros tool Htool.
  apply respects_bind; [|auto with respects].
  apply respects_agent_run. now apply (respects_web_tool cid ids w).
Qed.

(** The retriever is built from the chunks of the documents [ids]. *)
Lemma respects_get_multi_document_retriever cid ids w :
  respects cid ids (DocumentService.get_multi_document_retriever w ids).
Proof.
  unfold DocumentService.get_multi_document_retriever,
    VectorStore.build_langchain_faiss.
  destruct ids as [|i ids]; [auto with respects|].
  apply respects_bind.
  - apply respects_db_read. intros st1 st2 [_ [Hchunks _]].
    unfold models.get_chunks_for_documents. unfold chunks_of in Hchunks.
    now rewrite Hchunks.
  - intros chunks. respects_steps.
Qed.

#[export] Hint Resolve respects_get_answer respects_get_agent_answer
  respects_get_multi_document_retriever : respects.

Lemma respects_direct_tier cid ids w chat_id q retriever :
  respects cid ids (DocumentService.direct_tier w chat_id q retriever).
Proof.
  unfold DocumentService.direct_tier, QAService.setup_qa_chain.
  respects_steps.
Qed.

Lemma respects_agentic_tier cid ids w chat_id q retriever info :
  respects cid ids (DocumentService.agentic_tier w chat_id q retriever info).
Proof. unfold DocumentService.agentic_tier. respects_steps. Qed.

#[export] Hint Resolve respects_direct_tier respects_agentic_tier : respects.

Lemma respects_outcome cid ids {A : Type} (m : M A) st1 st2 :
  respects cid ids m -> agree cid ids st1 st2 ->
  same_outcome (m st1) (m st2).
Proof.
  intros Hm Hagree. destruct (Hm st1 st2 Hagree) as [Hres Hnext].
  destruct Hnext as [[_ [_ Hmessages]] [_ [_ [_ Hlog]]]].
  now repeat split.
Qed.

Lemma try_bind_run {A B : Type} (m : M A) (f : A -> M B)
    (h : string -> M B) st :
  try_except (bind m f) h st =
  match m st with
  | (Ok a, st') => try_except (f a) h st'
  | (Raise e, st') => h e st'
  end.
Proof. unfold try_except, bind. now destruct (m st) as [[a|e] st']. Qed.

(** [ask_question] reads the chat's row and documents, the chunks of
    these documents when the chat exists, and nothing else of the
    database. *)
Lemma ask_question_agree w cid q st1 st2 :
  agree cid [] st1 st2 ->
  (models.get_chat_session (st_db st1) cid <> None ->
   chunks_of (map models.doc_id (models.chat_documents_of (st_db st1) cid))
             (st_db st1)
   = chunks_of (map models.doc_id (models.chat_documents_of (st_db st1) cid))
               (st_db st2)) ->
  same_outcome (DocumentService.ask_question w cid q st1)
               (DocumentService.ask_question w cid q st2).
Proof.
  intros [[Hchat [Hdocs Hmessages]] [_ [Hvs [Hqa Hlog]]]] Hchunks.
  unfold DocumentService.ask_question. rewrite !try_bind_run.
  unfold DocumentService.get_chat_session, db_read, db_call.
  rewrite <- Hlog, <- Hchat, <- Hdocs.
  destruct (db_fault w (st_log st1)) as [fault|].
  { unfold ret, same_outcome. simpl. now rewrite Hlog, Hmessages. }
  destruct (models.get_chat_session (st_db st1) cid) as [session|] eqn:Hs.
  2:{ unfold try_except, ret, same_outcome. simpl.
      now rewrite Hlog, Hmessages. }
  destruct (models.chat_documents_of (st_db st1) cid) as [|doc docs] eqn:Hd.
  { unfold try_except, ret, same_outcome. simpl.
    now rewrite Hlog, Hmessages. }
  cbv beta iota zeta.
  apply (respects_outcome cid (map models.doc_id (doc :: docs))).
  - respects_steps.
  - unfold agree, same_session. simpl.
    rewrite Hs, Hd, <- Hchat, <- Hdocs.
    repeat split; auto. apply Hchunks. discriminate.
Qed.

(** Chunks of a document that is not in the chat are not among the
    chunks of the chat's documents. *)
Lemma chunks_of_chat_other db1 db2 cid did :
  models.document_in_chat db1 cid did = false ->
  filter (fun c => negb (String.eqb (models.documentId c) did))
         (models.chunks db1)
  = filter (fun c => negb (String.eqb (models.documentId c) did))
           (models.chunks db2) ->
  chunks_of (map models.doc_id (models.chat_documents_of db1 cid)) db1
  = chunks_of (map models.doc_id (models.chat_documents_of db1 cid)) db2.
Proof.
  intros Hout Hother. unfold chunks_of.
  set (f := fun c => existsb _ _).
  set (g := fun c => negb _) in Hother.
  assert (Hfg : forall c, f c = true -> g c = true).
  { intros c Hc. unfold f, g in *. apply negb_true_iff, String.eqb_neq.
    intros Heq. apply existsb_exists in Hc. destruct Hc as [x [Hx Hsame]].
    apply String.eqb_eq in Hsame. apply in_map_iff in Hx.
    destruct Hx as [doc [Hid Hdoc]].
    assert (Hin : models.document_in_chat db1 cid did = true).
    { apply modelsFacts.document_in_chat_true. exists doc.
      split; [exact Hdoc | congruence]. }
    congruence. }
  rewrite <- (filter_twice f g (models.chunks db1) Hfg).
  rewrite <- (filter_twice f g (models.chunks db2) Hfg).
  now rewrite Hother.
Qed.



Lemma filter_nothing {A : Type} (l : list A) :
  filter (fun _ => false) l = [].
Proof. induction l as [|x l IH]; [reflexivity | exact IH]. Qed.


End ScopeFacts.



(** ** Ingestion *)

Module IngestFacts.
Import DocumentService.

Lemma store_chunks_appended w did items :
  forall st st',
    store_chunks w did items st = (Ok tt, st') ->
    exists new,
      models.chunks (st_db st') = models.chunks (st_db st) ++ new
      /\ map models.chunkIndex new = map (fun it => Z.of_nat (fst it)) items
      /\ map models.content new
         = map (fun it => PDFProcessor.content (fst (snd it))) items
      /\ Forall (fun c => models.documentId c = did) new.
Proof.
  induction items as [|[i [chunk vec]] items IH]; intros st st' Hrun.
  - injection Hrun as <-. exists []. rewrite app_nil_r.
    repeat split. constructor.
  - simpl in Hrun. unfold create_chunk in Hrun. run_monad.
    destruct (db_fault w (st_log st)) as [[e|e]|]; try discriminate.
    apply IH in Hrun. simpl in Hrun.
    destruct Hrun as [new [Hchunks [Hidx [Htexts Hdoc]]]].
    eexists (_ :: new). rewrite Hchunks, <- app_assoc. simpl.
    split; [reflexivity|]. rewrite Hidx, Htexts.
    repeat split. constructor; [reflexivity | exact Hdoc].
Qed.

(** The chunks that a successful [process_pdf] stores belong to the new
    document, are numbered 0, 1, 2, ... in the order stored, and have at
    most 1000 characters each. *)
Lemma process_pdf_chunks w file_path original_name file_size st doc st' :
  process_pdf w file_path original_name file_size st = (Ok doc, st') ->
  exists new,
    models.chunks (st_db st') = models.chunks (st_db st) ++ new
    /\ map models.chunkIndex new = map Z.of_nat (seq 0 (List.length new))
    /\ Forall (fun c => models.documentId c = models.doc_id doc
                        /\ Py.len (models.content c) <= 1000) new.
Proof.
  unfold process_pdf, create_document, PDFProcessor.extract_text.
  run_monad.
  destruct (db_fault w (st_log st)) as [[e|e]|]; try discriminate. simpl.
  destruct (pdf_text w _ file_path) as [text|]; [|discriminate]. simpl.
  destruct (embed_fault w _); [discriminate|]. simpl.
  match goal with
  | |- context [store_chunks w ?did ?items ?s] =>
      destruct (store_chunks w did items s) as [[[]|e] st2] eqn:Hstore;
      [|discriminate]
  end.
  intros H. injection H as <- <-.
  apply store_chunks_appended in Hstore. simpl in Hstore.
  destruct Hstore as [new [Hchunks [Hidx [Htexts Hdoc]]]].
  exists new. split; [exact Hchunks|].
  set (chunks := PDFProcessor.chunk_text text) in *.
  set (items := Py.enumerate (combine chunks _)) in *.
  assert (Hlen : List.length new = List.length items)
    by (rewrite <- (length_map models.chunkIndex), Hidx; apply length_map).
  split.
  - rewrite Hidx, Hlen, <- map_map. f_equal.
    unfold items, Py.enumerate.
    rewrite SearchFacts.enumerate_from_length.
    apply SplitterFacts.enumerate_from_fst.
  - apply Forall_forall. intros c Hc.
    rewrite Forall_forall in Hdoc. split; [now apply Hdoc|].
    assert (Hin : In (models.content c)
                     (map (fun it => PDFProcessor.content (fst (snd it)))
                          items))
      by (rewrite <- Htexts; now apply in_map).
    apply in_map_iff in Hin. destruct Hin as [[i [chunk vec]] [Heq Hit]].
    simpl in Heq. rewrite <- Heq.
    assert (Hchunk : In chunk chunks).
    { apply (in_map snd) in Hit. unfold items, Py.enumerate in Hit.
      rewrite SplitterFacts.enumerate_from_snd in Hit. simpl in Hit.
      eapply in_combine_l; eassumption. }
    pose proof (SplitterFacts.chunk_text_fits text) as Hfit.
    rewrite Forall_forall in Hfit. now apply Hfit.
Qed.

End IngestFacts.

(** ** Worked examples *)

Example smart_name_example :
  DocumentService._generate_smart_chat_name
    "annual_report-2023 final version draft.pdf"
  = "Annual Report 2023".
Proof. reflexivity. Qed.

Example smart_name_truncated_example :
  DocumentService._generate_smart_chat_name
    "international-cooperation_agreements.pdf"
  = "International Cooperat...".
Proof. reflexivity. Qed.

Example system_question_example :
  DocumentService._is_system_question "Which PDF is loaded?" = true
  /\ DocumentService._is_system_question "What is alpha?" = false.
Proof. split; reflexivity. Qed.

Example chunk_text_example :
  map PDFProcessor.content
      (PDFProcessor.chunk_text "North wind. South wind.")
  = ["North wind. South wind."].
Proof. reflexivity. Qed.

Example split_small_chunks_example :
  text_splitter._split_text 10 4 text_splitter.separators
    "hello world foo bar"
  = ["hello"; "world foo"; "foo bar"].
Proof. reflexivity. Qed.

Example delete_document_example :
  models.chat_documents (models.delete_document Sample.db "d2")
  = [("c1", "d1")].
Proof. reflexivity. Qed.

Example ask_without_documents_example :
  fst (DocumentService.ask_question Sample.world "c1" "What is alpha?"
         (Sample.state Sample.db_fresh))
  = Ok (DocumentService.NoDocuments,
        mkAnswer DocumentService.no_documents_message None).
Proof. reflexivity. Qed.

(* ================================================================= *)
(** * Further properties of the code *)

(** ** Chats and their documents *)

Module ChatFacts.
Import models.

Lemma db_eta (db : DB) :
  mkDB (documents db) (chunks db) (chat_sessions db) (chat_documents db)
       (chat_messages db) = db.
Proof. now destruct db. Qed.

Lemma flat_map_filter_skip {A B : Type} (f : A -> list B) (p : A -> bool)
    (l : list A) :
  (forall x, p x = false -> f x = []) ->
  flat_map f (filter p l) = flat_map f l.
Proof.
  intros Hskip. induction l as [|x l IH]; simpl; [reflexivity|].
  destruct (p x) eqn:Hp; simpl.
  - now rewrite IH.
  - now rewrite (Hskip x Hp), IH.
Qed.

(** A row for a document that exists puts the document in the chat. *)
Lemma row_in_chat db cid did doc :
  get_document db did = Some doc ->
  In (cid, did) (chat_documents db) ->
  document_in_chat db cid did = true.
Proof.
  intros Hget Hrow. apply modelsFacts.document_in_chat_true.
  pose proof (modelsFacts.get_document_id _ _ _ Hget) as Hid.
  exists doc. split; [|exact Hid].
  apply modelsFacts.chat_documents_of_In. rewrite Hid. now split.
Qed.

Lemma chat_documents_of_same_tables db db' cid :
  documents db' = documents db ->
  chat_documents db' = chat_documents db ->
  chat_documents_of db' cid = chat_documents_of db cid.
Proof.
  intros Hdocs Hrows. unfold chat_documents_of, joined_documents, get_document.
  now rewrite Hdocs, Hrows.
Qed.

(** The ids of two documents of a chat that is not in the chat yet do
    not tie with the id of the new document. *)
Lemma id_le_no_tie db cid did doc other :
  get_document db did = Some doc ->
  document_in_chat db cid did = false ->
  In other (joined_documents db cid) ->
  id_le doc other = true -> id_le other doc = false.
Proof.
  intros Hget Hout Hin Hle.
  destruct (id_le other doc) eqn:Hge; [|reflexivity].
  exfalso. unfold id_le in *.
  pose proof (String.leb_antisym _ _ Hle Hge) as Hsame.
  rewrite (modelsFacts.get_document_id _ _ _ Hget) in Hsame.
  assert (Hmember : document_in_chat db cid did = true).
  { apply modelsFacts.document_in_chat_true. exists other.
    split; [|now symmetry].
    unfold chat_documents_of. now apply sort_by_In. }
  congruence.
Qed.

(** The row of a new document puts it at the place of its id among the
    documents of the chat. *)
Lemma chat_documents_of_added db cid did doc :
  get_document db did = Some doc ->
  document_in_chat db cid did = false ->
  chat_documents_of
    (mkDB (documents db) (chunks db) (chat_sessions db)
          (chat_documents db ++ [(cid, did)]) (chat_messages db)) cid
  = insert_by id_le doc (chat_documents_of db cid).
Proof.
  intros Hget Hout.
  assert (Hjoined :
    joined_documents
      (mkDB (documents db) (chunks db) (chat_sessions db)
            (chat_documents db ++ [(cid, did)]) (chat_messages db)) cid
    = joined_documents db cid ++ [doc]).
  { unfold joined_documents, get_document in *. simpl.
    rewrite flat_map_app. simpl. now rewrite String.eqb_refl, Hget. }
  unfold chat_documents_of. rewrite Hjoined.
  apply OrderLemmas.sort_by_added.
  - apply modelsFacts.id_le_total.
  - apply modelsFacts.id_le_trans.
  - intros other Hin. eapply id_le_no_tie; eassumption.
Qed.

Lemma chat_documents_of_added_other db cid did other :
  other <> cid ->
  chat_documents_of
    (mkDB (documents db) (chunks db) (chat_sessions db)
          (chat_documents db ++ [(cid, did)]) (chat_messages db)) other
  = chat_documents_of db other.
Proof.
  intros Hother. unfold chat_documents_of, joined_documents, get_document in *.
  simpl. rewrite flat_map_app. simpl.
  destruct (String.eqb_spec cid other); [congruence|].
  now rewrite app_nil_r.
Qed.

End ChatFacts.

(** X4.  [models.add_document_to_chat] only ever adds one association
    row.  It leaves documents, chunks, sessions and messages alone;
    it changes nothing when the chat or the document does not exist or
    the document is already in the chat; otherwise the document joins
    the documents of that chat, which the relationship loads in the
    order of their ids, and no other chat's documents change.  Adding
    twice is the same as adding once. *)
Theorem add_document_to_chat_adds_once :
  forall (db : models.DB) (chat_id document_id : string),
    let db1 := models.add_document_to_chat db chat_id document_id in
    models.add_document_to_chat db1 chat_id document_id = db1
    /\ models.documents db1 = models.documents db
    /\ models.chunks db1 = models.chunks db
    /\ models.chat_sessions db1 = models.chat_sessions db
    /\ models.chat_messages db1 = models.chat_messages db
    /\ (models.get_chat_session db chat_id = None
        \/ models.get_document db document_id = None
        \/ models.document_in_chat db chat_id document_id = true ->
        db1 = db)
    /\ (forall session doc,
          models.get_chat_session db chat_id = Some session ->
          models.get_document db document_id = Some doc ->
          models.document_in_chat db chat_id document_id = false ->
          models.chat_documents_of db1 chat_id
          = insert_by models.id_le doc (models.chat_documents_of db chat_id)
          /\ forall other, other <> chat_id ->
               models.chat_documents_of db1 other
               = models.chat_documents_of db other).
Proof.
  intros db cid did db1. subst db1.
  assert (Hframe :
    models.documents (models.add_document_to_chat db cid did)
    = models.documents db
    /\ models.chunks (models.add_document_to_chat db cid did)
       = models.chunks db
    /\ models.chat_sessions (models.add_document_to_chat db cid did)
       = models.chat_sessions db
    /\ models.chat_messages (models.add_document_to_chat db cid did)
       = models.chat_messages db).
  { unfold models.add_document_to_chat.
    destruct (models.get_chat_session db cid); [|now repeat split].
    destruct (models.get_document db did); [|now repeat split].
    destruct (models.document_in_chat db cid did); now repeat split. }
  destruct Hframe as [Hdocs [Hchunks [Hsessions Hmessages]]].
  split; [|repeat split; trivial].
  - unfold models.add_document_to_chat at 1.
    replace (models.get_chat_session (models.add_document_to_chat db cid did) cid)
      with (models.get_chat_session db cid)
      by (unfold models.get_chat_session; now rewrite Hsessions).
    replace (models.get_document (models.add_document_to_chat db cid did) did)
      with (models.get_document db did)
      by (unfold models.get_document; now rewrite Hdocs).
    destruct (models.get_chat_session db cid) as [session|] eqn:Hchat;
      [|reflexivity].
    destruct (models.get_document db did) as [doc|] eqn:Hdoc; [|reflexivity].
    replace (models.document_in_chat (models.add_document_to_chat db cid did)
                                     cid did) with true; [reflexivity|].
    symmetry. apply modelsFacts.document_in_chat_true. exists doc.
    split; [eapply RenameFacts.added_in_chat; eassumption|].
    eapply modelsFacts.get_document_id; eassumption.
  - intros Hskip. unfold models.add_document_to_chat.
    destruct (models.get_chat_session db cid); [|reflexivity].
    destruct (models.get_document db did); [|reflexivity].
    destruct (models.document_in_chat db cid did); [reflexivity|].
    destruct Hskip as [H|[H|H]]; discriminate.
  - unfold models.add_document_to_chat. rewrite H, H0, H1.
    now apply ChatFacts.chat_documents_of_added.
  - intros other Hother. unfold models.add_document_to_chat.
    rewrite H, H0, H1.
    now apply ChatFacts.chat_documents_of_added_other.
Qed.

Lemma add_document_to_chat_adds_once_witness :
  models.chat_documents_of
    (models.add_document_to_chat Sample.db "c2" "d1") "c2"
  = [Sample.doc_a; Sample.doc_b].
Proof.
  exact (proj1 (proj2 (proj2 (proj2 (proj2 (proj2 (proj2
           (add_document_to_chat_adds_once Sample.db "c2" "d1"))))))
           Sample.chat_2 Sample.doc_a eq_refl eq_refl eq_refl)).
Defined.

(** X5.  Removing a document right after it was added to a chat it was
    not in gives back the database as it was; and after a removal the
    document is not among the documents of an existing chat, while the
    other chats keep theirs. *)
Theorem remove_undoes_add :
  forall (db : models.DB) (chat_id document_id : string)
         (session : models.ChatSession) (doc : models.Document),
    models.get_chat_session db chat_id = Some session ->
    models.get_document db document_id = Some doc ->
    (models.document_in_chat db chat_id document_id = false ->
     models.remove_document_from_chat
       (models.add_document_to_chat db chat_id document_id)
       chat_id document_id = db)
    /\ models.document_in_chat
         (models.remove_document_from_chat db chat_id document_id)
         chat_id document_id = false
    /\ (forall other, other <> chat_id ->
          models.chat_documents_of
            (models.remove_document_from_chat db chat_id document_id) other
          = models.chat_documents_of db other).
Proof.
  intros db cid did session doc Hchat Hdoc. split; [|split].
  - intros Hout.
    assert (Hnorow : ~ In (cid, did) (models.chat_documents db)).
    { intros Hrow.
      rewrite (ChatFacts.row_in_chat _ _ _ _ Hdoc Hrow) in Hout.
      discriminate. }
    unfold models.add_document_to_chat. rewrite Hchat, Hdoc, Hout.
    unfold models.remove_document_from_chat.
    set (db1 := models.mkDB _ _ _ (_ ++ _) _).
    assert (Hchat1 : models.get_chat_session db1 cid = Some session)
      by exact Hchat.
    assert (Hdoc1 : models.get_document db1 did = Some doc) by exact Hdoc.
    rewrite Hchat1, Hdoc1.
    assert (Hin1 : models.document_in_chat db1 cid did = true).
    { apply (ChatFacts.row_in_chat db1 cid did doc Hdoc1).
      subst db1. simpl. apply in_or_app. right. now left. }
    rewrite Hin1. subst db1. simpl.
    rewrite filter_app. simpl. rewrite !String.eqb_refl. simpl.
    rewrite app_nil_r.
    replace (filter _ (models.chat_documents db))
      with (models.chat_documents db); [apply ChatFacts.db_eta|].
    symmetry. apply forallb_filter_id. apply forallb_forall.
    intros [c x] Hrow. simpl. apply negb_true_iff.
    destruct (String.eqb_spec c cid) as [->|]; [|reflexivity].
    destruct (String.eqb_spec x did) as [->|]; [contradiction|reflexivity].
  - destruct (models.document_in_chat
                (models.remove_document_from_chat db cid did) cid did)
      eqn:Hstill; [|reflexivity].
    apply modelsFacts.document_in_chat_true in Hstill.
    destruct Hstill as [doc' [Hin Hid]].
    exfalso. eapply PoolFacts.removed_not_in_chat; try eassumption.
    congruence.
  - intros other Hother. unfold models.remove_document_from_chat.
    rewrite Hchat, Hdoc.
    destruct (models.document_in_chat db cid did); [|reflexivity].
    unfold models.chat_documents_of. f_equal.
    unfold models.joined_documents, models.get_document. simpl.
    apply ChatFacts.flat_map_filter_skip.
    intros [c x] Hp. simpl in *.
    apply negb_false_iff, andb_true_iff in Hp. destruct Hp as [Hc _].
    apply String.eqb_eq in Hc. subst c.
    destruct (String.eqb_spec cid other); [congruence | reflexivity].
Qed.

Lemma remove_undoes_add_witness :
  models.remove_document_from_chat
    (models.add_document_to_chat Sample.db "c2" "d1") "c2" "d1"
  = Sample.db.
Proof.
  exact (proj1 (remove_undoes_add Sample.db "c2" "d1"
                  Sample.chat_2 Sample.doc_a eq_refl eq_refl) eq_refl).
Defined.

(** ** Sessions and their history *)

Module SessionFacts.
Import models.

Lemma find_other_after_filter cid other (l : list ChatSession) :
  other <> cid ->
  find (fun c => String.eqb (chat_id c) other)
       (filter (fun c => negb (String.eqb (chat_id c) cid)) l)
  = find (fun c => String.eqb (chat_id c) other) l.
Proof.
  intros Hother. apply find_filter_other.
  intros c Hc. apply String.eqb_eq in Hc.
  apply negb_true_iff, String.eqb_neq. congruence.
Qed.

Lemma rename_first_other cid other new_name (l : list ChatSession) :
  other <> cid ->
  find (fun c => String.eqb (chat_id c) other) (rename_first cid new_name l)
  = find (fun c => String.eqb (chat_id c) other) l.
Proof.
  intros Hother. induction l as [|c l IH]; simpl; [reflexivity|].
  destruct (String.eqb_spec (chat_id c) cid) as [Hc|Hc]; simpl.
  - destruct (String.eqb_spec cid other) as [|_]; [congruence|].
    destruct (String.eqb_spec (chat_id c) other); [congruence|reflexivity].
  - destruct (String.eqb (chat_id c) other); [reflexivity | exact IH].
Qed.

Lemma rename_first_missing cid new_name (l : list ChatSession) :
  find (fun c => String.eqb (chat_id c) cid) l = None ->
  rename_first cid new_name l = l.
Proof.
  induction l as [|c l IH]; simpl; [reflexivity|].
  destruct (String.eqb (chat_id c) cid); [discriminate|].
  intros H. now rewrite IH.
Qed.

Lemma rename_first_twice cid n1 n2 (l : list ChatSession) :
  rename_first cid n2 (rename_first cid n1 l) = rename_first cid n2 l.
Proof.
  induction l as [|c l IH]; simpl; [reflexivity|].
  destruct (String.eqb (chat_id c) cid) eqn:Hc; simpl; rewrite Hc.
  - reflexivity.
  - now rewrite IH.
Qed.

Lemma rename_first_length cid new_name (l : list ChatSession) :
  List.length (rename_first cid new_name l) = List.length l.
Proof.
  induction l as [|c l IH]; simpl; [reflexivity|].
  destruct (String.eqb (chat_id c) cid); simpl; congruence.
Qed.

Lemma get_chat_messages_In db cid m :
  In m (get_chat_messages db cid) <->
  In m (chat_messages db) /\ chatId m = cid.
Proof.
  unfold get_chat_messages. rewrite sort_by_In, filter_In.
  now rewrite String.eqb_eq.
Qed.

End SessionFacts.

(** X6.  Deleting an existing chat session removes the session, all of
    its messages and all of its association rows, and nothing else: the
    documents and chunks tables are untouched, and every other chat
    keeps its row, its documents and its history. *)
Theorem delete_chat_session_cascade :
  forall (db : models.DB) (chat_id : string) (session : models.ChatSession),
    models.get_chat_session db chat_id = Some session ->
    let db' := models.delete_chat_session db chat_id in
    models.get_chat_session db' chat_id = None
    /\ models.get_chat_messages db' chat_id = []
    /\ (forall document_id,
          ~ In (chat_id, document_id) (models.chat_documents db'))
    /\ models.chat_documents_of db' chat_id = []
    /\ models.documents db' = models.documents db
    /\ models.chunks db' = models.chunks db
    /\ (forall other, other <> chat_id ->
          models.get_chat_session db' other = models.get_chat_session db other
          /\ models.get_chat_messages db' other
             = models.get_chat_messages db other
          /\ models.chat_documents_of db' other
             = models.chat_documents_of db other).
Proof.
  intros db cid session Hchat db'. subst db'.
  unfold models.delete_chat_session. rewrite Hchat.
  split; [|split; [|split; [|split; [|split; [|split]]]]].
  - unfold models.get_chat_session. simpl.
    destruct (find _ (filter _ _)) as [c|] eqn:Hfind; [|reflexivity].
    apply find_some in Hfind. destruct Hfind as [Hin Heq].
    apply filter_In in Hin. destruct Hin as [_ Hneq].
    rewrite Heq in Hneq. discriminate.
  - unfold models.get_chat_messages. simpl.
    replace (filter _ (filter _ (models.chat_messages db)))
      with (@nil models.ChatMessage); [reflexivity|].
    symmetry. induction (models.chat_messages db) as [|m l IH];
      simpl; [reflexivity|].
    destruct (String.eqb (models.chatId m) cid) eqn:Heq; simpl; [exact IH|].
    now rewrite Heq.
  - simpl. intros did Hin. apply filter_In in Hin.
    destruct Hin as [_ Hin]. simpl in Hin.
    rewrite String.eqb_refl in Hin. discriminate.
  - unfold models.chat_documents_of.
    replace (models.joined_documents _ cid) with (@nil models.Document);
      [reflexivity|].
    unfold models.joined_documents. simpl.
    induction (models.chat_documents db) as [|[c x] rows IH];
      simpl; [reflexivity|].
    destruct (String.eqb c cid) eqn:Hc; simpl; [exact IH|].
    now rewrite Hc.
  - reflexivity.
  - reflexivity.
  - intros other Hother. split; [|split].
    + unfold models.get_chat_session. simpl.
      now apply SessionFacts.find_other_after_filter.
    + unfold models.get_chat_messages. simpl. f_equal.
      apply filter_twice. intros m Hm. apply String.eqb_eq in Hm.
      apply negb_true_iff, String.eqb_neq. congruence.
    + unfold models.chat_documents_of. f_equal.
      unfold models.joined_documents, models.get_document. simpl.
      apply ChatFacts.flat_map_filter_skip.
      intros [c x] Hp. simpl in *.
      apply negb_false_iff, String.eqb_eq in Hp. subst c.
      destruct (String.eqb_spec cid other); [congruence | reflexivity].
Qed.

Lemma delete_chat_session_cascade_witness :
  models.get_chat_messages (models.delete_chat_session Sample.db "c2") "c2"
  = [].
Proof.
  exact (proj1 (proj2 (delete_chat_session_cascade Sample.db "c2"
                         Sample.chat_2 eq_refl))).
Defined.

(** X7.  Renaming a chat session changes the name of that session and
    nothing else: the session is found under its id with the new name
    and its old creation time, every other session is found as before,
    the number of sessions and the other four tables are unchanged, a
    session that does not exist is not created, and of two renamings the
    second wins. *)
Theorem rename_chat_session_only_renames :
  forall (db : models.DB) (chat_id new_name : string),
    let db' := models.rename_chat_session db chat_id new_name in
    (forall session,
        models.get_chat_session db chat_id = Some session ->
        models.get_chat_session db' chat_id
        = Some (models.mkChatSession (models.chat_id session) new_name
                                     (models.chat_createdAt session)))
    /\ (models.get_chat_session db chat_id = None -> db' = db)
    /\ (forall other, other <> chat_id ->
          models.get_chat_session db' other = models.get_chat_session db other)
    /\ List.length (models.chat_sessions db')
       = List.length (models.chat_sessions db)
    /\ models.documents db' = models.documents db
    /\ models.chunks db' = models.chunks db
    /\ models.chat_documents db' = models.chat_documents db
    /\ models.chat_messages db' = models.chat_messages db
    /\ (forall later,
          models.rename_chat_session db' chat_id later
          = models.rename_chat_session db chat_id later).
Proof.
  intros db cid new_name db'. subst db'.
  unfold models.rename_chat_session, models.get_chat_session. simpl.
  split; [|split; [|split; [|split; [|repeat split]]]].
  - intros session. apply RenameFacts.rename_first_found.
  - intros Hnone. rewrite (SessionFacts.rename_first_missing _ _ _ Hnone).
    apply ChatFacts.db_eta.
  - intros other Hother. now apply SessionFacts.rename_first_other.
  - apply SessionFacts.rename_first_length.
  - intros later. now rewrite SessionFacts.rename_first_twice.
Qed.

Lemma rename_chat_session_only_renames_witness :
  models.get_chat_session
    (models.rename_chat_session Sample.db "c2" "Greek letters") "c2"
  = Some (models.mkChatSession "c2" "Greek letters" 21).
Proof.
  exact (proj1 (rename_chat_session_only_renames Sample.db "c2"
                  "Greek letters") Sample.chat_2 eq_refl).
Defined.


(** X8.  The history of a chat is exactly the messages stored for that
    chat, in non-decreasing order of their timestamps.  Storing a
    message whose timestamp is not earlier than those the chat already
    has puts it at the end of that history and leaves the history of
    every other chat as it was.  [get_chat_history] returns the question,
    answer and timestamp of each message of that history, in its order. *)
Theorem chat_history_in_time_order :
  forall (w : World) (db : models.DB) (chat_id : string),
    (forall m, In m (models.get_chat_messages db chat_id) <->
               In m (models.chat_messages db) /\ models.chatId m = chat_id)
    /\ StronglySorted
         (fun a b => (models.timestamp a <= models.timestamp b)%Z)
         (models.get_chat_messages db chat_id)
    /\ (forall fresh_id time q a,
          (forall m, In m (models.chat_messages db) ->
                     models.chatId m = chat_id ->
                     (models.timestamp m <= time)%Z) ->
          let stored :=
            models.create_chat_message db fresh_id time chat_id q a in
          models.get_chat_messages (snd stored) chat_id
          = models.get_chat_messages db chat_id ++ [fst stored]
          /\ forall other, other <> chat_id ->
               models.get_chat_messages (snd stored) other
               = models.get_chat_messages db other)
    /\ (forall st,
          st_db st = db ->
          db_fault w (st_log st) = None ->
          fst (DocumentService.get_chat_history w chat_id st)
          = Ok (map (fun msg =>
                       DocumentService.mkHistoryEntry
                         (models.question msg) (models.answer msg)
                         (models.timestamp msg))
                    (models.get_chat_messages db chat_id))).
Proof.
  intros w db cid. split; [|split; [|split]].
  - intros m. apply SessionFacts.get_chat_messages_In.
  - unfold models.get_chat_messages.
    eapply SortFacts.sorted_weaken;
      [| apply SortFacts.sort_by_sorted ].
    + intros a b Hab. now apply Z.leb_le.
    + intros a b Hab. apply Z.leb_gt in Hab. apply Z.leb_le. lia.
    + intros a b c Hab Hbc. apply Z.leb_le in Hab, Hbc. apply Z.leb_le. lia.
  - intros fresh_id time q a Hlatest stored. subst stored.
    unfold models.create_chat_message, models.get_chat_messages. simpl.
    split.
    + rewrite filter_app. simpl. rewrite String.eqb_refl.
      apply SortFacts.sort_by_snoc. intros m Hm. simpl.
      apply filter_In in Hm. destruct Hm as [Hm Hc].
      apply String.eqb_eq in Hc. apply Z.leb_le. now apply Hlatest.
    + intros other Hother. rewrite filter_app. simpl.
      destruct (String.eqb_spec cid other); [congruence|].
      now rewrite app_nil_r.
  - intros st Hdb Hfault. unfold DocumentService.get_chat_history.
    run_monad. rewrite Hfault. simpl. now rewrite Hdb.
Qed.

Lemma chat_history_in_time_order_witness :
  models.get_chat_messages
    (snd (models.create_chat_message Sample.db "m2" 31 "c2"
            "and delta?" "another letter")) "c2"
  = [Sample.message_1;
     models.mkChatMessage "m2" "c2" "and delta?" "another letter" 31].
Proof.
  refine (proj1 (proj1 (proj2 (proj2
            (chat_history_in_time_order Sample.world Sample.db "c2")))
            "m2" 31%Z "and delta?" "another letter" _)).
  intros m [<-|[]] _. simpl. lia.
Defined.

(** X9.  A call of [clear_chat_history] that returns leaves the chat
    without messages and changes nothing else: the other chats keep
    their history, and the documents, chunks, sessions and document
    associations are as before.  A call that raises has changed
    nothing. *)
Theorem clear_chat_history_clears_one_chat :
  forall (w : World) (chat_id : string) (st : State),
    match DocumentService.clear_chat_history w chat_id st with
    | (Ok _, st') =>
        models.get_chat_messages (st_db st') chat_id = []
        /\ (forall other, other <> chat_id ->
              models.get_chat_messages (st_db st') other
              = models.get_chat_messages (st_db st) other)
        /\ models.documents (st_db st') = models.documents (st_db st)
        /\ models.chunks (st_db st') = models.chunks (st_db st)
        /\ models.chat_sessions (st_db st') = models.chat_sessions (st_db st)
        /\ models.chat_documents (st_db st')
           = models.chat_documents (st_db st)
    | (Raise _, st') => st_db st' = st_db st
    end.
Proof.
  intros w cid st. unfold DocumentService.clear_chat_history. run_monad.
  destruct (db_fault w (st_log st)); [reflexivity|]. simpl.
  split; [|repeat split].
  - unfold models.get_chat_messages. simpl.
    replace (filter _ (filter _ (models.chat_messages (st_db st))))
      with (@nil models.ChatMessage); [reflexivity|].
    symmetry. induction (models.chat_messages (st_db st)) as [|m l IH];
      simpl; [reflexivity|].
    destruct (String.eqb (models.chatId m) cid) eqn:Heq; simpl; [exact IH|].
    now rewrite Heq.
  - intros other Hother. unfold models.get_chat_messages. simpl. f_equal.
    apply filter_twice. intros m Hm. apply String.eqb_eq in Hm.
    apply negb_true_iff, String.eqb_neq. congruence.
Qed.

Module PoolFacts2.
Import models.

Lemma retrieval_pool_iff db cid c :
  In c (retrieval_pool db cid) <->
  get_chat_session db cid <> None
  /\ In c (chunks db)
  /\ exists doc, In doc (chat_documents_of db cid)
                 /\ doc_id doc = documentId c.
Proof.
  unfold retrieval_pool.
  destruct (get_chat_session db cid) as [session|].
  - rewrite PoolFacts.get_chunks_for_documents_In, in_map_iff. split.
    + intros [Hc [doc [Hid Hdoc]]]. split; [discriminate|].
      split; [exact Hc|]. now exists doc.
    + intros [_ [Hc [doc [Hdoc Hid]]]]. split; [exact Hc|]. now exists doc.
  - split; [intros [] | intros [H _]; congruence].
Qed.

End PoolFacts2.

(** X10.  Deleting a document from the system, and the questions asked
    afterwards.  When [remove_document_from_system] has returned, the
    document is in no chat and, if it was stored, none of its chunks is
    left.  And [ask_question] in a chat that did not hold the document
    does what it would have done without the deletion: asked with the
    same service fields and after the same calls, it returns the same
    answer, makes the same calls and stores the same messages. *)
Theorem deleted_document_leaves_every_pool :
  forall (w : World) (document_id : string) (st st' : State),
    DocumentService.remove_document_from_system w document_id st
    = (Ok tt, st') ->
    (forall chat_id,
        models.document_in_chat (st_db st') chat_id document_id = false)
    /\ (models.get_document (st_db st) document_id <> None ->
        forall c, In c (models.chunks (st_db st')) ->
                  models.documentId c <> document_id)
    /\ (forall chat_id question st1 st2,
          models.document_in_chat (st_db st) chat_id document_id = false ->
          st_db st1 = st_db st ->
          st_db st2 = st_db st' ->
          st_vector_store st1 = st_vector_store st2 ->
          st_qa_chain st1 = st_qa_chain st2 ->
          st_log st1 = st_log st2 ->
          same_outcome (DocumentService.ask_question w chat_id question st1)
                       (DocumentService.ask_question w chat_id question st2)).
Proof.
  intros w did st st' Hdelete.
  assert (Hdb : st_db st' = models.delete_document (st_db st) did).
  { unfold DocumentService.remove_document_from_system in Hdelete.
    run_monad. destruct (db_fault w (st_log st)); [discriminate|].
    now injection Hdelete as <-. }
  assert (Hchunks :
    models.chunks (st_db st')
    = match models.get_document (st_db st) did with
      | Some _ =>
          filter (fun c => negb (String.eqb (models.documentId c) did))
                 (models.chunks (st_db st))
      | None => models.chunks (st_db st)
      end).
  { rewrite Hdb. unfold models.delete_document.
    now destruct (models.get_document (st_db st) did). }
  split; [|split].
  - intros cid.
    destruct (models.document_in_chat (st_db st') cid did) eqn:Hin;
      [|reflexivity].
    apply modelsFacts.document_in_chat_true in Hin.
    destruct Hin as [doc [Hdoc Hid]].
    rewrite Hdb, modelsFacts.chat_documents_of_after_delete in Hdoc.
    apply filter_In in Hdoc. destruct Hdoc as [_ Hneq].
    rewrite Hid, String.eqb_refl in Hneq. discriminate.
  - intros Hstored c Hc. rewrite Hchunks in Hc.
    destruct (models.get_document (st_db st) did); [|congruence].
    apply filter_In in Hc. destruct Hc as [_ Hneq].
    now apply negb_true_iff, String.eqb_neq in Hneq.
  - intros cid q st1 st2 Hout Hdb1 Hdb2 Hvs Hqa Hlog.
    assert (Hdocs : models.chat_documents_of (st_db st') cid
                    = models.chat_documents_of (st_db st) cid).
    { rewrite Hdb, modelsFacts.chat_documents_of_after_delete.
      apply forallb_filter_id, forallb_forall. intros doc Hdoc.
      apply negb_true_iff, String.eqb_neq. intros Hid.
      assert (Hin : models.document_in_chat (st_db st) cid did = true)
        by (apply modelsFacts.document_in_chat_true; now exists doc).
      congruence. }
    apply ScopeFacts.ask_question_agree.
    + unfold agree, same_session, chunks_of. rewrite Hdb1, Hdb2, Hdocs.
      repeat split; trivial.
      * rewrite Hdb. unfold models.delete_document.
        now destruct (models.get_document (st_db st) did).
      * rewrite Hdb. unfold models.delete_document.
        now destruct (models.get_document (st_db st) did).
      * simpl. now rewrite !ScopeFacts.filter_nothing.
    + intros _. rewrite Hdb1, Hdb2.
      apply (ScopeFacts.chunks_of_chat_other _ _ _ did); [exact Hout|].
      rewrite Hchunks.
      destruct (models.get_document (st_db st) did); [|reflexivity].
      symmetry. apply filter_twice. auto.
Qed.

Lemma deleted_document_leaves_every_pool_witness :
  let deleted := snd (DocumentService.remove_document_from_system
                        Sample.world "d1" (Sample.state Sample.db)) in
  same_outcome
    (DocumentService.ask_question Sample.world "c2" "What is gamma?"
       (Sample.state Sample.db))
    (DocumentService.ask_question Sample.world "c2" "What is gamma?"
       (Sample.state (st_db deleted))).
Proof.
  intros deleted.
  refine (proj2 (proj2
            (deleted_document_leaves_every_pool Sample.world "d1"
               (Sample.state Sample.db) deleted _))
            "c2" "What is gamma?" _ _ _ _ _ _ _ _); reflexivity.
Defined.

(** ** Ingestion, step by step *)

Module IngestFacts2.
Import DocumentService.

(** The database with [new] chunks stored after the old ones. *)
Lemma store_chunks_effect w did items :
  forall st,
    exists new,
      st_db (snd (store_chunks w did items st))
      = models.mkDB (models.documents (st_db st))
                    (models.chunks (st_db st) ++ new)
                    (models.chat_sessions (st_db st))
                    (models.chat_documents (st_db st))
                    (models.chat_messages (st_db st))
      /\ Forall (fun c => models.documentId c = did) new
      /\ (fst (store_chunks w did items st) = Ok tt ->
          Forall2 (fun c it =>
                     models.content c = PDFProcessor.content (fst (snd it))
                     /\ models.chunkIndex c = Z.of_nat (fst it)
                     /\ models.embedding c = snd (snd it))
                  new items).
Proof.
  induction items as [|[i [chunk vec]] items IH]; intros st.
  - exists []. simpl. rewrite app_nil_r, ChatFacts.db_eta.
    repeat split; constructor.
  - simpl. unfold create_chunk. run_monad.
    destruct (db_fault w (st_log st)) as [[e|e]|].
    + exists []. simpl. rewrite app_nil_r, ChatFacts.db_eta.
      repeat split; [constructor | discriminate].
    + eexists [_]. simpl.
      repeat split; [constructor; [reflexivity | constructor] | discriminate].
    + simpl.
      match goal with
      | |- context [store_chunks w did items ?s] =>
          destruct (IH s) as [new [Hdb [Hdoc Hitems]]];
          destruct (store_chunks w did items s) as [r st2] eqn:Hrun
      end.
      simpl in *. eexists (_ :: new). rewrite Hdb, <- app_assoc. simpl.
      split; [reflexivity|]. split; [constructor; [reflexivity|exact Hdoc]|].
      intros Hok. destruct r as [[]|e]; [|discriminate].
      constructor; [now repeat split | now apply Hitems].
Qed.

(** The fields of the stored chunks, read off the items of the loop. *)
Lemma stored_fields w (chunks : list PDFProcessor.ChunkDict) :
  forall (new : list models.Chunk) (i : nat),
    Forall2 (fun c it =>
               models.content c = PDFProcessor.content (fst (snd it))
               /\ models.chunkIndex c = Z.of_nat (fst it)
               /\ models.embedding c = snd (snd it))
            new
            (Py.enumerate_from i
               (combine chunks
                  (map (embed_model w) (map PDFProcessor.content chunks)))) ->
    map models.content new = map PDFProcessor.content chunks
    /\ map models.chunkIndex new = map Z.of_nat (seq i (List.length new))
    /\ map models.embedding new
       = map (embed_model w) (map models.content new).
Proof.
  induction chunks as [|ch chunks IH]; intros new i Hitems; simpl in Hitems.
  - inversion Hitems; subst. now repeat split.
  - inversion Hitems as [|c it new' items' [Htext [Hidx Hemb]] Hrest];
      subst. simpl in *.
    destruct (IH new' (S i) Hrest) as [Htexts [Hidxs Hembs]].
    rewrite Htext, Hidx, Hemb, Htexts, Hidxs, Hembs.
    repeat split. now rewrite <- Htexts.
Qed.

(** [process_pdf], one collaborator at a time. *)
Lemma process_pdf_run w file_path original_name file_size st :
  db_fault w (st_log st) = None ->
  let doc := models.mkDocument (uuid4 w (st_log st)) (Py.basename file_path)
                               original_name file_size (now w (st_log st))
                               false in
  let log1 := st_log st ++ [EvDb "create_document"] in
  let db1 := models.mkDB (models.documents (st_db st) ++ [doc])
                         (models.chunks (st_db st))
                         (models.chat_sessions (st_db st))
                         (models.chat_documents (st_db st))
                         (models.chat_messages (st_db st)) in
  let st2 := mkState db1 (st_vector_store st) (st_qa_chain st)
                     (log1 ++ [EvExtractText file_path]) in
  process_pdf w file_path original_name file_size st =
  match pdf_text w log1 file_path with
  | Raise e => (Raise e, st2)
  | Ok text =>
      let chunks := PDFProcessor.chunk_text text in
      let texts := map PDFProcessor.content chunks in
      let st3 := mkState db1 (st_vector_store st) (st_qa_chain st)
                         (st_log st2 ++ [EvEmbedDocuments texts]) in
      match embed_fault w (st_log st2) with
      | Some e => (Raise e, st3)
      | None =>
          match store_chunks w (models.doc_id doc)
                  (Py.enumerate (combine chunks (map (embed_model w) texts)))
                  st3 with
          | (Ok _, st4) => (Ok doc, st4)
          | (Raise e, st4) => (Raise e, st4)
          end
      end
  end.
Proof.
  intros Hdb doc log1 db1 st2.
  unfold process_pdf, create_document, PDFProcessor.extract_text.
  run_monad. rewrite Hdb. simpl.
  fold doc. fold log1. fold db1.
  destruct (pdf_text w log1 file_path) as [text|e]; [|reflexivity]. simpl.
  destruct (embed_fault w _); [reflexivity|]. simpl.
  match goal with
  | |- context [store_chunks w ?d ?items ?s] =>
      destruct (store_chunks w d items s) as [[[]|e] st4]
  end; reflexivity.
Qed.

Lemma filter_none {A : Type} (f : A -> bool) (l : list A) :
  (forall x, In x l -> f x = false) -> filter f l = [].
Proof.
  induction l as [|x l IH]; intros Hnone; simpl; [reflexivity|].
  rewrite (Hnone x (or_introl eq_refl)). apply IH.
  intros y Hy. apply Hnone. now right.
Qed.

Lemma increasing_indices (new : list models.Chunk) (i : nat) :
  map models.chunkIndex new = map Z.of_nat (seq i (List.length new)) ->
  StronglySorted
    (fun a b => (models.chunkIndex a <=? models.chunkIndex b)%Z = true) new.
Proof.
  revert i. induction new as [|c new IH]; intros i Hidx; constructor.
  - simpl in Hidx. injection Hidx as _ Hrest. now apply (IH (S i)).
  - simpl in Hidx. injection Hidx as Hc Hrest.
    apply Forall_forall. intros c' Hc'. apply Z.leb_le.
    apply (in_map models.chunkIndex) in Hc'. rewrite Hrest in Hc'.
    apply in_map_iff in Hc'. destruct Hc' as [j [<- Hj]].
    apply in_seq in Hj. lia.
Qed.

(** What a successful [process_pdf] has stored. *)
Lemma process_pdf_effect w file_path original_name file_size st doc st' :
  process_pdf w file_path original_name file_size st = (Ok doc, st') ->
  exists text new,
    pdf_text w (st_log st ++ [EvDb "create_document"]) file_path = Ok text
    /\ doc = models.mkDocument (uuid4 w (st_log st)) (Py.basename file_path)
                               original_name file_size (now w (st_log st))
                               false
    /\ st_db st'
       = models.mkDB (models.documents (st_db st) ++ [doc])
                     (models.chunks (st_db st) ++ new)
                     (models.chat_sessions (st_db st))
                     (models.chat_documents (st_db st))
                     (models.chat_messages (st_db st))
    /\ map models.content new
       = map PDFProcessor.content (PDFProcessor.chunk_text text)
    /\ map models.chunkIndex new = map Z.of_nat (seq 0 (List.length new))
    /\ map models.embedding new
       = map (embed_model w) (map models.content new)
    /\ Forall (fun c => models.documentId c = models.doc_id doc) new.
Proof.
  intros Hrun.
  destruct (db_fault w (st_log st)) as [fault|] eqn:Hdb.
  { unfold process_pdf, create_document in Hrun. run_monad.
    rewrite Hdb in Hrun. destruct fault; discriminate. }
  rewrite (process_pdf_run w _ _ _ st Hdb) in Hrun. cbv zeta in Hrun.
  destruct (pdf_text w _ file_path) as [text|]; [|discriminate].
  destruct (embed_fault w _); [discriminate|].
  match type of Hrun with
  | context [store_chunks w ?d ?items ?s] =>
      destruct (store_chunks_effect w d items s) as [new [Hdb' [Hdoc Hitems]]];
      destruct (store_chunks w d items s) as [[[]|e] st4] eqn:Hstore;
      [|discriminate]
  end.
  injection Hrun as <- <-. simpl in *. specialize (Hitems eq_refl).
  exists text, new. split; [reflexivity|]. split; [reflexivity|].
  split; [exact Hdb'|].
  destruct (stored_fields w _ _ _ Hitems) as [Htexts [Hidx Hemb]].
  repeat split; assumption.
Qed.

End IngestFacts2.

(** X1.  A call of [process_pdf] that returns has stored one document
    row, with a fresh id, the base name of the path, the original name,
    the size, and [processed] still false, and after it one chunk row
    for every chunk of the extracted text, in order: each belongs to the
    new document, carries the chunk's text and the embedding of that
    text, has at most 1000 characters, and the chunk indices are
    0, 1, 2, ...  Sessions, associations and messages are untouched. *)
Theorem process_pdf_stores_document :
  forall (w : World) (file_path original_name : string) (file_size : Z)
         (st : State) (doc : models.Document) (st' : State),
    DocumentService.process_pdf w file_path original_name file_size st
    = (Ok doc, st') ->
    exists text new,
      pdf_text w (st_log st ++ [EvDb "create_document"]) file_path = Ok text
      /\ doc = models.mkDocument (uuid4 w (st_log st))
                                 (Py.basename file_path) original_name
                                 file_size (now w (st_log st)) false
      /\ st_db st'
         = models.mkDB (models.documents (st_db st) ++ [doc])
                       (models.chunks (st_db st) ++ new)
                       (models.chat_sessions (st_db st))
                       (models.chat_documents (st_db st))
                       (models.chat_messages (st_db st))
      /\ map models.content new
         = map PDFProcessor.content (PDFProcessor.chunk_text text)
      /\ map models.chunkIndex new = map Z.of_nat (seq 0 (List.length new))
      /\ map models.embedding new
         = map (embed_model w) (map models.content new)
      /\ Forall (fun c => models.documentId c = models.doc_id doc
                          /\ Py.len (models.content c) <= 1000) new.
Proof.
  intros w file_path original_name file_size st doc st' Hrun.
  destruct (IngestFacts2.process_pdf_effect _ _ _ _ _ _ _ Hrun)
    as [text [new [Htext [Hdoc [Hdb [Htexts [Hidx [Hemb Hof]]]]]]]].
  exists text, new. repeat split; try assumption.
  apply Forall_forall. intros c Hc. rewrite Forall_forall in Hof.
  split; [now apply Hof|].
  assert (Hin : In (models.content c)
                   (map PDFProcessor.content (PDFProcessor.chunk_text text)))
    by (rewrite <- Htexts; now apply in_map).
  apply in_map_iff in Hin. destruct Hin as [ch [<- Hch]].
  pose proof (SplitterFacts.chunk_text_fits text) as Hfit.
  rewrite Forall_forall in Hfit. now apply Hfit.
Qed.

Lemma process_pdf_stores_document_witness :
  let run := DocumentService.process_pdf Sample.world "/tmp/upload.pdf"
               "Notes.pdf" 12 (Sample.state models.empty_db) in
  map models.content (models.chunks (st_db (snd run))) = ["some text"].
Proof.
  intros run.
  assert (Hrun : run = (Ok (models.mkDocument "0" "upload.pdf" "Notes.pdf"
                                              12 0 false), snd run))
    by (vm_compute; reflexivity).
  destruct (process_pdf_stores_document _ _ _ _ _ _ _ Hrun)
    as [text [new [Htext [_ [Hdb [Htexts _]]]]]].
  rewrite Hdb. simpl. injection Htext as <-. exact Htexts.
Defined.

(** X2.  [process_pdf] is not atomic.  When [create_document] raises
    before its commit nothing is stored; when it raises after its
    commit (the refresh of the new row fails) the document row is
    stored, without any chunk, although [process_pdf] raises with that
    error; and once [create_document] has returned, a later failure
    leaves the row in the database: when the text extraction or the
    embedding call raises, the new document stays without any chunk,
    and when storing a chunk fails, with the chunks stored so far. *)
Theorem process_pdf_failure_keeps_document :
  forall (w : World) (file_path original_name : string) (file_size : Z)
         (st : State) (e : string) (st' : State),
    DocumentService.process_pdf w file_path original_name file_size st
    = (Raise e, st') ->
    let doc := models.mkDocument (uuid4 w (st_log st))
                 (Py.basename file_path) original_name file_size
                 (now w (st_log st)) false in
    let log1 := st_log st ++ [EvDb "create_document"] in
    let stored new :=
      models.mkDB (models.documents (st_db st) ++ [doc])
                  (models.chunks (st_db st) ++ new)
                  (models.chat_sessions (st_db st))
                  (models.chat_documents (st_db st))
                  (models.chat_messages (st_db st)) in
    (forall e0, db_fault w (st_log st) = Some (RolledBack e0) ->
       e = e0 /\ st_db st' = st_db st)
    /\ (forall e0, db_fault w (st_log st) = Some (AfterCommit e0) ->
          e = e0 /\ st_db st' = stored [])
    /\ (db_fault w (st_log st) = None ->
        exists new,
          st_db st' = stored new
          /\ Forall (fun c => models.documentId c = models.doc_id doc) new
          /\ ((exists e1, pdf_text w log1 file_path = Raise e1)
              \/ embed_fault w (log1 ++ [EvExtractText file_path]) <> None ->
              new = [])).
Proof.
  intros w file_path original_name file_size st e st' Hrun doc log1 stored.
  split; [|split].
  - intros e0 Hfault. unfold DocumentService.process_pdf,
      DocumentService.create_document in Hrun. run_monad.
    rewrite Hfault in Hrun. now injection Hrun as <- <-.
  - intros e0 Hfault. unfold DocumentService.process_pdf,
      DocumentService.create_document in Hrun. run_monad.
    rewrite Hfault in Hrun. injection Hrun as <- <-.
    subst stored. simpl. now rewrite app_nil_r.
  - intros Hdb. subst stored.
    rewrite (IngestFacts2.process_pdf_run w _ _ _ st Hdb) in Hrun.
    cbv zeta in Hrun. cbn [st_log] in Hrun.
    fold doc in Hrun. fold log1 in Hrun.
    destruct (pdf_text w log1 file_path) as [text|e1].
    + destruct (embed_fault w (log1 ++ [EvExtractText file_path])) as [e2|].
      * injection Hrun as _ <-. exists []. simpl. rewrite app_nil_r.
        repeat split. constructor.
      * match type of Hrun with
        | context [DocumentService.store_chunks w ?d ?items ?s] =>
            destruct (IngestFacts2.store_chunks_effect w d items s)
              as [new [Hdb' [Hdoc _]]];
            destruct (DocumentService.store_chunks w d items s)
              as [[[]|e3] st4]
        end; [discriminate|].
        injection Hrun as _ <-. exists new. simpl in *.
        split; [exact Hdb'|]. split; [exact Hdoc|].
        intros [[e1 He1]|Hemb]; [discriminate | congruence].
    + injection Hrun as _ <-. exists []. simpl. rewrite app_nil_r.
      repeat split. constructor.
Qed.

Lemma process_pdf_failure_keeps_document_witness :
  let run := DocumentService.process_pdf Sample.world_without_embeddings
               "/tmp/upload.pdf" "Notes.pdf" 12
               (Sample.state models.empty_db) in
  models.documents (st_db (snd run))
  = [models.mkDocument "0" "upload.pdf" "Notes.pdf" 12 0 false]
  /\ models.chunks (st_db (snd run)) = [].
Proof.
  intros run.
  assert (Hrun : run = (Raise "quota exceeded", snd run))
    by (vm_compute; reflexivity).
  destruct (proj2 (proj2
              (process_pdf_failure_keeps_document _ _ _ _ _ _ _ Hrun))
              eq_refl) as [new [Hdb [_ Hnone]]].
  rewrite Hdb. simpl. split; [reflexivity|].
  apply Hnone. right. discriminate.
Defined.

(** X3.  [get_chunks] returns exactly the chunks of the document, in
    non-decreasing order of their index.  After [process_pdf] has
    returned a document whose id no older chunk refers to, [get_chunks]
    for that document gives back the chunks of the extracted text, text
    by text in their order, numbered 0, 1, 2, ... *)
Theorem get_chunks_returns_ingested :
  forall (w : World),
    (forall db document_id c,
        In c (models.get_chunks db document_id) <->
        In c (models.chunks db) /\ models.documentId c = document_id)
    /\ (forall db document_id,
          StronglySorted
            (fun a b => (models.chunkIndex a <= models.chunkIndex b)%Z)
            (models.get_chunks db document_id))
    /\ (forall file_path original_name file_size st doc st',
          DocumentService.process_pdf w file_path original_name file_size st
          = (Ok doc, st') ->
          (forall c, In c (models.chunks (st_db st)) ->
                     models.documentId c <> uuid4 w (st_log st)) ->
          exists text,
            pdf_text w (st_log st ++ [EvDb "create_document"]) file_path
            = Ok text
            /\ map models.content
                   (models.get_chunks (st_db st') (models.doc_id doc))
               = map PDFProcessor.content (PDFProcessor.chunk_text text)
            /\ map models.chunkIndex
                   (models.get_chunks (st_db st') (models.doc_id doc))
               = map Z.of_nat
                     (seq 0 (List.length
                               (PDFProcessor.chunk_text text)))).
Proof.
  intros w. split; [|split].
  - intros db did c. unfold models.get_chunks.
    now rewrite sort_by_In, filter_In, String.eqb_eq.
  - intros db did. unfold models.get_chunks.
    eapply SortFacts.sorted_weaken; [| apply SortFacts.sort_by_sorted ].
    + intros a b Hab. now apply Z.leb_le.
    + intros a b Hab. apply Z.leb_gt in Hab. apply Z.leb_le. lia.
    + intros a b c Hab Hbc. apply Z.leb_le in Hab, Hbc. apply Z.leb_le. lia.
  - intros file_path original_name file_size st doc st' Hrun Hfresh.
    destruct (IngestFacts2.process_pdf_effect _ _ _ _ _ _ _ Hrun)
      as [text [new [Htext [Hdoc [Hdb [Htexts [Hidx [_ Hof]]]]]]]].
    exists text. split; [exact Htext|].
    assert (Hid : models.doc_id doc = uuid4 w (st_log st))
      by (rewrite Hdoc; reflexivity).
    assert (Hget : models.get_chunks (st_db st') (models.doc_id doc) = new).
    { unfold models.get_chunks. rewrite Hdb. simpl. rewrite filter_app.
      replace (filter _ (models.chunks (st_db st)))
        with (@nil models.Chunk).
      - simpl. rewrite forallb_filter_id.
        + apply SortFacts.sort_by_id.
          now apply (IngestFacts2.increasing_indices new 0).
        + apply forallb_forall. intros c Hc. rewrite Forall_forall in Hof.
          apply String.eqb_eq. now apply Hof.
      - symmetry. apply IngestFacts2.filter_none. intros c Hc.
        apply String.eqb_neq. rewrite Hid. now apply Hfresh. }
    rewrite Hget. split; [exact Htexts|].
    rewrite Hidx. f_equal. f_equal.
    now rewrite <- (length_map models.content), Htexts, length_map.
Qed.

Lemma get_chunks_returns_ingested_witness :
  let run := DocumentService.process_pdf Sample.world "/tmp/upload.pdf"
               "Notes.pdf" 12 (Sample.state Sample.db) in
  map models.content (models.get_chunks (st_db (snd run)) "0")
  = ["some text"].
Proof.
  intros run.
  assert (Hrun : run = (Ok (models.mkDocument "0" "upload.pdf" "Notes.pdf"
                                              12 0 false), snd run))
    by (vm_compute; reflexivity).
  destruct (proj2 (proj2 (get_chunks_returns_ingested Sample.world))
              _ _ _ _ _ _ Hrun) as [text [Htext [Htexts _]]].
  - intros c [<-|[<-|[<-|[]]]]; discriminate.
  - transitivity (map PDFProcessor.content (PDFProcessor.chunk_text text));
      [exact Htexts | injection Htext as <-; reflexivity].
Defined.

(** ** Classifying and routing a question *)

Module ClassifyFacts.

Lemma lower_app (a b : string) :
  Py.lower (a ++ b) = (Py.lower a ++ Py.lower b)%string.
Proof.
  induction a as [|c a IH]; simpl; [reflexivity | now rewrite IH].
Qed.

Lemma lower_idempotent (s : string) : Py.lower (Py.lower s) = Py.lower s.
Proof.
  induction s as [|c s IH]; simpl; [reflexivity|].
  destruct (PyFacts.case_stable c) as [_ [_ [_ Hll]]].
  now rewrite Hll, IH.
Qed.

Lemma prefix_split (a s : string) :
  String.prefix a s = true -> exists b, s = (a ++ b)%string.
Proof.
  revert s. induction a as [|c a IH]; intros s H.
  - now exists s.
  - destruct s as [|x s]; simpl in H; [discriminate|].
    destruct (ascii_dec c x) as [->|]; [|discriminate].
    destruct (IH s H) as [b ->]. now exists b.
Qed.

(** [sub in s] holds exactly when [s] is [a + sub + b] for some [a], [b]. *)
Lemma contains_iff (sub s : string) :
  Py.contains sub s = true <-> exists a b, s = (a ++ sub ++ b)%string.
Proof.
  split.
  - induction s as [|c s IH]; intros H.
    + simpl in H. rewrite orb_false_r in H.
      destruct sub; [|discriminate]. now exists EmptyString, EmptyString.
    + rewrite PyFacts.contains_cons in H. apply orb_true_iff in H.
      destruct H as [H|H].
      * destruct (prefix_split _ _ H) as [b Hb]. now exists EmptyString, b.
      * destruct (IH H) as [a [b ->]]. now exists (String c a), b.
  - intros [a [b ->]]. apply PyFacts.contains_middle.
Qed.

Lemma keywords_are_lower_case :
  forall keyword, In keyword DocumentService.system_keywords ->
                  Py.lower keyword = keyword.
Proof.
  intros keyword Hin. unfold DocumentService.system_keywords in Hin.
  simpl in Hin.
  repeat (destruct Hin as [<-|Hin]; [reflexivity|]). destruct Hin.
Qed.

End ClassifyFacts.

(** X11.  [_is_system_question] holds exactly when the lower-cased
    question contains one of the fourteen keywords.  So it does not
    depend on the case of the question, and a question in which a
    keyword occurs in any mix of cases, with anything before and after
    it, is classified as a system question. *)
Theorem system_question_is_keyword_containment :
  forall question : string,
    (DocumentService._is_system_question question = true <->
     exists keyword before after,
       In keyword DocumentService.system_keywords
       /\ Py.lower question = (before ++ keyword ++ after)%string)
    /\ DocumentService._is_system_question (Py.lower question)
       = DocumentService._is_system_question question
    /\ (forall keyword spelled before after,
          In keyword DocumentService.system_keywords ->
          Py.lower spelled = keyword ->
          question = (before ++ spelled ++ after)%string ->
          DocumentService._is_system_question question = true).
Proof.
  intros q.
  assert (Hiff : forall s,
    DocumentService._is_system_question s = true <->
    exists keyword before after,
      In keyword DocumentService.system_keywords
      /\ Py.lower s = (before ++ keyword ++ after)%string).
  { intros s. unfold DocumentService._is_system_question.
    rewrite existsb_exists. split.
    - intros [keyword [Hin Hc]]. apply ClassifyFacts.contains_iff in Hc.
      destruct Hc as [a [b Hab]]. now exists keyword, a, b.
    - intros [keyword [a [b [Hin Hab]]]]. exists keyword.
      split; [exact Hin|]. apply ClassifyFacts.contains_iff. now exists a, b. }
  split; [apply Hiff|]. split.
  - unfold DocumentService._is_system_question.
    now rewrite ClassifyFacts.lower_idempotent.
  - intros keyword spelled before after Hin Hspelled ->.
    apply Hiff. exists keyword, (Py.lower before), (Py.lower after).
    split; [exact Hin|].
    now rewrite !ClassifyFacts.lower_app, Hspelled.
Qed.

Lemma system_question_is_keyword_containment_witness :
  DocumentService._is_system_question
    "Tell me, WHICH Documents do you have?" = true.
Proof.
  exact (proj2 (proj2 (system_question_is_keyword_containment
                         "Tell me, WHICH Documents do you have?"))
           "which documents" "WHICH Documents" "Tell me, " " do you have?"
           (or_intror (or_intror (or_intror (or_intror (or_intror
             (or_intror (or_intror (or_intror (or_intror (or_intror
             (or_intror (or_intror (or_intror (or_introl eq_refl))))))))))))))
           eq_refl eq_refl).
Defined.

Module RouteFacts.
Import DocumentService.

(** The first steps of [ask_question] for a chat with documents. *)
Lemma ask_question_with_retriever w cid q st session doc docs st1 r st2 :
  get_chat_session w cid st = (Ok (Some (session, doc :: docs)), st1) ->
  get_multi_document_retriever w (map models.doc_id (doc :: docs)) st1
  = (Ok (Some r), st2) ->
  _is_system_question q = false ->
  ask_question w cid q st =
  try_except
    (direct <- try_except (direct_tier w cid q r) (fun _ => ret None) ;;
     match direct with
     | Some direct_result => ret (Direct, direct_result)
     | None => agentic_tier w cid q r (documents_info_of (doc :: docs))
     end)
    (fun _ => ret (Apology, mkAnswer apology_message None)) st2.
Proof.
  intros Hchat Hbuild Hsys.
  unfold ask_question, try_except at 1, bind at 1. rewrite Hchat.
  unfold bind at 1. rewrite Hbuild, Hsys. reflexivity.
Qed.

Lemma retriever_none_run w ids st :
  ids <> [] ->
  db_fault w (st_log st) = None ->
  models.get_chunks_for_documents (st_db st) ids = [] ->
  get_multi_document_retriever w ids st
  = (Ok None,
     mkState (st_db st) (st_vector_store st) (st_qa_chain st)
             (st_log st ++ [EvDb "get_chunks_for_documents"])).
Proof.
  intros Hids Hdb Hchunks. unfold get_multi_document_retriever.
  destruct ids as [|i ids]; [congruence|].
  run_monad. rewrite Hdb. simpl. now rewrite Hchunks.
Qed.

(** Where an answer tagged with a tier can have come from. *)
Lemma ask_question_tiers w cid q st tier answer st' :
  ask_question w cid q st = (Ok (tier, answer), st') ->
  match tier with
  | NoDocuments =>
      exists st1,
        (get_chat_session w cid st = (Ok None, st1)
         \/ exists session,
              get_chat_session w cid st = (Ok (Some (session, [])), st1))
  | Agentic =>
      exists r info st2 st3,
        agentic_tier w cid q r info st2 = (Ok (Agentic, answer), st3)
  | _ => True
  end.
Proof.
  unfold ask_question, try_except at 1, bind at 1.
  destruct (get_chat_session w cid st) as [[[[session [|doc docs]]|]|e] st1].
  - intros H. injection H as <- _ _. eauto.
  - unfold bind at 1.
    destruct (get_multi_document_retriever w _ st1) as [[[r|]|e] st2].
    + destruct (_is_system_question q).
      * unfold bind.
        destruct (lift_result _ st2) as [[a|e] st3];
          [|intros H; now injection H as <- _ _].
        destruct (create_chat_message w cid q a st3) as [[m|e] st4];
          intros H; now injection H as <- _ _.
      * unfold bind, try_except.
        destruct (direct_tier w cid q r st2) as [[[dr|]|e] st3].
        -- intros H. now injection H as <- _ _.
        -- destruct (agentic_tier w cid q r _ st3)
             as [[[t a]|e] st4] eqn:Hagent;
             [|intros H; now injection H as <- _ _].
           intros H. injection H as <- <- <-.
           pose proof (TierFacts.agentic_tier_tag _ _ _ _ _ _ _ _ _ Hagent).
           subst t. eauto 6.
        -- simpl.
           destruct (agentic_tier w cid q r _ st3)
             as [[[t a]|e'] st4] eqn:Hagent;
             [|intros H; now injection H as <- _ _].
           intros H. injection H as <- <- <-.
           pose proof (TierFacts.agentic_tier_tag _ _ _ _ _ _ _ _ _ Hagent).
           subst t. eauto 6.
    + intros H. now injection H as <- _ _.
    + intros H. now injection H as <- _ _.
  - intros H. injection H as <- _ _. eauto.
  - intros H. now injection H as <- _ _.
Qed.

(** A step that leaves the database alone, followed by the rest. *)
Lemma bind_quiet_inv {A B : Type} (m : M A) (f : A -> M B) st outcome st' :
  quiet m ->
  bind m f st = (outcome, st') ->
  (exists e, outcome = Raise e /\ st_db st' = st_db st)
  \/ exists a st1, st_db st1 = st_db st /\ f a st1 = (outcome, st').
Proof.
  intros Hm Hrun. unfold bind in Hrun. specialize (Hm st).
  destruct (m st) as [[a|e] st1]; simpl in Hm.
  - right. now exists a, st1.
  - left. injection Hrun as <- <-. now exists e.
Qed.

(** What the direct tier has stored when it does not return an answer:
    nothing, unless [create_chat_message] raised after its commit; then
    the answer of the language model is stored. *)
Lemma direct_tier_without_answer w cid q retriever st outcome st' :
  direct_tier w cid q retriever st = (outcome, st') ->
  (forall direct_result, outcome <> Ok (Some direct_result)) ->
  st_db st' = st_db st
  \/ exists e log a,
       outcome = Raise e
       /\ db_fault w log = Some (AfterCommit e)
       /\ st_db st'
          = snd (models.create_chat_message (st_db st) (uuid4 w log)
                   (now w log) cid q a).
Proof.
  intros Hrun Hnot. unfold direct_tier in Hrun.
  apply bind_quiet_inv in Hrun;
    [|apply QuietFacts.quiet_get_relevant_documents].
  destruct Hrun as [[e [_ Hdb]]|[docs [st1 [Hdb1 Hrun]]]]; [now left|].
  destruct docs as [|doc docs];
    [unfold ret in Hrun; injection Hrun as _ <-; now left|].
  apply bind_quiet_inv in Hrun; [|apply QuietFacts.quiet_set_qa_chain].
  destruct Hrun as [[e [_ Hdb]]|[[] [st2 [Hdb2 Hrun]]]]; [left; congruence|].
  apply bind_quiet_inv in Hrun; [|apply QuietFacts.quiet_get_answer].
  destruct Hrun as [[e [_ Hdb]]|[direct_result [st3 [Hdb3 Hrun]]]];
    [left; congruence|].
  destruct (_ && _);
    [|unfold ret in Hrun; injection Hrun as _ <-; left; congruence].
  unfold bind, create_chat_message, db_insert, ret in Hrun.
  destruct (db_fault w (st_log st3)) as [[e|e]|] eqn:Hfault;
    simpl in Hrun; injection Hrun as <- <-.
  - left. simpl. congruence.
  - right. exists e, (st_log st3), (answer_result direct_result).
    split; [reflexivity|]. split; [exact Hfault|].
    simpl. now rewrite Hdb3, Hdb2, Hdb1.
  - exfalso. now apply (Hnot direct_result).
Qed.

End RouteFacts.

(** X12.  [ask_question] stops early for a chat without content.  When
    the chat does not exist or has no document, it returns the fixed
    "no documents" message after one database query; when the chat's
    documents have no chunk, it returns the fixed "no content" message
    after two.  In both cases nothing is embedded, no model is asked and
    nothing is stored. *)
Theorem ask_question_short_circuits :
  forall (w : World) (chat_id question : string) (st : State),
    db_fault w (st_log st) = None ->
    (models.get_chat_session (st_db st) chat_id = None
     \/ models.chat_documents_of (st_db st) chat_id = [] ->
     DocumentService.ask_question w chat_id question st
     = (Ok (DocumentService.NoDocuments,
            mkAnswer DocumentService.no_documents_message None),
        mkState (st_db st) (st_vector_store st) (st_qa_chain st)
                (st_log st ++ [EvDb "get_chat_session"])))
    /\ (models.get_chat_session (st_db st) chat_id <> None ->
        models.chat_documents_of (st_db st) chat_id <> [] ->
        retrieval_pool (st_db st) chat_id = [] ->
        db_fault w (st_log st ++ [EvDb "get_chat_session"]) = None ->
        DocumentService.ask_question w chat_id question st
        = (Ok (DocumentService.NoContent,
               mkAnswer DocumentService.no_content_message None),
           mkState (st_db st) (st_vector_store st) (st_qa_chain st)
                   ((st_log st ++ [EvDb "get_chat_session"])
                    ++ [EvDb "get_chunks_for_documents"]))).
Proof.
  intros w cid q st Hdb. split.
  - intros Hnone.
    unfold DocumentService.ask_question, try_except, bind.
    rewrite (SystemFacts.get_chat_session_run w cid st Hdb).
    destruct (models.get_chat_session (st_db st) cid) as [session|];
      [|reflexivity].
    destruct Hnone as [Hnone| ->]; [discriminate | reflexivity].
  - intros Hchat Hdocs Hpool Hdb2.
    unfold DocumentService.ask_question, try_except, bind.
    rewrite (SystemFacts.get_chat_session_run w cid st Hdb).
    unfold retrieval_pool in Hpool.
    destruct (models.get_chat_session (st_db st) cid) as [session|];
      [|congruence].
    destruct (models.chat_documents_of (st_db st) cid) as [|doc docs] eqn:Hd;
      [congruence|].
    rewrite (RouteFacts.retriever_none_run w (map models.doc_id (doc :: docs))
               (mkState (st_db st) (st_vector_store st) (st_qa_chain st)
                        (st_log st ++ [EvDb "get_chat_session"])));
      [reflexivity | discriminate | exact Hdb2 | exact Hpool].
Qed.

Lemma ask_question_short_circuits_witness :
  fst (DocumentService.ask_question Sample.world "c1" "What is alpha?"
         (Sample.state Sample.db_fresh))
  = Ok (DocumentService.NoDocuments,
        mkAnswer DocumentService.no_documents_message None).
Proof.
  rewrite (proj1 (ask_question_short_circuits Sample.world "c1"
                    "What is alpha?" (Sample.state Sample.db_fresh) eq_refl)
             (or_intror eq_refl)).
  reflexivity.
Defined.

(** X13.  An exception inside the direct tier never reaches the caller
    and never ends the question: whatever raises there (the query
    embedding, the index search, the language model, storing the
    message), [ask_question] continues with the agentic tier from the
    state the direct tier left, and the answer it returns comes from the
    agentic tier or is the apology.  The direct tier has stored nothing
    by then, with one exception: when it was [create_chat_message] that
    raised, after its commit, the answer of the direct tier is in the
    table. *)
Theorem direct_tier_failure_falls_through :
  forall (w : World) (chat_id question : string) (st : State)
         (session : models.ChatSession) (doc : models.Document)
         (docs : list models.Document) (st1 : State) (retriever : Retriever)
         (st2 : State) (e : string) (st3 : State),
    DocumentService.get_chat_session w chat_id st
    = (Ok (Some (session, doc :: docs)), st1) ->
    DocumentService.get_multi_document_retriever w
      (map models.doc_id (doc :: docs)) st1
    = (Ok (Some retriever), st2) ->
    DocumentService._is_system_question question = false ->
    DocumentService.direct_tier w chat_id question retriever st2
    = (Raise e, st3) ->
    DocumentService.ask_question w chat_id question st
    = try_except
        (DocumentService.agentic_tier w chat_id question retriever
           (DocumentService.documents_info_of (doc :: docs)))
        (fun _ => ret (DocumentService.Apology,
                       mkAnswer DocumentService.apology_message None))
        st3
    /\ (st_db st3 = st_db st
        \/ exists log a,
             db_fault w log = Some (AfterCommit e)
             /\ st_db st3
                = snd (models.create_chat_message (st_db st) (uuid4 w log)
                         (now w log) chat_id question a))
    /\ (commits_cleanly w -> st_db st3 = st_db st)
    /\ exists tier answer st',
         DocumentService.ask_question w chat_id question st
         = (Ok (tier, answer), st')
         /\ (tier = DocumentService.Agentic
             \/ tier = DocumentService.Apology).
Proof.
  intros w cid q st session doc docs st1 r st2 e st3 Hchat Hbuild Hsys Hdirect.
  assert (Hask :
    DocumentService.ask_question w cid q st
    = try_except
        (DocumentService.agentic_tier w cid q r
           (DocumentService.documents_info_of (doc :: docs)))
        (fun _ => ret (DocumentService.Apology,
                       mkAnswer DocumentService.apology_message None))
        st3).
  { rewrite (RouteFacts.ask_question_with_retriever _ _ _ _ _ _ _ _ _ _
               Hchat Hbuild Hsys).
    unfold try_except, bind. rewrite Hdirect. reflexivity. }
  assert (Hsame : st_db st2 = st_db st).
  { pose proof (QuietFacts.quiet_get_multi_document_retriever w
                  (map models.doc_id (doc :: docs)) st1) as Hq2.
    pose proof (QuietFacts.quiet_get_chat_session w cid st) as Hq1.
    rewrite Hbuild in Hq2. rewrite Hchat in Hq1. simpl in *. congruence. }
  assert (Hstored :
    st_db st3 = st_db st
    \/ exists log a,
         db_fault w log = Some (AfterCommit e)
         /\ st_db st3
            = snd (models.create_chat_message (st_db st) (uuid4 w log)
                     (now w log) cid q a)).
  { destruct (RouteFacts.direct_tier_without_answer _ _ _ _ _ _ _ Hdirect)
      as [Hdb|[e' [log [a [He [Hfault Hdb]]]]]]; [discriminate| |].
    - left. congruence.
    - right. injection He as <-. exists log, a. now rewrite <- Hsame. }
  split; [exact Hask|]. split; [exact Hstored|]. split.
  - intros Hclean. destruct Hstored as [Hdb|[log [a [Hfault _]]]];
      [exact Hdb | now destruct (Hclean log e)].
  - rewrite Hask. unfold try_except.
    destruct (DocumentService.agentic_tier w cid q r _ st3)
      as [[[tier answer]|e'] st4] eqn:Hagent.
    + exists tier, answer, st4. split; [reflexivity|]. left.
      eapply TierFacts.agentic_tier_tag; eassumption.
    + exists DocumentService.Apology. do 2 eexists.
      split; [reflexivity | now right].
Qed.

Lemma direct_tier_failure_falls_through_witness :
  fst (DocumentService.ask_question Sample.world_without_model "c1"
         "What is alpha?" (Sample.state Sample.db))
  = Ok (DocumentService.Agentic, mkAnswer "agent answer" None).
Proof.
  edestruct (direct_tier_failure_falls_through Sample.world_without_model
               "c1" "What is alpha?" (Sample.state Sample.db))
    as [Hask _].
  - vm_compute. reflexivity.
  - vm_compute. reflexivity.
  - reflexivity.
  - vm_compute. reflexivity.
  - rewrite Hask. vm_compute. reflexivity.
Defined.

(** X14.  Without a search key the agentic tier cannot start:
    [get_agent_answer] raises the configuration error before the agent
    takes any step and without touching the state.  So no answer of
    [ask_question] ever comes from the agentic tier, and a question
    whose direct tier gives no answer ends in the apology, in the state
    the direct tier left: with nothing stored, unless the direct tier
    raised in [create_chat_message] after its commit; then the apology
    is returned with the direct answer in the table. *)
Theorem agentic_tier_needs_search_key :
  forall (w : World),
    SERPER_API_KEY w = None \/ SERPER_API_KEY w = Some EmptyString ->
    (forall question retriever documents_info st,
        QAService.get_agent_answer w question retriever documents_info st
        = (Raise "SERPER_API_KEY environment variable not set.", st))
    /\ (forall chat_id question st tier answer st',
          DocumentService.ask_question w chat_id question st
          = (Ok (tier, answer), st') ->
          tier <> DocumentService.Agentic)
    /\ (forall chat_id question st session doc docs st1 retriever st2,
          DocumentService.get_chat_session w chat_id st
          = (Ok (Some (session, doc :: docs)), st1) ->
          DocumentService.get_multi_document_retriever w
            (map models.doc_id (doc :: docs)) st1
          = (Ok (Some retriever), st2) ->
          DocumentService._is_system_question question = false ->
          forall outcome st3,
            DocumentService.direct_tier w chat_id question retriever st2
            = (outcome, st3) ->
            (forall direct_result, outcome <> Ok (Some direct_result)) ->
            DocumentService.ask_question w chat_id question st
            = (Ok (DocumentService.Apology,
                   mkAnswer DocumentService.apology_message None), st3)
            /\ (st_db st3 = st_db st
                \/ exists e log a,
                     outcome = Raise e
                     /\ db_fault w log = Some (AfterCommit e)
                     /\ st_db st3
                        = snd (models.create_chat_message (st_db st)
                                 (uuid4 w log) (now w log) chat_id question a))
            /\ (commits_cleanly w -> st_db st3 = st_db st)).
Proof.
  intros w Hkey.
  assert (Hagent : forall q r info st,
    QAService.get_agent_answer w q r info st
    = (Raise "SERPER_API_KEY environment variable not set.", st)).
  { intros q r info st. unfold QAService.get_agent_answer, bind.
    unfold web_search.get_web_search_tool.
    destruct Hkey as [-> | ->]; reflexivity. }
  assert (Htier : forall cid q r info st,
    DocumentService.agentic_tier w cid q r info st
    = (Raise "SERPER_API_KEY environment variable not set.", st)).
  { intros cid q r info st. unfold DocumentService.agentic_tier, bind.
    now rewrite Hagent. }
  split; [exact Hagent|]. split.
  - intros cid q st tier answer st' Hrun ->.
    apply RouteFacts.ask_question_tiers in Hrun.
    destruct Hrun as [r [info [st2 [st3 Hrun]]]].
    rewrite Htier in Hrun. discriminate.
  - intros cid q st session doc docs st1 r st2 Hchat Hbuild Hsys
           outcome st3 Hdirect Hnot.
    rewrite (RouteFacts.ask_question_with_retriever _ _ _ _ _ _ _ _ _ _
               Hchat Hbuild Hsys).
    pose proof (QuietFacts.quiet_get_multi_document_retriever w
                  (map models.doc_id (doc :: docs)) st1) as Hq2.
    pose proof (QuietFacts.quiet_get_chat_session w cid st) as Hq1.
    rewrite Hbuild in Hq2. rewrite Hchat in Hq1. simpl in Hq1, Hq2.
    assert (Hstored :
      st_db st3 = st_db st
      \/ exists e log a,
           outcome = Raise e
           /\ db_fault w log = Some (AfterCommit e)
           /\ st_db st3
              = snd (models.create_chat_message (st_db st) (uuid4 w log)
                       (now w log) cid q a)).
    { destruct (RouteFacts.direct_tier_without_answer _ _ _ _ _ _ _
                  Hdirect Hnot) as [Hdb|[e [log [a [He [Hfault Hdb]]]]]].
      - left. congruence.
      - right. exists e, log, a. repeat split; trivial.
        rewrite Hdb. congruence. }
    split; [|split; [exact Hstored|]].
    + unfold try_except, bind. rewrite Hdirect.
      destruct outcome as [[direct_result|]|e].
      * exfalso. now apply (Hnot direct_result).
      * now rewrite Htier.
      * simpl. now rewrite Htier.
    + intros Hclean. destruct Hstored as [Hdb|[e [log [a [_ [Hfault _]]]]]];
        [exact Hdb | now destruct (Hclean log e)].
Qed.

Lemma agentic_tier_needs_search_key_witness :
  fst (DocumentService.ask_question Sample.world_without_key "c1"
         "What is alpha?" (Sample.state Sample.db))
  = Ok (DocumentService.Apology,
        mkAnswer DocumentService.apology_message None).
Proof.
  edestruct (proj2 (proj2 (agentic_tier_needs_search_key
                             Sample.world_without_key (or_introl eq_refl)))
               "c1" "What is alpha?" (Sample.state Sample.db))
    as [Hask _].
  - vm_compute. reflexivity.
  - vm_compute. reflexivity.
  - reflexivity.
  - vm_compute. reflexivity.
  - intros direct_result. discriminate.
  - rewrite Hask. reflexivity.
Defined.

(** ** Web search results and the web fallback *)

Module WebFacts2.
Import web_search.

Lemma format_results_objects w (rs : list json) :
  (forall r, In r rs -> exists fields, r = JObject fields) ->
  exists lines,
    format_results w rs = Ok lines
    /\ Forall2 (fun r line => format_result w r = Ok line) rs lines.
Proof.
  induction rs as [|r rs IH]; intros Hobjects.
  - exists []. split; [reflexivity | constructor].
  - destruct (Hobjects r (or_introl eq_refl)) as [fields ->].
    destruct IH as [lines [Hlines Hall]];
      [intros r Hr; apply Hobjects; now right|].
    cbn [format_results]. cbn [format_result]. rewrite Hlines.
    eexists. split; [reflexivity|]. constructor; [reflexivity | exact Hall].
Qed.

Lemma format_results_inv w (rs : list json) (lines : list string) :
  format_results w rs = Ok lines ->
  Forall2 (fun r line => format_result w r = Ok line) rs lines.
Proof.
  revert lines. induction rs as [|r rs IH]; intros lines H.
  - injection H as <-. constructor.
  - cbn [format_results] in H.
    destruct (format_result w r) as [line|] eqn:Hline; [|discriminate].
    destruct (format_results w rs) as [rest|]; [|discriminate].
    injection H as <-. constructor; [exact Hline | now apply IH].
Qed.

Lemma format_result_nonempty w r line :
  format_result w r = Ok line -> line <> EmptyString.
Proof.
  destruct r; try discriminate. cbn [format_result].
  intros H. injection H as <-. intros Hempty.
  apply (f_equal String.length) in Hempty.
  rewrite !PyFacts.length_app in Hempty. simpl in Hempty. lia.
Qed.

Lemma join_nonempty (sep line : string) (rest : list string) :
  line <> EmptyString -> Py.join sep (line :: rest) <> EmptyString.
Proof.
  intros Hline Hjoin. unfold Py.join in Hjoin. simpl in Hjoin.
  destruct rest; [contradiction|].
  destruct line; [contradiction | discriminate].
Qed.

(** A summary is never the empty string. *)
Lemma summarize_nonempty w response text :
  summarize w response = Ok text -> text <> EmptyString.
Proof.
  unfold summarize.
  destruct (_ && _)%bool; [discriminate|].
  destruct (json_body response) as [results|]; [|discriminate].
  destruct (get results "organic" (JArray [])) as [organic|]; [|discriminate].
  destruct (truthy organic) eqn:Htruthy;
    [|intros H; injection H as <-; discriminate].
  destruct (slice3 organic) as [top|] eqn:Htop; [|discriminate].
  destruct (format_results w top) as [lines|] eqn:Hlines; [|discriminate].
  intros H. injection H as <-.
  apply format_results_inv in Hlines.
  destruct Hlines as [|r line top' lines' Hline _].
  - exfalso. destruct organic; simpl in *; try discriminate.
    + destruct s as [|c [|c1 [|c2 s]]]; simpl in *; discriminate.
    + destruct l as [|x [|y [|z l]]]; simpl in *; discriminate.
  - apply join_nonempty. eapply format_result_nonempty; eassumption.
Qed.

Lemma serper_search_nonempty w api_key query st found st' :
  serper_search w api_key query st = (Ok found, st') ->
  found <> EmptyString.
Proof.
  rewrite WebFacts.serper_search_result. intros H. injection H as <- _.
  destruct (http_post w (st_log st) api_key query) as [response|e];
    [|discriminate].
  destruct (summarize w response) as [text|e] eqn:Hsum; [|discriminate].
  eapply summarize_nonempty; eassumption.
Qed.

End WebFacts2.

(** X16.  When the request succeeds and the body is a JSON object,
    [serper_search] summarises at most three results.  Without an
    "organic" entry, or with an empty or null one, it returns "No
    results found.".  With a non-empty list whose first three entries
    are objects, it returns one block per entry among the first three,
    in order, joined by line breaks: the title, a colon, the link, and
    on the next line the snippet, or the description when there is no
    snippet.  Entries after the third are never read. *)
Theorem serper_search_top_three :
  forall (w : World) (api_key query : string) (st : State)
         (response : Response) (fields : list (string * json)),
    http_post w (st_log st) api_key query = Ok response ->
    ~ (400 <= status_code response < 600)%Z ->
    json_body response = Ok (JObject fields) ->
    let organic := web_search.dict_get fields "organic" (JArray []) in
    (web_search.truthy organic = false ->
     fst (web_search.serper_search w api_key query st)
     = Ok "No results found.")
    /\ (forall results,
          organic = JArray results ->
          results <> [] ->
          (forall r, In r (firstn 3 results) ->
                     exists entry, r = JObject entry) ->
          exists blocks,
            fst (web_search.serper_search w api_key query st)
            = Ok (Py.join (String "010" EmptyString) blocks)
            /\ List.length blocks = Nat.min 3 (List.length results)
            /\ Forall2
                 (fun r block =>
                    exists entry,
                      r = JObject entry
                      /\ block
                         = (web_search.str w
                              (web_search.dict_get entry "title" JNull)
                            ++ ": "
                            ++ web_search.str w
                                 (web_search.dict_get entry "link" JNull)
                            ++ String "010" EmptyString
                            ++ web_search.str w
                                 (web_search.dict_get entry "snippet"
                                    (web_search.dict_get entry "description"
                                       (JString EmptyString))))%string)
                 (firstn 3 results) blocks).
Proof.
  intros w api_key query st response fields Hpost Hstatus Hbody organic.
  assert (Hcheck : ((400 <=? status_code response)
                    && (status_code response <? 600))%Z = false).
  { destruct ((400 <=? status_code response)
              && (status_code response <? 600))%Z eqn:Hc; [|reflexivity].
    apply andb_true_iff in Hc. destruct Hc as [Hlo Hhi].
    apply Z.leb_le in Hlo. apply Z.ltb_lt in Hhi. lia. }
  rewrite WebFacts.serper_search_result, Hpost. cbn [fst].
  unfold web_search.summarize. rewrite Hcheck, Hbody.
  cbn [web_search.get]. fold organic. split.
  - intros Hfalsy. now rewrite Hfalsy.
  - intros results Horganic Hne Hobjects. rewrite Horganic.
    assert (Htruthy : web_search.truthy (JArray results) = true)
      by (destruct results; [congruence | reflexivity]).
    rewrite Htruthy. cbn [web_search.slice3].
    destruct (WebFacts2.format_results_objects w (firstn 3 results) Hobjects)
      as [blocks [Hblocks Hall]].
    rewrite Hblocks. exists blocks. split; [reflexivity|]. split.
    + apply Forall2_length in Hall. now rewrite <- Hall, length_firstn.
    + revert Hall. apply Forall2_impl. intros r block Hblock.
      destruct r as [| | | | |entry]; try discriminate. exists entry.
      split; [reflexivity|]. cbn [web_search.format_result] in Hblock.
      now injection Hblock as <-.
Qed.

Lemma serper_search_top_three_witness :
  fst (web_search.serper_search Sample.world_online "key" "rocq"
         (Sample.state models.empty_db))
  = Ok (Py.join (String "010" EmptyString)
          ["Title 1: https://example.org/1" ++ String "010" "Snippet 1";
           "Title 2: https://example.org/2" ++ String "010" "Snippet 2";
           "Title 3: https://example.org/3" ++ String "010" "Snippet 3"])%string.
Proof.
  destruct (proj2 (serper_search_top_three Sample.world_online "key" "rocq"
                     (Sample.state models.empty_db) Sample.response_five
                     _ eq_refl ltac:(simpl; lia) eq_refl)
              _ eq_refl ltac:(discriminate))
    as [blocks [Hrun _]].
  - intros r [<-|[<-|[<-|[]]]]; eexists; reflexivity.
  - reflexivity.
Defined.

Module AnswerFacts.
Import QAService.

(** [get_answer] once the chain has answered [a]. *)
Lemma get_answer_run w q use st retriever a st1 :
  st_qa_chain st = Some retriever ->
  run_qa_chain w retriever q st = (Ok a, st1) ->
  get_answer w q use st =
  (if use && not_confident a then
     search_tool <- lift_result (web_search.get_web_search_tool w) ;;
     found <- search_tool q ;;
     if String.eqb found EmptyString
     then ret (mkAnswer a (Some found))
     else ret (mkAnswer
                 (a ++ newline ++ newline ++ "---" ++ newline
                  ++ "Web Search Result:" ++ newline ++ found)%string
                 (Some found))
   else ret (mkAnswer a None)) st1.
Proof.
  intros Hchain Hrun. unfold get_answer, get_qa_chain, bind at 1.
  rewrite Hchain. unfold bind at 1. now rewrite Hrun.
Qed.

End AnswerFacts.

(** X15.  [get_answer] raises when no chain has been set up, before any
    external call.  Once the chain has answered: without the web option,
    or when the answer is non-empty and contains neither "I don't know"
    nor "not sure", it returns that answer alone and makes no request;
    with the web option and an answer that is empty or hedged, it makes
    one search request and returns the answer followed by a separator
    and the search result, which is never empty, also as [web_result];
    and when the search key is not configured it raises instead. *)
Theorem get_answer_web_fallback :
  forall (w : World) (question : string) (st : State),
    (st_qa_chain st = None ->
     forall use_web_search,
       QAService.get_answer w question use_web_search st
       = (Raise "QA chain not set up. Call setup_qa_chain first.", st))
    /\ (forall retriever a st1,
          st_qa_chain st = Some retriever ->
          QAService.run_qa_chain w retriever question st = (Ok a, st1) ->
          QAService.get_answer w question false st
          = (Ok (mkAnswer a None), st1)
          /\ (QAService.not_confident a = false ->
              QAService.get_answer w question true st
              = (Ok (mkAnswer a None), st1))
          /\ (QAService.not_confident a = true ->
              forall api_key,
                SERPER_API_KEY w = Some api_key ->
                api_key <> EmptyString ->
                exists found,
                  found <> EmptyString
                  /\ web_search.serper_search w api_key question st1
                     = (Ok found,
                        mkState (st_db st1) (st_vector_store st1)
                                (st_qa_chain st1)
                                (st_log st1 ++ [EvHttpPost question]))
                  /\ QAService.get_answer w question true st
                     = (Ok (mkAnswer
                              (a ++ QAService.newline ++ QAService.newline
                               ++ "---" ++ QAService.newline
                               ++ "Web Search Result:" ++ QAService.newline
                               ++ found)%string
                              (Some found)),
                        mkState (st_db st1) (st_vector_store st1)
                                (st_qa_chain st1)
                                (st_log st1 ++ [EvHttpPost question])))
          /\ (QAService.not_confident a = true ->
              SERPER_API_KEY w = None
              \/ SERPER_API_KEY w = Some EmptyString ->
              QAService.get_answer w question true st
              = (Raise "SERPER_API_KEY environment variable not set.", st1))).
Proof.
  intros w q st. split.
  - intros Hnone use. unfold QAService.get_answer, QAService.get_qa_chain,
      bind. now rewrite Hnone.
  - intros r a st1 Hchain Hrun.
    split; [|split; [|split]].
    + now rewrite (AnswerFacts.get_answer_run w q false st r a st1 Hchain Hrun).
    + intros Hsure.
      rewrite (AnswerFacts.get_answer_run w q true st r a st1 Hchain Hrun).
      now rewrite Hsure.
    + intros Hunsure api_key Hkey Hnonempty.
      rewrite (AnswerFacts.get_answer_run w q true st r a st1 Hchain Hrun).
      rewrite Hunsure. cbn [andb].
      assert (Htool : web_search.get_web_search_tool w
                      = Ok (web_search.serper_search w api_key)).
      { unfold web_search.get_web_search_tool. rewrite Hkey.
        destruct api_key; [congruence | reflexivity]. }
      rewrite Htool. unfold bind, lift_result, ret at 1.
      pose proof (WebFacts.serper_search_result w api_key q st1) as Hsearch.
      set (found := match http_post w (st_log st1) api_key q with
                    | Ok response => _
                    | Raise e => _
                    end) in Hsearch.
      exists found.
      assert (Hfound : found <> EmptyString)
        by (eapply WebFacts2.serper_search_nonempty; exact Hsearch).
      split; [exact Hfound|]. split; [exact Hsearch|].
      rewrite Hsearch. apply String.eqb_neq in Hfound. now rewrite Hfound.
    + intros Hunsure Hkey.
      rewrite (AnswerFacts.get_answer_run w q true st r a st1 Hchain Hrun).
      rewrite Hunsure. cbn [andb]. unfold bind.
      unfold web_search.get_web_search_tool.
      destruct Hkey as [-> | ->]; reflexivity.
Qed.

Lemma get_answer_web_fallback_witness :
  let st := mkState Sample.db VectorStore.init
              (Some (mkRetriever ["alpha"] (faiss.mkIndex 1 [[5%Z]]) 5)) [] in
  fst (QAService.get_answer Sample.world_online "What is alpha?" true st)
  = Ok (mkAnswer
          ("I am not sure." ++ QAService.newline ++ QAService.newline
           ++ "---" ++ QAService.newline ++ "Web Search Result:"
           ++ QAService.newline
           ++ Py.join QAService.newline
                ["Title 1: https://example.org/1" ++ QAService.newline
                 ++ "Snippet 1";
                 "Title 2: https://example.org/2" ++ QAService.newline
                 ++ "Snippet 2";
                 "Title 3: https://example.org/3" ++ QAService.newline
                 ++ "Snippet 3"])%string
          (Some (Py.join QAService.newline
                   ["Title 1: https://example.org/1" ++ QAService.newline
                    ++ "Snippet 1";
                    "Title 2: https://example.org/2" ++ QAService.newline
                    ++ "Snippet 2";
                    "Title 3: https://example.org/3" ++ QAService.newline
                    ++ "Snippet 3"])%string)).
Proof.
  intros st.
  edestruct (proj2 (get_answer_web_fallback Sample.world_online
                      "What is alpha?" st))
    as [_ [_ [Hweb _]]].
  - reflexivity.
  - vm_compute. reflexivity.
  - destruct (Hweb eq_refl "key" eq_refl ltac:(discriminate))
      as [found [_ [Hsearch Hanswer]]].
    rewrite Hanswer. cbn [fst]. vm_compute in Hsearch.
    injection Hsearch as <-. reflexivity.
Defined.

(** ** The in-memory vector store *)

Module StoreFacts.

Lemma np_array_uniform_rows (v : vector) (rest : list vector) :
  Forall (fun u => List.length u = List.length v) rest ->
  np_array (v :: rest) = Ok (map astype_float32 (v :: rest)).
Proof.
  intros Hall. unfold np_array.
  replace (forallb _ rest) with true; [reflexivity|].
  symmetry. apply forallb_forall. intros u Hu.
  rewrite Forall_forall in Hall. apply Nat.eqb_eq. now apply Hall.
Qed.

Lemma snoc_neq {A : Type} (l : list A) (x : A) : l ++ [x] <> l.
Proof.
  intros H. apply (f_equal (@List.length A)) in H.
  rewrite length_app in H. simpl in H. lia.
Qed.

End StoreFacts.

(** X17.  [create_index] assigns its fields one at a time, so a failure
    leaves the store half updated.  When the embedding call raises, the
    exception passes through with [self.texts] already replaced by the
    new texts while [self.index] and [self.embedded_vectors] keep their
    old values.  When the call succeeds on a non-empty list of texts
    whose vectors have one length, the index has the dimension of the
    first vector and holds one vector per text, in order and converted
    to float32, and all three fields are replaced.  In both cases exactly one embedding call is
    made and the database is not touched. *)
Theorem create_index_outcomes :
  forall (w : World) (texts : list string) (st : State),
    let old := st_vector_store st in
    let logged := (st_log st ++ [EvEmbedDocuments texts])%list in
    (forall e,
       embed_fault w (st_log st) = Some e ->
       VectorStore.create_index w texts st
       = (Raise e,
          mkState (st_db st)
                  (mkVectorStore (vs_index old) texts
                                 (vs_embedded_vectors old))
                  (st_qa_chain st) logged))
    /\ (forall t rest,
          embed_fault w (st_log st) = None ->
          texts = t :: rest ->
          Forall (fun u => List.length (embed_model w u)
                           = List.length (embed_model w t)) rest ->
          let vectors := map astype_float32 (map (embed_model w) texts) in
          let index := faiss.mkIndex (List.length (embed_model w t))
                                     vectors in
          VectorStore.create_index w texts st
          = (Ok index,
             mkState (st_db st)
                     (mkVectorStore (Some index) texts (Some vectors))
                     (st_qa_chain st) logged)
          /\ faiss.ntotal index = List.length texts).
Proof.
  intros w texts st old logged. split.
  - intros e Hfault.
    unfold VectorStore.create_index, VectorStore.set_vector_store.
    run_monad. now rewrite Hfault.
  - intros t rest Hfault -> Hrows vectors index. split.
    + unfold VectorStore.create_index, VectorStore.set_vector_store.
      run_monad. rewrite Hfault.
      assert (Harray : np_array (embed_model w t :: map (embed_model w) rest)
                       = Ok (map astype_float32
                               (embed_model w t :: map (embed_model w) rest))).
      { apply StoreFacts.np_array_uniform_rows.
        apply Forall_forall. intros u Hu. apply in_map_iff in Hu.
        destruct Hu as [x [<- Hx]].
        rewrite Forall_forall in Hrows. now apply Hrows. }
      rewrite Harray. unfold index, vectors, astype_float32. simpl.
      now rewrite length_map.
    + unfold faiss.ntotal, index, vectors. simpl. now rewrite !length_map.
Qed.

Lemma create_index_outcomes_witness :
  VectorStore.create_index Sample.world_without_embeddings ["alpha"; "beta"]
    (Sample.state models.empty_db)
  = (Raise "quota exceeded",
     mkState models.empty_db (mkVectorStore None ["alpha"; "beta"] None) None
             [EvEmbedDocuments ["alpha"; "beta"]])
  /\ fst (VectorStore.create_index Sample.world ["alpha"; "beta"]
            (Sample.state models.empty_db))
     = Ok (faiss.mkIndex 1 [[5%Z]; [4%Z]]).
Proof.
  split.
  - apply (proj1 (create_index_outcomes Sample.world_without_embeddings
                    ["alpha"; "beta"] (Sample.state models.empty_db))).
    reflexivity.
  - destruct (proj2 (create_index_outcomes Sample.world
                       ["alpha"; "beta"] (Sample.state models.empty_db))
                    "alpha" ["beta"] eq_refl eq_refl
                    ltac:(repeat constructor)) as [Hrun _].
    rewrite Hrun. reflexivity.
Defined.

(** X18.  [similarity_search] leaves the state as it found it exactly
    when [self.index] or [self.embedded_vectors] is [None]: it then
    raises "Index not created. Call create_index first." before any
    embedding call.  This is the case on a fresh store, and still the
    case after a first [create_index] that failed in the embedding
    call. *)
Theorem similarity_search_requires_index :
  forall (w : World) (query : string) (k : nat) (st : State),
    let missing := vs_index (st_vector_store st) = None
                   \/ vs_embedded_vectors (st_vector_store st) = None in
    (missing ->
     VectorStore.similarity_search w query k st
     = (Raise "Index not created. Call create_index first.", st))
    /\ (snd (VectorStore.similarity_search w query k st) = st -> missing)
    /\ (forall texts e st1,
          st_vector_store st = VectorStore.init ->
          embed_fault w (st_log st) = Some e ->
          VectorStore.create_index w texts st = (Raise e, st1) ->
          VectorStore.similarity_search w query k st1
          = (Raise "Index not created. Call create_index first.", st1)).
Proof.
  intros w q k st missing.
  assert (Hguard : forall s,
            vs_index (st_vector_store s) = None
            \/ vs_embedded_vectors (st_vector_store s) = None ->
            VectorStore.similarity_search w q k s
            = (Raise "Index not created. Call create_index first.", s)).
  { intros s Hs.
    unfold VectorStore.similarity_search, VectorStore.get_vector_store.
    run_monad.
    destruct (vs_index (st_vector_store s)) as [index|];
      destruct (vs_embedded_vectors (st_vector_store s)) as [vectors|];
      try reflexivity.
    destruct Hs; discriminate. }
  split; [apply Hguard|]. split.
  - unfold missing.
    unfold VectorStore.similarity_search, VectorStore.get_vector_store.
    run_monad.
    destruct (vs_index (st_vector_store st)) as [index|]; [|now left].
    destruct (vs_embedded_vectors (st_vector_store st)) as [vectors|];
      [|now right].
    intros Hsame. exfalso.
    assert (Hlog : (st_log st ++ [EvEmbedQuery q])%list = st_log st).
    { destruct (embed_fault w (st_log st)).
      - simpl in Hsame. now rewrite <- Hsame at 2.
      - destruct (faiss.search _ index _ k); simpl in Hsame.
        + destruct (VectorStore.collect _ _); simpl in Hsame;
            now rewrite <- Hsame at 2.
        + now rewrite <- Hsame at 2. }
    exact (StoreFacts.snoc_neq _ _ Hlog).
  - intros texts e st1 Hinit Hfault Hcreate. apply Hguard. left.
    unfold VectorStore.create_index, VectorStore.set_vector_store in Hcreate.
    run_monad. rewrite Hfault in Hcreate. injection Hcreate as <-.
    simpl. now rewrite Hinit.
Qed.

Lemma similarity_search_requires_index_witness :
  VectorStore.similarity_search Sample.world "gamma" 5
    (Sample.state Sample.db)
  = (Raise "Index not created. Call create_index first.",
     Sample.state Sample.db).
Proof.
  apply (proj1 (similarity_search_requires_index Sample.world "gamma" 5
                  (Sample.state Sample.db))).
  left. reflexivity.
Defined.

(** ** The nearest neighbours *)

Module NearestFacts.

Lemma enumerate_from_nth {A : Type} (s : nat) (l : list A) (i : nat) (x : A) :
  In (i, x) (Py.enumerate_from s l) <-> s <= i /\ nth_error l (i - s) = Some x.
Proof.
  revert s. induction l as [|y l IH]; intros s; simpl.
  - split; [intros [] | intros [_ H]]. now destruct (i - s).
  - rewrite IH. split.
    + intros [H|[Hle Hnth]].
      * injection H as <- <-. split; [lia|]. now rewrite Nat.sub_diag.
      * split; [lia|]. replace (i - s) with (S (i - S s)) by lia. exact Hnth.
    + intros [Hle Hnth]. destruct (i - s) as [|n] eqn:Hn.
      * left. injection Hnth as <-. f_equal. lia.
      * right. split; [lia|]. replace (i - S s) with n by lia. exact Hnth.
Qed.

(** The ranking lists every stored vector once, with its distance. *)
Lemma ranked_iff distance index q j dist :
  In (j, dist) (faiss.ranked distance index q)
  <-> exists v, nth_error (faiss.xb index) j = Some v
                /\ dist = distance q v.
Proof.
  unfold faiss.ranked, Py.enumerate. rewrite sort_by_In, in_map_iff. split.
  - intros [[i v] [Heq Hin]]. simpl in Heq. injection Heq as -> <-.
    apply enumerate_from_nth in Hin. destruct Hin as [_ Hnth].
    rewrite Nat.sub_0_r in Hnth. eauto.
  - intros [v [Hnth ->]]. exists (j, v). split; [reflexivity|].
    apply enumerate_from_nth. rewrite Nat.sub_0_r. split; [lia | exact Hnth].
Qed.

Lemma sorted_firstn {A : Type} (R : A -> A -> Prop) (k : nat) (l : list A) :
  StronglySorted R l -> StronglySorted R (firstn k l).
Proof.
  revert k. induction l as [|x l IH]; intros k Hsorted.
  - now rewrite firstn_nil.
  - destruct k as [|k]; simpl; [constructor|].
    inversion Hsorted as [|? ? Htail Hx]; subst.
    constructor; [now apply IH|].
    apply Forall_forall. intros y Hy.
    rewrite Forall_forall in Hx. apply Hx.
    eapply SearchFacts.firstn_subset. exact Hy.
Qed.

Lemma sorted_app {A : Type} (R : A -> A -> Prop) (l1 l2 : list A) (a b : A) :
  StronglySorted R (l1 ++ l2) -> In a l1 -> In b l2 -> R a b.
Proof.
  induction l1 as [|x l1 IH]; simpl; intros Hsorted Ha Hb; [contradiction|].
  inversion Hsorted as [|? ? Htail Hx]; subst.
  destruct Ha as [->|Ha]; [|now apply IH].
  rewrite Forall_forall in Hx. apply Hx, in_or_app. now right.
Qed.

Lemma sorted_map {A B : Type} (R : B -> B -> Prop) (g : A -> B) (l : list A) :
  StronglySorted R (map g l) ->
  StronglySorted (fun a b => R (g a) (g b)) l.
Proof.
  induction l as [|x l IH]; simpl; intros Hsorted; [constructor|].
  inversion Hsorted as [|? ? Htail Hx]; subst.
  constructor; [now apply IH|].
  apply Forall_forall. intros y Hy. rewrite Forall_forall in Hx.
  apply Hx, in_map, Hy.
Qed.

Lemma results_ranking (dist : string -> Z) (texts : list string)
    (results : list VectorStore.SearchResult) (found : list (nat * Z)) :
  map VectorStore.index results = map (fun p => Z.of_nat (fst p)) found ->
  Forall (fun r => nth_error texts (Z.to_nat (VectorStore.index r))
                   = Some (VectorStore.content r)) results ->
  Forall (fun p => exists t, nth_error texts (fst p) = Some t
                             /\ snd p = dist t) found ->
  map (ranking dist) results = found.
Proof.
  revert found. induction results as [|r results IH];
    intros [|p found] Hidx Hnth Hdist; try discriminate; [reflexivity|].
  simpl in Hidx. injection Hidx as Hr Hrest.
  inversion Hnth as [|? ? Hr_nth Hnth']; subst.
  inversion Hdist as [|? ? [t [Ht Hp]] Hdist']; subst.
  simpl. f_equal; [|now apply IH].
  unfold ranking. rewrite Hr, Nat2Z.id in *.
  rewrite Ht in Hr_nth. injection Hr_nth as <-.
  rewrite <- Hp. now destruct p.
Qed.

End NearestFacts.

(** X19.  When an index has been built over [texts] and no more results
    are asked for than texts are stored, [similarity_search] returns the
    [k] nearest texts: exactly [k] results, each the text stored at its
    label, ordered by non-decreasing distance with ties in stored order,
    and every text left out is at least as far from the query as every
    text returned.  The distance is the one the index computes, between
    the query vector and the vector of the text, both converted to
    float32; it need not order the texts as the exact distance of the
    vectors of the embedding model does. *)
Theorem similarity_search_nearest_first :
  forall (w : World) (texts : list string) (st : State)
         (index : faiss.IndexFlatL2) (st1 : State) (query : string)
         (k : nat) (results : list VectorStore.SearchResult) (st2 : State),
    VectorStore.create_index w texts st = (Ok index, st1) ->
    VectorStore.similarity_search w query k st1 = (Ok results, st2) ->
    k <= List.length texts ->
    let dist := fun t =>
                  fvec_L2sqr w (astype_float32 (embed_model w query))
                               (astype_float32 (embed_model w t)) in
    List.length results = k
    /\ Forall (fun r => (0 <= VectorStore.index r)%Z
                        /\ nth_error texts (Z.to_nat (VectorStore.index r))
                           = Some (VectorStore.content r)) results
    /\ StronglySorted
         (fun a b =>
            (dist (VectorStore.content a) < dist (VectorStore.content b))%Z
            \/ (dist (VectorStore.content a) = dist (VectorStore.content b)
                /\ (VectorStore.index a < VectorStore.index b)%Z))
         results
    /\ (forall j t,
          nth_error texts j = Some t ->
          ~ In (Z.of_nat j) (map VectorStore.index results) ->
          forall r, In r results ->
                    (dist (VectorStore.content r) <= dist t)%Z).
Proof.
  intros w texts st index st1 q k results st2 Hcreate Hsearch Hk dist.
  destruct (OrderFacts.similarity_search_within_corpus
              _ _ _ _ _ _ _ _ _ Hcreate Hsearch Hk) as [Hidx [Hlen Hnth]].
  apply SearchFacts.create_index_ok in Hcreate.
  destruct Hcreate as [_ [Hxb _]].
  set (qv := astype_float32 (embed_model w q)) in *.
  set (found := firstn k (faiss.ranked (fvec_L2sqr w) index qv)) in *.
  assert (Hnonneg : Forall (fun r => (0 <= VectorStore.index r)%Z) results).
  { apply Forall_forall. intros r Hr.
    apply (in_map VectorStore.index) in Hr. rewrite Hidx in Hr.
    apply in_map_iff in Hr. destruct Hr as [p [<- _]]. lia. }
  assert (Hdist : Forall (fun p => exists t, nth_error texts (fst p) = Some t
                                             /\ snd p = dist t) found).
  { apply Forall_forall. intros [j dj] Hp.
    apply SearchFacts.firstn_subset, NearestFacts.ranked_iff in Hp.
    destruct Hp as [v [Hv ->]]. rewrite Hxb, !nth_error_map in Hv.
    simpl. destruct (nth_error texts j) as [t|]; [|discriminate].
    injection Hv as <-. now exists t. }
  pose proof (NearestFacts.results_ranking dist texts results found
                Hidx Hnth Hdist) as Hrank.
  split; [exact Hlen|]. split; [|split].
  - apply Forall_forall. intros r Hr. rewrite Forall_forall in Hnonneg, Hnth.
    split; auto.
  - assert (Hsorted : StronglySorted faiss.nearer
                        (map (ranking dist) results)).
    { rewrite Hrank. apply NearestFacts.sorted_firstn, OrderFacts.ranked_sorted. }
    apply NearestFacts.sorted_map in Hsorted.
    assert (Hweak : forall l,
              Forall (fun r => (0 <= VectorStore.index r)%Z) l ->
              StronglySorted
                (fun a b => faiss.nearer (ranking dist a)
                                         (ranking dist b)) l ->
              StronglySorted
                (fun a b =>
                   (dist (VectorStore.content a)
                    < dist (VectorStore.content b))%Z
                   \/ (dist (VectorStore.content a)
                       = dist (VectorStore.content b)
                       /\ (VectorStore.index a < VectorStore.index b)%Z)) l).
    { induction l as [|a l IH]; intros Hpos Hs; [constructor|].
      inversion Hpos as [|? ? Ha Hpos']; subst.
      inversion Hs as [|? ? Htail Hhead]; subst.
      constructor; [now apply IH|].
      apply Forall_forall. intros b Hb.
      rewrite Forall_forall in Hhead, Hpos'.
      specialize (Hhead b Hb). specialize (Hpos' b Hb).
      unfold faiss.nearer, ranking in Hhead. simpl in Hhead.
      destruct Hhead as [Hlt|[Heq Hlt]]; [now left | right].
      split; [exact Heq | lia]. }
    now apply Hweak.
  - intros j t Hj Hout r Hr.
    assert (Hin : In (j, dist t) (faiss.ranked (fvec_L2sqr w) index qv)).
    { apply NearestFacts.ranked_iff. exists (astype_float32 (embed_model w t)).
      split; [|reflexivity]. rewrite Hxb, !nth_error_map, Hj. reflexivity. }
    rewrite <- (firstn_skipn k (faiss.ranked (fvec_L2sqr w) index qv)) in Hin.
    apply in_app_or in Hin. destruct Hin as [Hin|Hin].
    + exfalso. apply Hout. rewrite Hidx.
      apply in_map_iff. exists (j, dist t). split; [reflexivity | exact Hin].
    + assert (Hr' : In (ranking dist r) found)
        by (rewrite <- Hrank; now apply in_map).
      pose proof (OrderFacts.ranked_sorted (fvec_L2sqr w) index qv) as Hsorted.
      rewrite <- (firstn_skipn k (faiss.ranked (fvec_L2sqr w) index qv))
        in Hsorted.
      pose proof (NearestFacts.sorted_app _ _ _ _ _ Hsorted Hr' Hin) as Hnear.
      unfold faiss.nearer, ranking in Hnear. simpl in Hnear. lia.
Qed.

Lemma similarity_search_nearest_first_witness :
  let dist := fun t =>
                fvec_L2sqr Sample.world
                  (astype_float32 (embed_model Sample.world "delta"))
                  (astype_float32 (embed_model Sample.world t)) in
  StronglySorted
    (fun a b =>
       (dist (VectorStore.content a) < dist (VectorStore.content b))%Z
       \/ (dist (VectorStore.content a) = dist (VectorStore.content b)
           /\ (VectorStore.index a < VectorStore.index b)%Z))
    [VectorStore.mkSearchResult "alpha" 0;
     VectorStore.mkSearchResult "gamma" 2].
Proof.
  refine (proj1 (proj2 (proj2
    (similarity_search_nearest_first Sample.world
       ["alpha"; "beta"; "gamma"] (Sample.state models.empty_db)
       (faiss.mkIndex 1 [[5%Z]; [4%Z]; [5%Z]])
       (snd (VectorStore.create_index Sample.world ["alpha"; "beta"; "gamma"]
               (Sample.state models.empty_db)))
       "delta" 2
       [VectorStore.mkSearchResult "alpha" 0;
        VectorStore.mkSearchResult "gamma" 2]
       (snd (VectorStore.similarity_search Sample.world "delta" 2
               (snd (VectorStore.create_index Sample.world
                       ["alpha"; "beta"; "gamma"]
                       (Sample.state models.empty_db)))))
       _ _ _)))).
  - reflexivity.
  - reflexivity.
  - simpl. lia.
Defined.

(** ** The list of chats *)

Module OverviewFacts.
Import DocumentService.

(** The loop of [get_chat_sessions] when the database answers. *)
Lemma chat_infos_run w sessions :
  (forall log, db_fault w log = None) ->
  forall st,
  exists log,
    chat_infos w sessions st
    = (Ok (map (fun s =>
                  chat_info s
                    (models.get_chat_document_count (st_db st)
                                                    (models.chat_id s))
                    (models.get_chat_messages (st_db st) (models.chat_id s)))
               sessions),
       mkState (st_db st) (st_vector_store st) (st_qa_chain st)
               (st_log st ++ log))
    /\ List.length log = 2 * List.length sessions.
Proof.
  intros Hdb. induction sessions as [|s rest IH]; intros st.
  - exists []. simpl. rewrite app_nil_r. split; [now destruct st | reflexivity].
  - simpl. run_monad. rewrite !Hdb. simpl.
    match goal with
    | |- context [chat_infos w rest ?s1] =>
        destruct (IH s1) as [log [Hrun Hlen]]; rewrite Hrun
    end.
    simpl. eexists. split.
    + rewrite <- !app_assoc. reflexivity.
    + simpl. rewrite Hlen. lia.
Qed.

Lemma sorted_map_of {A B : Type} (R : B -> B -> Prop) (g : A -> B)
    (l : list A) :
  StronglySorted (fun a b => R (g a) (g b)) l -> StronglySorted R (map g l).
Proof.
  intros Hsorted. induction Hsorted as [|x l Htail IH Hx]; simpl;
    constructor; [exact IH|].
  apply Forall_forall. intros y Hy. apply in_map_iff in Hy.
  destruct Hy as [a [<- Ha]]. rewrite Forall_forall in Hx. now apply Hx.
Qed.

Lemma preview_of_length (q : string) : Py.len (preview_of q) <= 53.
Proof.
  unfold preview_of, Py.len, Py.slice_to.
  destruct (Nat.ltb_spec 50 (String.length q)) as [Hlong|Hshort]; [|lia].
  rewrite PyFacts.length_app, PyFacts.substring_length by lia. simpl. lia.
Qed.

End OverviewFacts.

(** X20.  When the database answers, [get_chat_sessions] returns one
    entry for every stored chat, newest first, and changes nothing; it
    makes one query for the list and two for every chat.  An entry
    carries the chat's document count and message count; it has a
    preview exactly when the chat has a message, taken from the earliest
    one: the question itself when it has at most 50 characters, and
    otherwise its first 50 characters followed by three dots, so a
    preview never has more than 53 characters. *)
Theorem get_chat_sessions_overview :
  forall (w : World) (st : State),
    (forall log, db_fault w log = None) ->
    let db := st_db st in
    exists infos st',
      DocumentService.get_chat_sessions w st = (Ok infos, st')
      /\ st_db st' = db
      /\ List.length (st_log st')
         = List.length (st_log st) + 1
           + 2 * List.length (models.chat_sessions db)
      /\ List.length infos = List.length (models.chat_sessions db)
      /\ (forall chat,
            In chat (models.chat_sessions db) ->
            exists info, In info infos
                         /\ DocumentService.info_id info = models.chat_id chat
                         /\ DocumentService.info_name info = models.name chat)
      /\ StronglySorted
           (fun a b => (DocumentService.created_at b
                        <= DocumentService.created_at a)%Z) infos
      /\ Forall
           (fun info =>
              let messages :=
                models.get_chat_messages db (DocumentService.info_id info) in
              DocumentService.document_count info
              = models.get_chat_document_count db
                  (DocumentService.info_id info)
              /\ DocumentService.message_count info = List.length messages
              /\ match messages with
                 | [] => DocumentService.preview info = None
                 | first_message :: _ =>
                     exists p,
                       DocumentService.preview info = Some p
                       /\ Py.len p <= 53
                       /\ (Py.len (models.question first_message) <= 50 ->
                           p = models.question first_message)
                       /\ (50 < Py.len (models.question first_message) ->
                           p = (Py.slice_to 50
                                  (models.question first_message)
                                ++ "...")%string)
                 end) infos.
Proof.
  intros w st Hdb db.
  unfold DocumentService.get_chat_sessions. run_monad. rewrite Hdb.
  match goal with
  | |- context [DocumentService.chat_infos w ?l ?s1] =>
      destruct (OverviewFacts.chat_infos_run w l Hdb s1) as [log [Hrun Hlen]]
  end.
  rewrite Hrun. simpl in *. fold db in Hrun |- *.
  assert (Hsize : List.length (models.list_chat_sessions db)
                  = List.length (models.chat_sessions db))
    by apply sort_by_length.
  do 2 eexists. split; [reflexivity|]. simpl.
  split; [reflexivity|]. split; [|split; [|split; [|split]]].
  - rewrite !length_app, Hlen. fold db. rewrite Hsize. simpl. lia.
  - now rewrite length_map.
  - intros chat Hchat. eexists. split.
    + apply in_map. unfold models.list_chat_sessions.
      apply sort_by_In. exact Hchat.
    + split; reflexivity.
  - assert (Hsorted : StronglySorted
              (fun a b => (models.chat_createdAt b
                           <= models.chat_createdAt a)%Z)
              (models.list_chat_sessions db)).
    { unfold models.list_chat_sessions.
      eapply SortFacts.sorted_weaken; [| apply SortFacts.sort_by_sorted ].
      - intros a b Hab. now apply Z.leb_le.
      - intros a b Hab. apply Z.leb_gt in Hab. apply Z.leb_le. lia.
      - intros a b c Hab Hbc. apply Z.leb_le in Hab, Hbc.
        apply Z.leb_le. lia. }
    apply OverviewFacts.sorted_map_of. exact Hsorted.
  - apply Forall_forall. intros info Hinfo. apply in_map_iff in Hinfo.
    destruct Hinfo as [s [<- _]]. simpl.
    split; [reflexivity|]. split; [reflexivity|].
    destruct (models.get_chat_messages db (models.chat_id s)) as [|m ms];
      [reflexivity|].
    eexists. split; [reflexivity|].
    split; [apply OverviewFacts.preview_of_length|].
    unfold DocumentService.preview_of.
    split; intros Hlen'.
    + destruct (Nat.ltb_spec 50 (Py.len (models.question m))); [lia|].
      reflexivity.
    + destruct (Nat.ltb_spec 50 (Py.len (models.question m))); [|lia].
      reflexivity.
Qed.

Lemma get_chat_sessions_overview_witness :
  fst (DocumentService.get_chat_sessions Sample.world
         (Sample.state Sample.db))
  = Ok [DocumentService.mkChatInfo "c2" "Reading list" 1 21 1
          (Some "what is gamma?");
        DocumentService.mkChatInfo "c1" "New Chat" 2 20 0 None].
Proof.
  destruct (get_chat_sessions_overview Sample.world (Sample.state Sample.db))
    as [infos [st' [Hrun _]]].
  - reflexivity.
  - vm_compute in Hrun. injection Hrun as <- _. reflexivity.
Defined.

(** ** The handlers of app.py *)

Module UploadFacts.
Import models.

Lemma find_fresh_last (id : string) (docs : list Document) (doc : Document) :
  ~ In id (map doc_id docs) ->
  doc_id doc = id ->
  find (fun d => String.eqb (doc_id d) id) (docs ++ [doc]) = Some doc.
Proof.
  intros Hfresh Hid. induction docs as [|d docs IH]; simpl.
  - rewrite Hid, String.eqb_refl. reflexivity.
  - destruct (String.eqb_spec (doc_id d) id) as [Heq|_].
    + exfalso. apply Hfresh. now left.
    + apply IH. intros Hin. apply Hfresh. now right.
Qed.

Lemma find_other_last (id : string) (docs : list Document) (doc : Document) :
  doc_id doc <> id ->
  find (fun d => String.eqb (doc_id d) id) (docs ++ [doc])
  = find (fun d => String.eqb (doc_id d) id) docs.
Proof.
  intros Hother. induction docs as [|d docs IH]; simpl.
  - destruct (String.eqb_spec (doc_id doc) id); [congruence | reflexivity].
  - destruct (String.eqb (doc_id d) id); [reflexivity | exact IH].
Qed.

(** A new document whose id no association row mentions is in no chat. *)
Lemma chat_documents_of_new_document db doc new cid :
  ~ In (doc_id doc) (map snd (chat_documents db)) ->
  chat_documents_of
    (mkDB (documents db ++ [doc]) (chunks db ++ new) (chat_sessions db)
          (chat_documents db) (chat_messages db)) cid
  = chat_documents_of db cid.
Proof.
  intros Hfresh. unfold chat_documents_of. f_equal. revert Hfresh.
  unfold joined_documents, get_document. simpl.
  induction (chat_documents db) as [|row rows IH]; simpl; intros Hfresh;
    [reflexivity|].
  rewrite IH by (intros Hin; apply Hfresh; now right).
  destruct (String.eqb (fst row) cid); [|reflexivity].
  rewrite find_other_last; [reflexivity|].
  intros Heq. apply Hfresh. now left.
Qed.

Lemma not_in_chat db cid did :
  ~ In did (map doc_id (documents db)) ->
  forall new docs,
    documents new = docs ->
    chat_documents_of new cid = chat_documents_of db cid ->
    document_in_chat new cid did = false.
Proof.
  intros Hfresh new docs _ Hsame. unfold document_in_chat. rewrite Hsame.
  destruct (existsb _ _) eqn:Hex; [|reflexivity].
  apply existsb_exists in Hex. destruct Hex as [d [Hin Hid]].
  apply String.eqb_eq in Hid. exfalso. apply Hfresh.
  apply modelsFacts.chat_documents_of_In in Hin. destruct Hin as [_ Hget].
  apply modelsFacts.get_document_In in Hget.
  apply in_map_iff. exists d. now split.
Qed.

(** The database after the upload handler has returned, for one file and
    a chat that exists, when the id drawn for the new document is used
    by no stored document and no association row. *)
Lemma add_file_effect w cid path fname size st st' session :
  app.add_file w cid path fname size st = (Ok tt, st') ->
  get_chat_session (st_db st) cid = Some session ->
  ~ In (uuid4 w (st_log st)) (map doc_id (documents (st_db st))) ->
  ~ In (uuid4 w (st_log st)) (map snd (chat_documents (st_db st))) ->
  let did := uuid4 w (st_log st) in
  let doc := mkDocument did (Py.basename path) fname size
                        (now w (st_log st)) false in
  exists text new,
    pdf_text w (st_log st ++ [EvDb "create_document"]) path = Ok text
    /\ map content new
       = map PDFProcessor.content (PDFProcessor.chunk_text text)
    /\ let db1 := mkDB (documents (st_db st) ++ [doc])
                       (chunks (st_db st) ++ new)
                       (chat_sessions (st_db st))
                       (chat_documents (st_db st) ++ [(cid, did)])
                       (chat_messages (st_db st)) in
       chat_documents_of db1 cid
       = insert_by id_le doc (chat_documents_of (st_db st) cid)
       /\ st_db st'
          = if Nat.eqb (List.length (chat_documents_of (st_db st) cid)) 0
               && (Py.contains "New Chat" (name session)
                   || Py.contains "Chat " (name session))
            then rename_chat_session db1 cid
                   (DocumentService._generate_smart_chat_name fname)
            else db1.
Proof.
  intros Hrun Hchat Hdocs Hrows did doc.
  unfold app.add_file, bind in Hrun.
  destruct (DocumentService.process_pdf w path fname size st)
    as [[stored|e] st1] eqn:Hprocess; [|discriminate].
  destruct (IngestFacts2.process_pdf_effect _ _ _ _ _ _ _ Hprocess)
    as [text [new [Htext [Hstored [Hdb1 [Hnew _]]]]]].
  fold did in Hstored. fold doc in Hstored. subst stored.
  pose proof (AddFacts.add_document_to_chat_db _ _ _ _ _ Hrun) as Hdb'.
  cbv zeta in Hdb'. cbn [doc_id doc] in Hdb', Hrun.
  fold did in Hdocs, Hrows.
  assert (Hchat1 : get_chat_session (st_db st1) cid = Some session).
  { unfold get_chat_session in *. now rewrite Hdb1. }
  assert (Hget1 : get_document (st_db st1) did = Some doc).
  { unfold get_document. rewrite Hdb1. simpl.
    now apply find_fresh_last. }
  assert (Hof1 : chat_documents_of (st_db st1) cid
                 = chat_documents_of (st_db st) cid).
  { rewrite Hdb1. now apply chat_documents_of_new_document. }
  assert (Hout : document_in_chat (st_db st1) cid did = false)
    by (eapply not_in_chat; [exact Hdocs | reflexivity | exact Hof1]).
  set (db1 := add_document_to_chat (st_db st1) cid did) in *.
  assert (Hdb1' : db1 = mkDB (documents (st_db st1)) (chunks (st_db st1))
                             (chat_sessions (st_db st1))
                             (chat_documents (st_db st1) ++ [(cid, did)])
                             (chat_messages (st_db st1))).
  { unfold db1, add_document_to_chat. now rewrite Hchat1, Hget1, Hout. }
  assert (Hof : chat_documents_of db1 cid
                = insert_by id_le doc (chat_documents_of (st_db st) cid)).
  { rewrite Hdb1', <- Hof1. now apply ChatFacts.chat_documents_of_added. }
  assert (Hchat' : get_chat_session db1 cid = Some session)
    by (rewrite Hdb1'; exact Hchat1).
  assert (Hget' : get_document db1 did = Some doc)
    by (rewrite Hdb1'; exact Hget1).
  rewrite Hchat', Hof, Hget', insert_by_length in Hdb'.
  cbn [originalName doc Nat.eqb] in Hdb'.
  exists text, new. split; [exact Htext|]. split; [exact Hnew|].
  assert (Hshape : db1 = mkDB (documents (st_db st) ++ [doc])
                              (chunks (st_db st) ++ new)
                              (chat_sessions (st_db st))
                              (chat_documents (st_db st) ++ [(cid, did)])
                              (chat_messages (st_db st)))
    by (rewrite Hdb1', Hdb1; reflexivity).
  rewrite <- Hshape. split; [exact Hof | exact Hdb'].
Qed.

End UploadFacts.

(** X22.  The upload handler, for one file and a chat that exists, when
    the id drawn for the new document is used by no stored document and
    no association row.  If the handler returns, the new document has
    joined the documents of the chat, which the relationship loads in
    the order of their ids.  If the chat had no document and its name
    contains "New Chat" or "Chat ", the chat now carries the name
    derived from the file's name (for a file name whose title case
    stays within the characters of the model); every name given by the
    "New Chat" button contains "Chat ".  If the chat already had a
    document, no chat is renamed. *)
Theorem first_upload_names_chat :
  forall (w : World) (chat_id file_path file_name : string) (file_size : Z)
         (st st' : State) (session : models.ChatSession),
    app.add_file w chat_id file_path file_name file_size st = (Ok tt, st') ->
    models.get_chat_session (st_db st) chat_id = Some session ->
    ~ In (uuid4 w (st_log st))
         (map models.doc_id (models.documents (st_db st))) ->
    ~ In (uuid4 w (st_log st))
         (map snd (models.chat_documents (st_db st))) ->
    let doc := models.mkDocument (uuid4 w (st_log st))
                 (Py.basename file_path) file_name file_size
                 (now w (st_log st)) false in
    models.chat_documents_of (st_db st') chat_id
    = insert_by models.id_le doc (models.chat_documents_of (st_db st) chat_id)
    /\ (models.chat_documents_of (st_db st) chat_id = [] ->
        Py.contains "New Chat" (models.name session)
        || Py.contains "Chat " (models.name session) = true ->
        Py.in_range file_name = true ->
        models.get_chat_session (st_db st') chat_id
        = Some (models.mkChatSession
                  (models.chat_id session)
                  (DocumentService._generate_smart_chat_name file_name)
                  (models.chat_createdAt session)))
    /\ (models.chat_documents_of (st_db st) chat_id <> [] ->
        models.chat_sessions (st_db st') = models.chat_sessions (st_db st))
    /\ (forall timestamp,
          Py.contains "Chat " (app.chat_name timestamp) = true).
Proof.
  intros w cid path fname size st st' session Hrun Hchat Hdocs Hrows doc.
  destruct (UploadFacts.add_file_effect _ _ _ _ _ _ _ _ Hrun Hchat Hdocs Hrows)
    as [text [new [_ [_ [Hof Hdb']]]]].
  fold doc in Hof, Hdb'.
  split; [|split; [|split]].
  - rewrite <- Hof.
    destruct (_ && _) in Hdb'; rewrite Hdb'; [|reflexivity].
    now apply ChatFacts.chat_documents_of_same_tables.
  - intros Hnone Hname _. rewrite Hnone, Hname in Hdb'. simpl in Hdb'.
    rewrite Hdb'. unfold models.get_chat_session in *. simpl.
    now apply RenameFacts.rename_first_found.
  - intros Hsome.
    replace (Nat.eqb _ 0) with false in Hdb'.
    + simpl in Hdb'. rewrite Hdb'. reflexivity.
    + symmetry. apply Nat.eqb_neq.
      destruct (models.chat_documents_of (st_db st) cid);
        [congruence | simpl; lia].
  - intros ts. apply PyFacts.contains_prefix. unfold app.chat_name.
    apply PyFacts.prefix_app.
Qed.

Lemma first_upload_names_chat_witness :
  let st1 := snd (app.new_chat Sample.world "11/03 14:05"
                    (Sample.state models.empty_db)) in
  let st2 := snd (app.add_file Sample.world "0" "/tmp/tmp1.pdf"
                    "annual_report-2024.pdf" 900 st1) in
  models.get_chat_session (st_db st2) "0"
  = Some (models.mkChatSession "0" "Annual Report 2024" 0).
Proof.
  intros st1 st2.
  refine (proj1 (proj2
    (first_upload_names_chat Sample.world "0" "/tmp/tmp1.pdf"
       "annual_report-2024.pdf" 900 st1 st2
       (models.mkChatSession "0" "Chat 11/03 14:05" 0) _ _ _ _)) _ _ _).
  - vm_compute. reflexivity.
  - reflexivity.
  - simpl. intros [].
  - simpl. intros [].
  - reflexivity.
  - vm_compute. reflexivity.
  - vm_compute. reflexivity.
Defined.

(** ** A PDF without text *)

Module ContentFacts.
Import DocumentService.

(** [ask_question] on a chat with documents but without chunks. *)
Lemma no_content_run w cid q st :
  db_fault w (st_log st) = None ->
  db_fault w (st_log st ++ [EvDb "get_chat_session"]) = None ->
  models.get_chat_session (st_db st) cid <> None ->
  models.chat_documents_of (st_db st) cid <> [] ->
  retrieval_pool (st_db st) cid = [] ->
  ask_question w cid q st
  = (Ok (NoContent, mkAnswer no_content_message None),
     mkState (st_db st) (st_vector_store st) (st_qa_chain st)
             ((st_log st ++ [EvDb "get_chat_session"])
              ++ [EvDb "get_chunks_for_documents"])).
Proof.
  intros Hdb Hdb2 Hchat Hdocs Hpool.
  unfold ask_question, try_except, bind.
  rewrite (SystemFacts.get_chat_session_run w cid st Hdb).
  unfold retrieval_pool in Hpool.
  destruct (models.get_chat_session (st_db st) cid) as [session|];
    [|congruence].
  destruct (models.chat_documents_of (st_db st) cid) as [|doc docs] eqn:Hd;
    [congruence|].
  rewrite (RouteFacts.retriever_none_run w (map models.doc_id (doc :: docs))
             (mkState (st_db st) (st_vector_store st) (st_qa_chain st)
                      (st_log st ++ [EvDb "get_chat_session"])));
    [reflexivity | discriminate | exact Hdb2 | exact Hpool].
Qed.

Lemma nil_of_no_member {A : Type} (l : list A) :
  (forall x, ~ In x l) -> l = [].
Proof.
  destruct l as [|x l]; [reflexivity|]. intros H.
  exfalso. apply (H x). now left.
Qed.

End ContentFacts.

(** X24.  A PDF from which no text can be extracted is stored without
    any chunk, and a chat that holds only such documents cannot be
    questioned.  Let the upload handler return for a file whose
    extracted text is empty, on a chat that exists and had nothing to
    retrieve from, with an id for the new document that no stored
    document, association row or chunk uses.  Then no chunk has been
    added, the document is in the chat, there is still nothing to
    retrieve from, and while the database answers [ask_question] returns
    the fixed "no content" message for every question, storing
    nothing. *)
Theorem textless_upload_has_no_content :
  forall (w : World) (chat_id file_path file_name : string) (file_size : Z)
         (st st' : State) (session : models.ChatSession),
    app.add_file w chat_id file_path file_name file_size st = (Ok tt, st') ->
    models.get_chat_session (st_db st) chat_id = Some session ->
    ~ In (uuid4 w (st_log st))
         (map models.doc_id (models.documents (st_db st))) ->
    ~ In (uuid4 w (st_log st))
         (map snd (models.chat_documents (st_db st))) ->
    ~ In (uuid4 w (st_log st))
         (map models.documentId (models.chunks (st_db st))) ->
    pdf_text w (st_log st ++ [EvDb "create_document"]) file_path
    = Ok EmptyString ->
    retrieval_pool (st_db st) chat_id = [] ->
    models.chunks (st_db st') = models.chunks (st_db st)
    /\ (exists doc,
          In doc (models.chat_documents_of (st_db st') chat_id)
          /\ models.originalName doc = file_name)
    /\ retrieval_pool (st_db st') chat_id = []
    /\ (forall question st1,
          st_db st1 = st_db st' ->
          db_fault w (st_log st1) = None ->
          db_fault w (st_log st1 ++ [EvDb "get_chat_session"]) = None ->
          exists st2,
            DocumentService.ask_question w chat_id question st1
            = (Ok (DocumentService.NoContent,
                   mkAnswer DocumentService.no_content_message None), st2)
            /\ st_db st2 = st_db st').
Proof.
  intros w cid path fname size st st' session Hrun Hchat Hdocs Hrows Hchunks
         Htext Hpool.
  destruct (UploadFacts.add_file_effect _ _ _ _ _ _ _ _ Hrun Hchat Hdocs Hrows)
    as [text [new [Htext' [Hnew [Hof Hdb']]]]].
  rewrite Htext in Htext'. injection Htext' as <-.
  assert (Hnone : new = []) by (now destruct new).
  subst new. rewrite app_nil_r in Hof, Hdb'.
  set (did := uuid4 w (st_log st)) in *.
  set (doc := models.mkDocument did (Py.basename path) fname size
                                (now w (st_log st)) false) in *.
  set (db1 := models.mkDB (models.documents (st_db st) ++ [doc])
                          (models.chunks (st_db st))
                          (models.chat_sessions (st_db st))
                          (models.chat_documents (st_db st) ++ [(cid, did)])
                          (models.chat_messages (st_db st))) in *.
  assert (Htables : models.documents (st_db st') = models.documents db1
                    /\ models.chunks (st_db st') = models.chunks (st_db st)
                    /\ models.chat_documents (st_db st')
                       = models.chat_documents db1
                    /\ models.get_chat_session (st_db st') cid <> None).
  { destruct (_ && _) in Hdb'; rewrite Hdb'.
    - repeat split. unfold models.get_chat_session in *. simpl.
      now rewrite (RenameFacts.rename_first_found _ _ _ _ Hchat).
    - repeat split. unfold models.get_chat_session in *. simpl.
      now rewrite Hchat. }
  destruct Htables as [Hd [Hc [Hr Hs]]].
  assert (Hof' : models.chat_documents_of (st_db st') cid
                 = insert_by models.id_le doc
                     (models.chat_documents_of (st_db st) cid)).
  { rewrite <- Hof. now apply ChatFacts.chat_documents_of_same_tables. }
  assert (Hpool' : retrieval_pool (st_db st') cid = []).
  { apply ContentFacts.nil_of_no_member. intros c Hin.
    apply PoolFacts2.retrieval_pool_iff in Hin.
    destruct Hin as [_ [Hc_in [d [Hd_in Hid]]]].
    rewrite Hc in Hc_in. rewrite Hof' in Hd_in.
    apply insert_by_In in Hd_in. destruct Hd_in as [-> | Hold].
    - apply Hchunks. simpl in Hid. rewrite Hid. now apply in_map.
    - assert (Hin : In c (retrieval_pool (st_db st) cid)).
      { apply PoolFacts2.retrieval_pool_iff.
        split; [congruence|]. split; [exact Hc_in|]. now exists d. }
      now rewrite Hpool in Hin. }
  split; [exact Hc|]. split; [|split; [exact Hpool'|]].
  - exists doc. split; [|reflexivity].
    rewrite Hof'. apply insert_by_In. now left.
  - intros q st1 Hsame Hdb1 Hdb2. eexists. split.
    + apply ContentFacts.no_content_run;
        [exact Hdb1 | exact Hdb2 | | | ]; rewrite Hsame;
        [exact Hs | | exact Hpool'].
      rewrite Hof'. intros Hnil. apply (f_equal (@List.length _)) in Hnil.
      rewrite insert_by_length in Hnil. discriminate.
    + simpl. exact Hsame.
Qed.

Lemma textless_upload_has_no_content_witness :
  let st1 := snd (app.new_chat Sample.world_scanned "11/03 14:05"
                    (Sample.state models.empty_db)) in
  let st2 := snd (app.add_file Sample.world_scanned "0" "/tmp/tmp1.pdf"
                    "scan.pdf" 900 st1) in
  models.get_chat_session (st_db st2) "0"
  = Some (models.mkChatSession "0" "Scan" 0)
  /\ fst (DocumentService.ask_question Sample.world_scanned "0"
            "What is alpha?" st2)
     = Ok (DocumentService.NoContent,
           mkAnswer DocumentService.no_content_message None).
Proof.
  intros st1 st2. split; [reflexivity|].
  destruct (proj2 (proj2 (proj2
    (textless_upload_has_no_content Sample.world_scanned "0" "/tmp/tmp1.pdf"
       "scan.pdf" 900 st1 st2
       (models.mkChatSession "0" "Chat 11/03 14:05" 0)
       eq_refl eq_refl
       ltac:(simpl; intros [])
       ltac:(simpl; intros [])
       ltac:(simpl; intros [])
       eq_refl eq_refl)))
    "What is alpha?" st2 eq_refl eq_refl eq_refl) as [st3 [Hask _]].
  rewrite Hask. reflexivity.
Defined.

(** X21.  The page shows the question box only for a chat with
    documents, and [ask_question] agrees with that test.  The test
    changes nothing in the database; it succeeds exactly when the chat
    exists and has a document.  An [ask_question] that follows it
    answers "no documents" only where the test fails, and where the test
    fails it answers nothing but "no documents", or the apology when the
    database then fails. *)
Theorem question_box_agrees_with_ask_question :
  forall (w : World) (chat_id : string) (st : State) (shown : bool)
         (st1 : State),
    app.question_box_shown w chat_id st = (Ok shown, st1) ->
    st_db st1 = st_db st
    /\ (shown = true <->
        models.get_chat_session (st_db st) chat_id <> None
        /\ models.chat_documents_of (st_db st) chat_id <> [])
    /\ (forall question tier answer st2,
          DocumentService.ask_question w chat_id question st1
          = (Ok (tier, answer), st2) ->
          (tier = DocumentService.NoDocuments -> shown = false)
          /\ (shown = false ->
              (tier = DocumentService.NoDocuments
               /\ answer = mkAnswer DocumentService.no_documents_message None
               /\ st_db st2 = st_db st)
              \/ (tier = DocumentService.Apology
                  /\ db_fault w (st_log st1) <> None))).
Proof.
  intros w cid st shown st1 Hshown.
  unfold app.question_box_shown, DocumentService.get_chat_documents,
    DocumentService.get_chat_session in Hshown.
  run_monad.
  destruct (db_fault w (st_log st)) as [e|]; [discriminate|].
  simpl in Hshown.
  assert (Hdb : st_db st1 = st_db st).
  { destruct (models.get_chat_session (st_db st) cid);
      injection Hshown as _ <-; reflexivity. }
  assert (Hiff : shown = true <->
                 models.get_chat_session (st_db st) cid <> None
                 /\ models.chat_documents_of (st_db st) cid <> []).
  { destruct (models.get_chat_session (st_db st) cid) as [session|].
    - destruct (models.chat_documents_of (st_db st) cid) as [|doc docs];
        injection Hshown as <- _; simpl; split;
        try discriminate; try (intros [_ H]; congruence).
      intros _. split; discriminate.
    - injection Hshown as <- _. split; [discriminate|].
      intros [H _]. congruence. }
  split; [exact Hdb|]. split; [exact Hiff|].
  intros q tier answer st2 Hask. split.
  - intros ->.
    destruct (RouteFacts.ask_question_tiers _ _ _ _ _ _ _ Hask)
      as [st' Hchat].
    destruct (db_fault w (st_log st1)) as [e|] eqn:Hfault.
    { unfold DocumentService.get_chat_session in Hchat. run_monad.
      rewrite Hfault in Hchat. destruct Hchat as [H|[s H]]; discriminate. }
    rewrite (SystemFacts.get_chat_session_run w cid st1 Hfault), Hdb
      in Hchat.
    destruct shown; [|reflexivity].
    destruct (proj1 Hiff eq_refl) as [Hsome Hdocs].
    destruct (models.get_chat_session (st_db st) cid) as [session|];
      [|congruence].
    destruct Hchat as [H|[s H]]; [discriminate|].
    injection H as _ Hnone _. congruence.
  - intros ->.
    unfold DocumentService.ask_question, try_except, bind in Hask.
    destruct (db_fault w (st_log st1)) as [e|] eqn:Hfault.
    + right. split; [|discriminate].
      unfold DocumentService.get_chat_session in Hask. run_monad.
      rewrite Hfault in Hask. now injection Hask as <- _ _.
    + left.
      rewrite (SystemFacts.get_chat_session_run w cid st1 Hfault), Hdb
        in Hask.
      destruct (models.get_chat_session (st_db st) cid) as [session|].
      * destruct (models.chat_documents_of (st_db st) cid) as [|doc docs].
        -- unfold ret in Hask. injection Hask as <- <- <-. repeat split.
        -- exfalso.
           assert (false = true); [|discriminate].
           apply Hiff. split; discriminate.
      * unfold ret in Hask. injection Hask as <- <- <-. repeat split.
Qed.

Lemma question_box_agrees_with_ask_question_witness :
  fst (DocumentService.ask_question Sample.world "c1" "What is alpha?"
         (snd (app.question_box_shown Sample.world "c1"
                 (Sample.state Sample.db_fresh))))
  = Ok (DocumentService.NoDocuments,
        mkAnswer DocumentService.no_documents_message None).
Proof.
  destruct (proj2 (proj2 (question_box_agrees_with_ask_question
              Sample.world "c1" (Sample.state Sample.db_fresh) false
              (snd (app.question_box_shown Sample.world "c1"
                      (Sample.state Sample.db_fresh)))
              eq_refl))
              "What is alpha?" DocumentService.NoDocuments
              (mkAnswer DocumentService.no_documents_message None)
              (snd (DocumentService.ask_question Sample.world "c1"
                      "What is alpha?"
                      (snd (app.question_box_shown Sample.world "c1"
                              (Sample.state Sample.db_fresh)))))
              eq_refl) as [_ Hnone].
  destruct (Hnone eq_refl) as [[_ [_ _]]|[Htier _]]; [|discriminate].
  reflexivity.
Defined.

(** ** The tools of the agent *)

Module ToolFacts.

Lemma contains_leading (a b c rest : string) :
  Py.contains (a ++ b ++ c) (a ++ b ++ c ++ rest) = true.
Proof.
  apply PyFacts.contains_prefix.
  replace (a ++ b ++ c ++ rest)%string with ((a ++ b ++ c) ++ rest)%string
    by now rewrite !PyFacts.app_assoc.
  apply PyFacts.prefix_app.
Qed.

End ToolFacts.

(** X23.  The SystemInfo tool of the agent, on the metadata that
    [ask_question] builds from the documents of a chat: it does not look
    at its query, it never raises when the chat has a document, and its
    text names every document of the chat and gives the sum of their
    file sizes in bytes. *)
Theorem system_info_tool_reports_documents :
  forall (docs : list models.Document) (q : string),
    docs <> [] ->
    exists info,
      QAService.system_info_tool_func
        (DocumentService.documents_info_of docs) q = Ok info
      /\ (forall q',
            QAService.system_info_tool_func
              (DocumentService.documents_info_of docs) q' = Ok info)
      /\ (forall doc, In doc docs ->
                      Py.contains (models.originalName doc) info = true)
      /\ Py.contains
           ("Total file size: "
            ++ Py.str_of_Z (Py.sum (map models.fileSize docs)) ++ " bytes")
           info = true.
Proof.
  intros docs q Hne.
  unfold QAService.system_info_tool_func, QAService.system_info_tail,
    DocumentService.documents_info_of.
  cbn [count names total_size].
  destruct docs as [|d [|d' rest]]; [congruence| |].
  - eexists. split; [reflexivity|]. split; [reflexivity|]. split.
    + intros doc [<-|[]]. apply PyFacts.contains_middle.
    + do 3 apply PyFacts.contains_app_r.
      apply ToolFacts.contains_leading.
  - set (docs := d :: d' :: rest).
    eexists. split; [reflexivity|]. split; [reflexivity|]. split.
    + intros doc Hdoc.
      do 3 apply PyFacts.contains_app_r. apply PyFacts.contains_app_l.
      apply PyFacts.contains_join. now apply in_map.
    + do 5 apply PyFacts.contains_app_r.
      apply ToolFacts.contains_leading.
Qed.

Lemma system_info_tool_reports_documents_witness :
  QAService.system_info_tool_func
    (DocumentService.documents_info_of [Sample.doc_a; Sample.doc_b])
    "which files?"
  = Ok ("Currently loaded documents (2): A.pdf, B.pdf" ++ QAService.newline
        ++ "Total file size: 2000 bytes" ++ QAService.newline
        ++ "Document type: PDF" ++ QAService.newline
        ++ "Status: Processed and indexed" ++ QAService.newline)%string.
Proof.
  destruct (system_info_tool_reports_documents
              [Sample.doc_a; Sample.doc_b] "which files?")
    as [info [Hrun _]].
  - discriminate.
  - rewrite Hrun. vm_compute in Hrun. injection Hrun as <-. reflexivity.
Defined.

(** ** The retriever of a chat *)

Module TopFacts.

Lemma docs_of_labels_padding texts m :
  docs_of_labels texts (repeat (-1)%Z m) = [].
Proof. induction m as [|m IH]; simpl; [reflexivity | exact IH]. Qed.

(** Every label of a stored text yields a passage; the padding yields
    none. *)
Lemma docs_of_labels_found texts found m :
  Forall (fun i => (0 <= i < Z.of_nat (List.length texts))%Z) found ->
  List.length (docs_of_labels texts (found ++ repeat (-1)%Z m))
  = List.length found.
Proof.
  induction found as [|i found IH]; intros Hall; simpl.
  - now rewrite docs_of_labels_padding.
  - inversion Hall as [|? ? Hi Hrest]; subst.
    destruct (Z.eqb_spec i (-1)); [lia|].
    destruct (nth_error texts (Z.to_nat i)) eqn:Hnth.
    + simpl. now rewrite IH.
    + apply nth_error_None in Hnth. lia.
Qed.

End TopFacts.

(** X25.  The retriever of a chat is rebuilt from the texts of the
    chunks on every call: [get_multi_document_retriever] reads the
    chunks of the given documents, embeds all their texts again in one
    call and does not use the embeddings stored with the chunks.  The
    retriever it returns holds these texts in the order of the query,
    with their vectors converted to float32, and is set to five results; a retrieval with it that returns gives five
    passages, or all of them when there are fewer than five, and every
    passage is one of these texts. *)
Theorem retriever_rebuilt_from_texts :
  forall (w : World) (document_ids : list string) (st : State)
         (retriever : Retriever) (st1 : State),
    DocumentService.get_multi_document_retriever w document_ids st
    = (Ok (Some retriever), st1) ->
    let texts := map models.content
                     (models.get_chunks_for_documents (st_db st)
                                                      document_ids) in
    r_texts retriever = texts
    /\ r_k retriever = 5
    /\ faiss.xb (r_index retriever)
       = map astype_float32 (map (embed_model w) texts)
    /\ st_db st1 = st_db st
    /\ st_log st1
       = (st_log st ++ [EvDb "get_chunks_for_documents";
                        EvEmbedDocuments texts])%list
    /\ (forall query st2 passages st3,
          get_relevant_documents w retriever query st2
          = (Ok passages, st3) ->
          List.length passages = Nat.min 5 (List.length texts)
          /\ incl passages texts).
Proof.
  intros w ids st r st1 Hbuild texts.
  assert (Hshape : r_texts r = texts /\ r_k r = 5
                   /\ faiss.xb (r_index r)
                      = map astype_float32 (map (embed_model w) texts)
                   /\ st_db st1 = st_db st
                   /\ st_log st1
                      = (st_log st ++ [EvDb "get_chunks_for_documents";
                                       EvEmbedDocuments texts])%list).
  { unfold DocumentService.get_multi_document_retriever in Hbuild.
    destruct ids as [|i ids]; [discriminate|].
    unfold VectorStore.build_langchain_faiss in Hbuild. run_monad.
    destruct (db_fault w (st_log st)) as [[e|e]|]; try discriminate.
    subst texts.
    destruct (models.get_chunks_for_documents (st_db st) (i :: ids))
      as [|c cs] eqn:Hchunks; [discriminate|].
    simpl in Hbuild. destruct (embed_fault w _); [discriminate|].
    simpl in Hbuild.
    destruct (np_array _) as [array|] eqn:Harray; run_monad; [|discriminate].
    apply RetrieverFacts.np_array_ok in Harray. subst array.
    injection Hbuild as <- <-. simpl.
    rewrite <- app_assoc. repeat split. }
  destruct Hshape as [Htexts [Hk [Hxb [Hdb Hlog]]]].
  repeat (split; [assumption|]).
  intros q st2 passages st3 Hrun. split.
  - unfold get_relevant_documents in Hrun. run_monad.
    destruct (embed_fault w (st_log st2)); [discriminate|].
    unfold faiss.search in Hrun.
    destruct (Nat.eqb _ _); run_monad; [|discriminate].
    injection Hrun as <- _. rewrite Hk, Htexts.
    rewrite TopFacts.docs_of_labels_found.
    + rewrite length_map, length_firstn, SearchFacts.ranked_length.
      unfold faiss.ntotal. now rewrite Hxb, !length_map.
    + apply Forall_forall. intros i Hi. apply in_map_iff in Hi.
      destruct Hi as [p [<- Hp]].
      apply SearchFacts.firstn_subset, SearchFacts.ranked_labels in Hp.
      unfold faiss.ntotal in Hp. rewrite Hxb, !length_map in Hp. lia.
  - rewrite <- Htexts.
    eapply RetrieverFacts.get_relevant_documents_incl. exact Hrun.
Qed.

Lemma retriever_rebuilt_from_texts_witness :
  let built := DocumentService.get_multi_document_retriever Sample.world
                 ["d1"; "d2"] (Sample.state Sample.db) in
  fst built
  = Ok (Some (mkRetriever ["alpha"; "beta"; "gamma"]
                          (faiss.mkIndex 1 [[5%Z]; [4%Z]; [5%Z]]) 5))
  /\ st_log (snd built)
     = [EvDb "get_chunks_for_documents";
        EvEmbedDocuments ["alpha"; "beta"; "gamma"]].
Proof.
  intros built. split; [reflexivity|].
  exact (proj1 (proj2 (proj2 (proj2 (proj2
           (retriever_rebuilt_from_texts Sample.world ["d1"; "d2"]
              (Sample.state Sample.db)
              (mkRetriever ["alpha"; "beta"; "gamma"]
                           (faiss.mkIndex 1 [[5%Z]; [4%Z]; [5%Z]]) 5)
              (snd built) eq_refl)))))).
Defined.
